(** * readlif: the LIF container reader ([readlif/reader.py])

    A shallow embedding of the block scanner, the descriptor builder and the
    frame accessors of [reader.py], followed by the properties checked
    against it.

    Conventions of the embedding.
    - Python [int] is [Z]; [bytes] is [list byte]; a Python list or tuple is
      a [list], indexed by [py_getitem], which raises [IndexError] as Python
      does.
    - A raised exception is the [Raise] constructor of [result].  Code that
      works on an open file runs in the monad [IO], which threads the file
      position and keeps it when an exception is raised, as a Python file
      object does.
    - [float] is Rocq's primitive binary64 float, the type of Python's
      [float].
    - The XML library, NumPy and PIL are outside the repository; the few of
      their operations that [reader.py] calls are modelled next to their
      first use, each with the behaviour it is taken to have. *)

From Stdlib Require Import ZArith List String Ascii Bool Lia Floats.
From Stdlib Require Import Strings.Byte DecimalString.
Import ListNotations.

Local Open Scope string_scope.
Local Open Scope list_scope.
Local Open Scope Z_scope.

(** ** Python values, exceptions and results *)

Inductive exn : Type :=
| ValueError (msg : string)
| IndexError
| TypeError
| OSError
| OverflowError
| ZeroDivisionError
| StructError           (* struct.error *)
| FuelExhausted.        (* not a Python exception: the bound of [scan_loop] was hit *)

Inductive result (A : Type) : Type :=
| Ok (a : A)
| Raise (e : exn).
Arguments Ok {A} a.
Arguments Raise {A} e.

Definition rbind {A B} (r : result A) (k : A -> result B) : result B :=
  match r with
  | Ok a => k a
  | Raise e => Raise e
  end.

Declare Scope result_scope.
Delimit Scope result_scope with res.
Notation "x <- c ;; k" := (rbind c (fun x => k))
  (at level 61, c at next level, right associativity) : result_scope.

(** [str(n)] for an [int]. *)
Definition str (n : Z) : string := NilZero.string_of_int (Z.to_int n).

Definition len {A} (l : list A) : Z := Z.of_nat (List.length l).

(** [l[i]]: a negative index counts from the end; out of range raises
    [IndexError]. *)
Definition py_getitem {A} (l : list A) (i : Z) : result A :=
  let j := if i <? 0 then i + len l else i in
  if j <? 0 then Raise IndexError
  else match nth_error l (Z.to_nat j) with
       | Some a => Ok a
       | None => Raise IndexError
       end.

(** [l[:k]] and [l[k:]] for [0 <= k], and [l[-2:]]. *)
Definition slice_to {A} (k : nat) (l : list A) : list A := firstn k l.
Definition slice_from {A} (k : nat) (l : list A) : list A := skipn k l.
Definition slice_last2 {A} (l : list A) : list A := skipn (List.length l - 2) l.

(** [int(a / b)] for two [int]s: the quotient is the binary64 float
    nearest to [a / b] ([OverflowError] when that is beyond the largest
    float) and [int] truncates it towards zero.  For [|a| < 2^53] the float
    truncates to [Z.quot a b]; the properties below that go through this
    division on a block length carry that bound. *)
Definition float_overflow_bound : Z := 2 ^ 1024 - 2 ^ 970.
#[global] Opaque float_overflow_bound.

Definition int_truediv (a b : Z) : result Z :=
  if b =? 0 then Raise ZeroDivisionError
  else if float_overflow_bound * Z.abs b <=? Z.abs a then Raise OverflowError
  else Ok (Z.quot a b).

(** [float(n)] for an [int]: the nearest binary64 value, [OverflowError]
    when there is none. *)
Definition float_of_int (n : Z) : result float :=
  let f := SF2Prim (binary_normalize prec emax n 0 false) in
  if PrimFloat.is_infinity f then Raise OverflowError else Ok f.

(** [a / b] on floats: Python raises on a zero divisor. *)
Definition float_truediv (a b : float) : result float :=
  if PrimFloat.eqb b 0%float then Raise ZeroDivisionError
  else Ok (a / b)%float.

(** [n / x] and [x * n] with [n] an [int] and [x] a [float]. *)
Definition int_div_float (n : Z) (x : float) : result float :=
  (a <- float_of_int n ;; float_truediv a x)%res.

Definition float_mul_int (x : float) (n : Z) : result float :=
  (b <- float_of_int n ;; Ok (x * b)%float)%res.

(** ** Bytes *)

Fixpoint bytes_eqb (a b : list byte) : bool :=
  match a, b with
  | [], [] => true
  | x :: a', y :: b' => Byte.eqb x y && bytes_eqb a' b'
  | _, _ => false
  end.

(** Little-endian unsigned value of a byte string. *)
Fixpoint le_to_Z (bs : list byte) : Z :=
  match bs with
  | [] => 0
  | b :: bs' => Z.of_N (Byte.to_N b) + 256 * le_to_Z bs'
  end.

(** [struct.unpack("I", b)] and [struct.unpack("Q", b)] on a little-endian
    host: the buffer must have exactly the size of the format. *)
Definition struct_unpack (size : nat) (b : list byte) : result Z :=
  if Nat.eqb (List.length b) size then Ok (le_to_Z b) else Raise StructError.

(** ** A binary file object *)

Record handle : Type := mkHandle { h_bytes : list byte; h_pos : Z }.

Definition IO (A : Type) : Type := handle -> result A * handle.

Definition ret {A} (a : A) : IO A := fun h => (Ok a, h).
Definition raise {A} (e : exn) : IO A := fun h => (Raise e, h).
Definition bind {A B} (c : IO A) (k : A -> IO B) : IO B :=
  fun h => match c h with
           | (Ok a, h') => k a h'
           | (Raise e, h') => (Raise e, h')
           end.

Declare Scope io_scope.
Delimit Scope io_scope with io.
Notation "x <- c ;; k" := (bind c (fun x => k))
  (at level 61, c at next level, right associativity) : io_scope.
Notation "c ;; k" := (bind c (fun _ => k))
  (at level 61, right associativity) : io_scope.

(** [try: body / except ValueError: handler]; the handler sees the file
    where the body left it and can re-raise what it caught. *)
Definition try_except_ValueError {A} (body : IO A) (handler : exn -> IO A) : IO A :=
  fun h => match body h with
           | (Raise (ValueError msg), h') => handler (ValueError msg) h'
           | r => r
           end.

Definition lift {A} (r : result A) : IO A := fun h => (r, h).

(** [f.tell()]. *)
Definition tell : IO Z := fun h => (Ok (h_pos h), h).

(** [f.read(n)]: at most [n] bytes from the current position, fewer at the
    end of the file; [n = -1] reads to the end. *)
Definition read (n : Z) : IO (list byte) :=
  fun h =>
    if n <? -1 then (Raise (ValueError "read length must be non-negative or -1"), h)
    else
      let rest := skipn (Z.to_nat (h_pos h)) (h_bytes h) in
      let got := if n =? -1 then rest else firstn (Z.to_nat n) rest in
      (Ok got, mkHandle (h_bytes h) (h_pos h + len got)).

(** [f.seek(off, whence)]: a position before the start of the file is an
    [OSError]; an offset that does not fit a signed 64-bit integer is
    refused by the buffered reader with a [ValueError]; seeking past the
    end is allowed. *)
Definition seek (off : Z) (whence : Z) : IO Z :=
  fun h =>
    if (off <? - 2^63) || (2^63 <=? off)
    then (Raise (ValueError "cannot fit 'int' into an offset-sized integer"), h)
    else
      let base := if whence =? 0 then 0
                  else if whence =? 1 then h_pos h
                  else len (h_bytes h) in
      let target := base + off in
      if target <? 0 then (Raise OSError, h)
      else (Ok target, mkHandle (h_bytes h) target).

(** [with open(filename, "rb") as image: body]. *)
Definition with_open {A} (file : list byte) (body : IO A) : result A :=
  fst (body (mkHandle file 0)).

(** ** Primitive reads ([reader.py], module level) *)

Definition _read_long : IO Z :=
  (b <- read 8 ;; lift (struct_unpack 8 b))%io.

Definition _check_truncated : IO bool :=
  (seek (-4) 1 ;;
   b <- read 100 ;;
   if bytes_eqb b (repeat x00 100)
   then (seek (-100) 1 ;; ret true)
   else (seek (-100) 1 ;; ret false))%io.

Definition _check_magic (bool_return : bool) : IO bool :=
  (b <- read 4 ;;
   if bytes_eqb b [x70; x00; x00; x00] then ret true
   else if negb bool_return
        then (p <- tell ;;
              raise (ValueError ("This is probably not a LIF file. "
                                 ++ "Expected LIF magic byte at " ++ str p)%string))
        else ret false)%io.

Definition _check_mem (bool_return : bool) : IO bool :=
  (b <- read 1 ;;
   if bytes_eqb b [x2a] then ret true
   else if negb bool_return
        then (p <- tell ;;
              raise (ValueError ("Expected LIF memory byte at " ++ str p)%string))
        else ret false)%io.

Definition _read_int : IO Z :=
  (b <- read 4 ;; lift (struct_unpack 4 b))%io.

Definition _get_len : IO Z :=
  (position <- tell ;;
   seek 0 2 ;;
   file_len <- tell ;;
   seek position 0 ;;
   ret file_len)%io.

(** ** NumPy and PIL, as far as [reader.py] uses them *)

(** A NumPy signed 64-bit integer: arithmetic wraps around. *)
Definition np_int64 (x : Z) : Z := (x + 2^63) mod 2^64 - 2^63.

(** A number as the descriptor holds a stride: a Python [int] or a NumPy
    [uint64] scalar.  Arithmetic on them is NumPy 2's: a Python [int] that
    meets a [uint64] is converted to [uint64], an [OverflowError] when it
    is negative or does not fit, and sums and products of [uint64] wrap
    around modulo [2^64]. *)
Inductive number : Type :=
| PyInt (v : Z)
| NpUint64 (v : Z).

Definition np_uint64 (x : Z) : Z := x mod 2^64.

Definition as_uint64 (v : Z) : result Z :=
  if (v <? 0) || (2^64 <=? v) then Raise OverflowError else Ok v.

(** [k * s] for an [int] [k]. *)
Definition int_mul_number (k : Z) (s : number) : result number :=
  match s with
  | PyInt v => Ok (PyInt (k * v))
  | NpUint64 v => (u <- as_uint64 k ;; Ok (NpUint64 (np_uint64 (u * v))))%res
  end.

(** [a + b]. *)
Definition number_add (a b : number) : result number :=
  match a, b with
  | PyInt x, PyInt y => Ok (PyInt (x + y))
  | PyInt x, NpUint64 y => (u <- as_uint64 x ;; Ok (NpUint64 (np_uint64 (u + y))))%res
  | NpUint64 x, PyInt y => (u <- as_uint64 y ;; Ok (NpUint64 (np_uint64 (x + u))))%res
  | NpUint64 x, NpUint64 y => Ok (NpUint64 (np_uint64 (x + y)))
  end.

(** [int(a)]. *)
Definition int_of_number (a : number) : Z :=
  match a with
  | PyInt v => v
  | NpUint64 v => v
  end.

(** [np.prod] of a tuple of integers (empty product 1), in int64. *)
Definition np_prod (l : list Z) : Z :=
  fold_left (fun acc d => np_int64 (acc * d)) l 1.

(** [np.dtype('u<k>')]: an unsigned integer type of [k] bytes exists for
    [k] in 1, 2, 4, 8; any other string is a [TypeError].  A dtype is
    represented by its item size. *)
Definition np_dtype_u (k : Z) : result Z :=
  if (k =? 1) || (k =? 2) || (k =? 4) || (k =? 8) then Ok k else Raise TypeError.

(** An array: item size in bytes, shape, and the elements in row-major
    order, each the unsigned value of its bytes. *)
Record ndarray : Type := mkArray {
  nd_itemsize : Z;
  nd_shape : list Z;
  nd_data : list Z
}.

Fixpoint decode_items (k : nat) (width : nat) (bs : list byte) : list Z :=
  match k with
  | O => []
  | S k' => le_to_Z (firstn width bs) :: decode_items k' width (skipn width bs)
  end.

(** [np.fromfile(f, dtype, count, offset)]: skip [offset] bytes from the
    current position, then read [count] items, or as many whole items as
    the file still has; a negative [count] reads them all.  An [offset]
    that does not fit a signed 64-bit integer is an [OverflowError];
    seeking before the start of the file is an [OSError]. *)
Definition np_fromfile (itemsize count offset : Z) : IO ndarray :=
  fun h =>
    let start := h_pos h + offset in
    if (offset <? - 2^63) || (2^63 <=? offset) then (Raise OverflowError, h)
    else if start <? 0 then (Raise OSError, h)
    else
      let rest := skipn (Z.to_nat start) (h_bytes h) in
      let avail := len rest / itemsize in
      let k := if count <? 0 then avail else Z.min count avail in
      (Ok (mkArray itemsize [k]
                   (decode_items (Z.to_nat k) (Z.to_nat itemsize) rest)),
       mkHandle (h_bytes h) (start + k * itemsize)).

Definition Zprod (l : list Z) : Z := fold_right Z.mul 1 l.

(** A shape as NumPy's error messages print it: [(2,3)], [(5,)], [()];
    negative entries at the front are left out and a later one reads
    [newaxis]. *)
Fixpoint shape_rest_to_string (l : list Z) : string :=
  match l with
  | [] => ""
  | d :: l' =>
      ((if (d <? 0)%Z then ",newaxis" else "," ++ str d) ++ shape_rest_to_string l')%string
  end.

Fixpoint drop_leading_newaxis (l : list Z) : list Z :=
  match l with
  | [] => []
  | d :: l' => if d <? 0 then drop_leading_newaxis l' else l
  end.

Definition shape_to_string (shape : list Z) : string :=
  match drop_leading_newaxis shape with
  | [] => "()"
  | d :: rest =>
      let inner := (str d ++ shape_rest_to_string rest)%string in
      if len shape =? 1 then ("(" ++ inner ++ ",)")%string
      else ("(" ++ inner ++ ")")%string
  end.

Definition reshape_error (size : Z) (shape : list Z) : exn :=
  ValueError ("cannot reshape array of size " ++ str size
              ++ " into shape " ++ shape_to_string shape)%string.

(** [np.reshape(a, shape)]: the sizes must agree; one entry of [shape] may
    be [-1], and is then inferred. *)
Definition np_reshape (a : ndarray) (shape : list Z) : result ndarray :=
  let size := len (nd_data a) in
  if existsb (fun d => d <? -1) shape
  then Raise (ValueError "negative dimensions not allowed")
  else
    match count_occ Z.eq_dec shape (-1) with
    | O =>
        if Zprod shape =? size
        then Ok (mkArray (nd_itemsize a) shape (nd_data a))
        else Raise (reshape_error size shape)
    | S O =>
        let known := Zprod (filter (fun d => negb (d =? -1)) shape) in
        if (known =? 0) || negb (size mod known =? 0)
        then Raise (reshape_error size shape)
        else Ok (mkArray (nd_itemsize a)
                         (map (fun d => if d =? -1 then size / known else d) shape)
                         (nd_data a))
    | _ => Raise (ValueError "can only specify one unknown dimension")
    end.

(** A PIL image of mode ["L"]: one byte per pixel. *)
Record PIL_Image : Type := mkImage {
  im_mode : string;
  im_size : Z * Z;
  im_data : list byte
}.

(** [Image.frombytes("L", size, data)]: the raw decoder fills the
    [size]-pixel image from the front of [data]; too little data is a
    [ValueError], data beyond the last pixel is ignored. *)
Definition Image_frombytes_L (size : Z * Z) (data : list byte) : result PIL_Image :=
  let (w, h) := size in
  if (w <? 0) || (h <? 0) then Raise (ValueError "Width and height must be >= 0")
  else if (w =? 0) || (h =? 0) then Ok (mkImage "L" size [])
  else if len data <? w * h then Raise (ValueError "not enough image data")
  else Ok (mkImage "L" size (firstn (Z.to_nat (w * h)) data)).

(** What [get_frame] returns: a PIL image, or an array when
    [return_as_np] is set. *)
Inductive frame : Type :=
| AsImage (im : PIL_Image)
| AsArray (a : ndarray).

(** Number of pixels of a returned plane. *)
Definition frame_elements (f : frame) : Z :=
  match f with
  | AsImage im => len (im_data im)
  | AsArray a => len (nd_data a)
  end.

(** Bytes per pixel of a returned plane. *)
Definition frame_itemsize (f : frame) : Z :=
  match f with
  | AsImage _ => 1
  | AsArray a => nd_itemsize a
  end.

(** ** The image description built from the XML header *)

(** The [data_dict] of [_recursive_image_find].  [ch_offsets] holds
    [np.uint64] scalars throughout, kept as their values; [stride] holds
    [np.uint64] scalars and the [int] 0 of an axis without description,
    which behave differently in the arithmetic of the array readers. *)
Record data_dict : Type := mkDataDict {
  dd_dims : list Z;
  dd_path : string;
  dd_name : string;
  dd_channels : Z;
  dd_ch_offsets : list Z;
  dd_ch_resolutions : list Z;
  dd_scale : list float;
  dd_stride : list number;
  dd_tile_positions : list float * list float
}.

(** ** [class LifImage] *)

Module LifImage.

Record t : Type := mk {
  dims : list Z;                      (* CZTMYX *)
  path : string;
  offsets : Z * Z;                    (* (position, length) of the block *)
  info : data_dict;
  filename : string;
  name : string;
  channels : Z;
  ch_offsets : list Z;
  nz : Z;
  nt : Z;
  scale : list float;
  stride : list number;
  tile_positions : list float * list float;
  dtype : Z                           (* item size of the unsigned dtype *)
}.

Definition __init__ (image_info : data_dict) (offsets : Z * Z)
    (filename : string) : result t :=
  (d1 <- py_getitem (dd_dims image_info) 1 ;;
   d2 <- py_getitem (dd_dims image_info) 2 ;;
   r0 <- py_getitem (dd_ch_resolutions image_info) 0 ;;
   k <- int_truediv r0 8 ;;
   dt <- np_dtype_u k ;;
   Ok {| dims := dd_dims image_info;
         path := dd_path image_info;
         offsets := offsets;
         info := image_info;
         filename := filename;
         name := dd_name image_info;
         channels := dd_channels image_info;
         ch_offsets := dd_ch_offsets image_info;
         nz := d1;
         nt := d2;
         scale := dd_scale image_info;
         stride := dd_stride image_info;
         tile_positions := dd_tile_positions image_info;
         dtype := dt |})%res.

(** In the methods below [file] is the content of [self.filename]. *)

Definition _get_item_np (self : t) (file : list byte) (n : Z) : result ndarray :=
  let n_planes := np_prod (slice_to 4 (dims self)) in
  if n >=? n_planes
  then Raise (ValueError "Invalid item trying to be retrieved.")
  else
    let dims_yx := slice_last2 (dims self) in
    (im <- with_open file
             (let plane_size := np_int64 (np_prod dims_yx) in
              let plane_bytes := np_int64 (plane_size * dtype self) in
              let offset := np_int64 (fst (offsets self) + np_int64 (plane_bytes * n)) in
              np_fromfile (dtype self) plane_size offset) ;;
     np_reshape im dims_yx)%res.

Definition get_frame_np (self : t) (file : list byte) (z t c m : Z) : result ndarray :=
  let dims_yx := slice_last2 (dims self) in
  (s3 <- py_getitem (stride self) 3 ;;
   offset <- int_mul_number m s3 ;;
   s2 <- py_getitem (stride self) 2 ;;
   x2 <- int_mul_number t s2 ;;
   offset <- number_add offset x2 ;;
   s1 <- py_getitem (stride self) 1 ;;
   x1 <- int_mul_number z s1 ;;
   offset <- number_add offset x1 ;;
   s0 <- py_getitem (stride self) 0 ;;
   x0 <- int_mul_number c s0 ;;
   offset <- number_add offset x0 ;;
   im <- with_open file
           (np_fromfile (dtype self) (np_prod dims_yx) (int_of_number offset)) ;;
   np_reshape im dims_yx)%res.

Definition get_stack_np (self : t) (file : list byte) (m : Z) : result ndarray :=
  let m_idx := 3%nat in
  let stackdims := slice_to m_idx (dims self) ++ slice_from (m_idx + 1) (dims self) in
  (s <- py_getitem (stride self) (Z.of_nat m_idx) ;;
   x <- int_mul_number m s ;;
   let offset := fst (offsets self) + int_of_number x in
   im <- with_open file (np_fromfile (dtype self) (np_prod stackdims) offset) ;;
   np_reshape im stackdims)%res.

Definition _get_item (self : t) (file : list byte) (n : Z) : result PIL_Image :=
  (d1 <- py_getitem (dims self) 1 ;;
   d2 <- py_getitem (dims self) 2 ;;
   d3 <- py_getitem (dims self) 3 ;;
   let seek_distance := channels self * d1 * d2 * d3 in
   if n >=? seek_distance
   then Raise (ValueError "Invalid item trying to be retrieved.")
   else
     with_open file
       (image_len <-
          lift (if snd (offsets self) =? 0
                then (d4 <- py_getitem (dims self) 4 ;;
                      d5 <- py_getitem (dims self) 5 ;;
                      Ok (seek_distance * d4 * d5))
                else int_truediv (snd (offsets self)) seek_distance)%res ;;
        seek (fst (offsets self) + image_len * n) 0 ;;
        data <- (if snd (offsets self) =? 0
                 then ret (repeat x00 (Z.to_nat image_len))
                 else read image_len) ;;
        lift (d4 <- py_getitem (dims self) 4 ;;
              d5 <- py_getitem (dims self) 5 ;;
              Image_frombytes_L (d4, d5) data)%res)%io)%res.

Definition get_frame (self : t) (file : list byte) (z t c m : Z)
    (return_as_np : bool) : result frame :=
  if z >=? nz self then Raise (ValueError "Requested Z frame doesn't exist.")
  else if t >=? nt self then Raise (ValueError "Requested T frame doesn't exist.")
  else if c >=? channels self then Raise (ValueError "Requested channel doesn't exist.")
  else
    (d3 <- py_getitem (dims self) 3 ;;
     if m >=? d3 then Raise (ValueError "Requested tile doesn't exist.")
     else
       let total_items := channels self * nz self * nt self * d3 in
       let m_offset := channels self * nz self * nt self in
       let m_requested := m_offset * m in
       let t_offset := channels self * nz self in
       let t_requested := t_offset * t in
       let c_offset := nz self in
       let c_requested := c_offset * c in
       let z_requested := z in
       let item_requested := m_requested + t_requested + z_requested + c_requested in
       if item_requested >? total_items
       then Raise (ValueError "The requested item is after the end of the image")
       else if return_as_np
            then (a <- _get_item_np self file item_requested ;; Ok (AsArray a))
            else (im <- _get_item self file item_requested ;; Ok (AsImage im)))%res.

(** [get_frame_tmp]: the checks of [get_frame], the index taken with the
    channel running fastest, and the index printed before the plane is
    read.  The result carries what [print] wrote. *)
Definition get_frame_tmp (self : t) (file : list byte) (z t c m : Z)
    (return_as_np : bool) : list string * result frame :=
  if z >=? nz self then ([], Raise (ValueError "Requested Z frame doesn't exist."))
  else if t >=? nt self then ([], Raise (ValueError "Requested T frame doesn't exist."))
  else if c >=? channels self then ([], Raise (ValueError "Requested channel doesn't exist."))
  else
    match py_getitem (dims self) 3 with
    | Raise e => ([], Raise e)
    | Ok d3 =>
        if m >=? d3 then ([], Raise (ValueError "Requested tile doesn't exist."))
        else
          let total_items := channels self * nz self * nt self * d3 in
          let m_offset := channels self * nz self * nt self in
          let m_requested := m_offset * m in
          let t_offset := channels self * nz self in
          let t_requested := t_offset * t in
          let z_offset := channels self in
          let z_requested := z_offset * z in
          let c_requested := c in
          let item_requested := m_requested + t_requested + z_requested + c_requested in
          if item_requested >? total_items
          then ([], Raise (ValueError "The requested item is after the end of the image"))
          else
            ([str item_requested],
             if return_as_np
             then (a <- _get_item_np self file item_requested ;; Ok (AsArray a))%res
             else (im <- _get_item self file item_requested ;; Ok (AsImage im))%res)
    end.

(** A generator [i = 0; while i < bound: yield f(i); i += 1], as the
    sequence of what successive [next] calls give: the values yielded, then
    nothing more, or the exception that ends the generator.  [fuel] bounds
    the rounds. *)
Fixpoint count_up (fuel : nat) (i bound : Z) (f : Z -> result frame)
    : list (result frame) :=
  match fuel with
  | O => []
  | S fuel' =>
      if i <? bound
      then match f i with
           | Ok fr => Ok fr :: count_up fuel' (i + 1) bound f
           | Raise e => [Raise e]
           end
      else []
  end.

Definition get_iter_m (self : t) (file : list byte) (z c t : Z) : list (result frame) :=
  match py_getitem (dims self) 3 with
  | Raise e => [Raise e]
  | Ok d3 => count_up (Z.to_nat d3) 0 d3 (fun m => get_frame self file z t c m false)
  end.

Definition get_iter_t (self : t) (file : list byte) (z c m : Z) : list (result frame) :=
  count_up (Z.to_nat (nt self)) 0 (nt self) (fun t => get_frame self file z t c m false).

Definition get_iter_c (self : t) (file : list byte) (z t m : Z) : list (result frame) :=
  count_up (Z.to_nat (channels self)) 0 (channels self)
    (fun c => get_frame self file z t c m false).

Definition get_iter_z (self : t) (file : list byte) (t c m : Z) : list (result frame) :=
  count_up (Z.to_nat (nz self)) 0 (nz self) (fun z => get_frame self file z t c m false).

End LifImage.

(** ** The XML header, as [_recursive_image_find] queries it

    An element is given by the answers to the path queries the code makes
    on it.  Attribute values are held as the numbers that [int], [float]
    and [np.uint64] read from their text. *)

Record ChannelDescription : Type := mkChannel {
  ch_BytesInc : Z;
  ch_Resolution : Z
}.

Record DimensionDescription : Type := mkDimension {
  dim_DimID : string;
  dim_NumberOfElements : Z;
  dim_BytesInc : Z;
  dim_Length : float
}.

Record Tile : Type := mkTile { tile_PosX : float; tile_PosY : float }.

#[local] Set Warnings "-register-all".

Inductive Element : Type :=
| mkElement
    (Name : string)                              (* attrib["Name"] *)
    (elements : list Element)                    (* ./Element *)
    (children : list Element)                    (* ./Children/Element *)
    (dimensions : list (list DimensionDescription))
       (* ./Data/Image/ImageDescription/Dimensions, each with its
          DimensionDescription children *)
    (channel_list : list ChannelDescription)
       (* ./Data/Image/ImageDescription/Channels/ChannelDescription *)
    (tiles : list Tile).                         (* ./Data/Image/Attachment/Tile *)

Definition el_Name (e : Element) : string :=
  match e with mkElement n _ _ _ _ _ => n end.
Definition el_elements (e : Element) : list Element :=
  match e with mkElement _ l _ _ _ _ => l end.
Definition el_children (e : Element) : list Element :=
  match e with mkElement _ _ l _ _ _ => l end.
Definition el_dimensions (e : Element) : list (list DimensionDescription) :=
  match e with mkElement _ _ _ d _ _ => d end.
Definition el_channel_list (e : Element) : list ChannelDescription :=
  match e with mkElement _ _ _ _ c _ => c end.
Definition el_tiles (e : Element) : list Tile :=
  match e with mkElement _ _ _ _ _ t => t end.

(** [item.find(".../Dimensions/DimensionDescription[@DimID=dim]")]: the
    first match in document order, [None] when there is none. *)
Definition find_dimension (item : Element) (dim : Z) : option DimensionDescription :=
  find (fun d => String.eqb (dim_DimID d) (str dim)) (List.concat (el_dimensions item)).

(** One round of [for dim in [3, 4, 10, 2, 1]]: the description's values,
    or the defaults of the [except AttributeError] branch. *)
Definition append_dimension (item : Element)
    (acc : list Z * list number * list float) (dim : Z)
    : list Z * list number * list float :=
  let '(dims, strides, lengths) := acc in
  match find_dimension item dim with
  | Some dd => (dims ++ [dim_NumberOfElements dd],
                strides ++ [NpUint64 (dim_BytesInc dd)],
                lengths ++ [dim_Length dd])
  | None => (dims ++ [1], strides ++ [PyInt 0], lengths ++ [1%float])
  end.

(** The [elif is_image:] branch of [_recursive_image_find]. *)
Definition image_data_dict (item : Element) (path : string) : result data_dict :=
  let channel_list := el_channel_list item in
  let n_channels := len channel_list in
  let ch_offsets := map ch_BytesInc channel_list in
  let ch_resolutions := map ch_Resolution channel_list in
  (s0 <- py_getitem ch_offsets 1 ;;
   l0 <- float_of_int (n_channels - 1) ;;
   let '(dims, strides, lengths) :=
     fold_left (append_dimension item) [3; 4; 10; 2; 1]
       ([n_channels], [NpUint64 s0], [l0]) in
   let scales := [1%float] in
   d1 <- py_getitem dims 1 ;; l1 <- py_getitem lengths 1 ;;
   x1 <- float_mul_int l1 (10 ^ 6) ;;
   sc1 <- int_div_float d1 x1 ;;
   let scales := scales ++ [sc1] in
   d2 <- py_getitem dims 2 ;; l2 <- py_getitem lengths 2 ;;
   sc2 <- int_div_float d2 l2 ;;
   let scales := scales ++ [sc2] in
   let scales := scales ++ [1%float] in
   d4 <- py_getitem dims 4 ;; l4 <- py_getitem lengths 4 ;;
   x4 <- float_mul_int l4 (10 ^ 6) ;;
   sc4 <- int_div_float (d4 - 1) x4 ;;
   let scales := scales ++ [sc4] in
   d5 <- py_getitem dims 5 ;; l5 <- py_getitem lengths 5 ;;
   x5 <- float_mul_int l5 (10 ^ 6) ;;
   sc5 <- int_div_float (d5 - 1) x5 ;;
   let scales := scales ++ [sc5] in
   let PosX := map (fun tile => (tile_PosX tile * 1e6)%float) (el_tiles item) in
   let PosY := map (fun tile => (tile_PosY tile * 1e6)%float) (el_tiles item) in
   Ok {| dd_dims := dims;
         dd_path := (path ++ "/")%string;
         dd_name := el_Name item;
         dd_channels := n_channels;
         dd_ch_offsets := ch_offsets;
         dd_ch_resolutions := ch_resolutions;
         dd_scale := scales;
         dd_stride := strides;
         dd_tile_positions := (PosX, PosY) |})%res.

(** [LifFile._recursive_image_find]; [return_list] is the list the
    recursive calls append to. *)
Fixpoint _recursive_image_find (tree : Element) (return_list : list data_dict)
    (path : string) {struct tree} : result (list data_dict) :=
  let children := el_children tree in
  let children := if len children <? 1 then el_elements tree else children in
  (fix loop (items : list Element) (return_list : list data_dict)
       {struct items} : result (list data_dict) :=
     match items with
     | [] => Ok return_list
     | item :: rest =>
         let folder_name := el_Name item in
         let appended_path :=
           if String.eqb path "" then folder_name
           else (path ++ "/" ++ folder_name)%string in
         let has_sub_children := len (el_children item) >? 0 in
         let is_image := len (el_dimensions item) >? 0 in
         if has_sub_children
         then (r <- _recursive_image_find item return_list appended_path ;;
               loop rest r)%res
         else if is_image
              then (d <- image_data_dict item path ;;
                    loop rest (return_list ++ [d]))%res
              else loop rest return_list
     end) children return_list.

(** ** [class LifFile] *)

Module LifFile.

Record t : Type := mk {
  filename : string;
  xml_header : list byte;
  xml_root : Element;
  offsets : list (Z * Z);
  image_list : list data_dict;
  num_images : Z
}.

(** The local variables of the block scan of [__init__].  [truncated] and
    [truncation_begin] are assigned together: [None] is [truncated = False],
    [Some b] is [truncated = True] with [truncation_begin = b].
    [warnings] collects what [warnings.warn] was called with. *)
Record scan_state : Type := mkScan {
  sc_offsets : list (Z * Z);
  sc_truncated : option Z;
  sc_warnings : list string
}.

Definition truncation_warning : string :=
  "LIF file is likely truncated. Be advised, it appears that some images are blank. ".

(** The body of the [try:] up to its last statement: it returns
    [self.offsets] as the [append] leaves it, and the distance that last
    statement, [f.seek(description_len + block_len, 1)], is to skip. *)
Definition scan_header (offsets : list (Z * Z)) : IO (list (Z * Z) * Z) :=
  (_check_magic false ;;
   seek 4 1 ;;
   _check_mem false ;;
   block_len <- _read_int ;;
   is_mem <- _check_mem true ;;
   block_len <- (if negb is_mem
                 then (seek (-5) 1 ;;
                       long_len <- _read_long ;;
                       _check_mem false ;;
                       ret long_len)
                 else ret block_len) ;;
   int_len <- _read_int ;;
   let description_len := int_len * 2 in
   here <- tell ;;
   let offsets := if block_len >? 0
                  then offsets ++ [(here + description_len, block_len)]
                  else offsets in
   ret (offsets, description_len + block_len))%io.

(** The whole body of the [try:]; it returns [self.offsets] as it leaves
    it when nothing is raised. *)
Definition scan_body (offsets : list (Z * Z)) : IO (list (Z * Z)) :=
  (r <- scan_header offsets ;;
   seek (snd r) 1 ;;
   ret (fst r))%io.

(** The [except ValueError:] clause. *)
Definition scan_handler (st : scan_state) (e : exn) : IO scan_state :=
  (is_truncated <- _check_truncated ;;
   if is_truncated
   then (truncation_begin <- tell ;;
         seek 0 2 ;;
         ret (mkScan (sc_offsets st) (Some truncation_begin)
                     (sc_warnings st ++ [truncation_warning])))
   else raise e)%io.

(** One round of [while f.tell() < f_len:], the [try:] with its
    [except ValueError:].  [self.offsets] is a field of the object: a block
    appended before the last statement of the body raised is still there
    when the handler runs, so the handler of that statement starts from
    the list with the block, the handler of an earlier one from the list
    as it was. *)
Definition scan_iteration (st : scan_state) : IO scan_state :=
  fun h =>
    match scan_header (sc_offsets st) h with
    | (Ok (offsets, skip), h1) =>
        let st1 := mkScan offsets (sc_truncated st) (sc_warnings st) in
        try_except_ValueError (seek skip 1 ;; ret st1)%io (scan_handler st1) h1
    | (Raise (ValueError msg), h1) => scan_handler st (ValueError msg) h1
    | (Raise e, h1) => (Raise e, h1)
    end.

(** The [while] loop, bounded by [fuel] rounds. *)
Fixpoint scan_loop (f_len : Z) (fuel : nat) (st : scan_state) : IO scan_state :=
  fun h =>
    if h_pos h <? f_len
    then match fuel with
         | O => (Raise FuelExhausted, h)
         | S fuel' => (st' <- scan_iteration st ;; scan_loop f_len fuel' st')%io h
         end
    else (Ok st, h).

(** What follows [f.close()]: the blocks of a truncated file are
    completed, and the two counts compared. *)
Definition reconcile (image_list : list data_dict) (st : scan_state)
    : result (list (Z * Z)) :=
  let offsets :=
    match sc_truncated st with
    | Some truncation_begin =>
        let num_truncated := len image_list - len (sc_offsets st) in
        sc_offsets st ++ repeat (truncation_begin, 0) (Z.to_nat num_truncated)
    | None => sc_offsets st
    end in
  if negb (len image_list =? len offsets)
     && negb (match sc_truncated st with Some _ => true | None => false end)
  then Raise (ValueError ("Number of images is not equal to number of "
                          ++ "offsets, and this file does not appear to "
                          ++ "be truncated. Something has gone wrong.")%string)
  else Ok offsets.

Section Open.

(** [ET.fromstring(bytes.decode("utf-16"))], the XML library's reading of
    the header text. *)
Variable xml_parse : list byte -> result Element.

(** [LifFile(filename)], from [open] to [f.close()]: the header is
    checked and parsed and the blocks are scanned.  [file] is the content
    of [filename]. *)
Definition scan_file (file : list byte)
    : result (list byte * Element * scan_state) :=
  with_open file
    (f_len <- _get_len ;;
     _check_magic false ;;
     seek 8 0 ;;
     _check_mem false ;;
     header_len <- _read_int ;;
     xml_header <- read (header_len * 2) ;;
     xml_root <- lift (xml_parse xml_header) ;;
     st <- scan_loop f_len (List.length file) (mkScan [] None []) ;;
     ret (xml_header, xml_root, st))%io.

(** [LifFile(filename)].  The result carries the object and the warnings
    emitted. *)
Definition __init__ (filename : string) (file : list byte)
    : result (t * list string) :=
  (scanned <- scan_file file ;;
   let '(xml_header, xml_root, st) := scanned in
   image_list <- _recursive_image_find xml_root [] "" ;;
   offsets <- reconcile image_list st ;;
   Ok (mk filename xml_header xml_root offsets image_list (len image_list),
       sc_warnings st))%res.

End Open.

(** [get_image(img_n)]. *)
Definition get_image (self : t) (img_n : Z) : result LifImage.t :=
  if img_n >=? len (image_list self)
  then Raise (ValueError "There are not that many images!")
  else (offsets <- py_getitem (offsets self) img_n ;;
        image_info <- py_getitem (image_list self) img_n ;;
        LifImage.__init__ image_info offsets (filename self))%res.

(** [get_iter_image(img_n)], as the sequence of what successive [next]
    calls give (see [LifImage.count_up]). *)
Fixpoint iter_images (self : t) (fuel : nat) (img_n : Z) : list (result LifImage.t) :=
  match fuel with
  | O => []
  | S fuel' =>
      if img_n <? len (image_list self)
      then match (offsets <- py_getitem (offsets self) img_n ;;
                  image_info <- py_getitem (image_list self) img_n ;;
                  LifImage.__init__ image_info offsets (filename self))%res with
           | Ok image => Ok image :: iter_images self fuel' (img_n + 1)
           | Raise e => [Raise e]
           end
      else []
  end.

Definition get_iter_image (self : t) (img_n : Z) : list (result LifImage.t) :=
  iter_images self (Z.to_nat (len (image_list self) - img_n)) img_n.

End LifFile.

(** ** Vocabulary of the properties *)

(** [fmap] on results. *)
Definition rmap {A B} (f : A -> B) (r : result A) : result B :=
  match r with
  | Ok a => Ok (f a)
  | Raise e => Raise e
  end.

(** The shape every descriptor built by [image_data_dict] has: six
    dimension sizes in the order CZTMYX, the first being the channel
    count. *)
Definition descriptor_shape (d : data_dict) (nC nZ nT nM nY nX : Z) : Prop :=
  dd_dims d = [nC; nZ; nT; nM; nY; nX] /\ dd_channels d = nC.

(** Element count, byte increment and physical length of the axis with
    identifier [dim]: the description's, or the defaults. *)
Definition axis_values (item : Element) (dim : Z) : Z * number * float :=
  match find_dimension item dim with
  | Some dd => (dim_NumberOfElements dd, NpUint64 (dim_BytesInc dd), dim_Length dd)
  | None => (1, PyInt 0, 1%float)
  end.

Definition axis_count (item : Element) (dim : Z) : Z := fst (fst (axis_values item dim)).
Definition axis_stride (item : Element) (dim : Z) : number :=
  snd (fst (axis_values item dim)).
Definition axis_length (item : Element) (dim : Z) : float := snd (axis_values item dim).

(** The plane index [get_frame] computes from a coordinate. *)
Definition item_requested (nC nZ nT z t c m : Z) : Z :=
  nC * nZ * nT * m + nC * nZ * t + z + nZ * c.

(** The four coordinates of [get_frame], with the error each bounds check
    raises. *)
Inductive axis : Type := AxisZ | AxisT | AxisC | AxisM.

Definition range_error (a : axis) : exn :=
  ValueError match a with
             | AxisZ => "Requested Z frame doesn't exist."
             | AxisT => "Requested T frame doesn't exist."
             | AxisC => "Requested channel doesn't exist."
             | AxisM => "Requested tile doesn't exist."
             end.

(** The block of an image lies within the file and holds every plane at
    the image's pixel width.  (Below [2^53] the float division of
    [_get_item] is exact.) *)
Definition block_holds_planes (self : LifImage.t) (file : list byte)
    (nC nZ nT nM nY nX : Z) : Prop :=
  0 < nY /\ 0 < nX
  /\ 0 <= fst (LifImage.offsets self)
  /\ nC * nZ * nT * nM * (nY * nX * LifImage.dtype self) <= snd (LifImage.offsets self)
  /\ fst (LifImage.offsets self) + snd (LifImage.offsets self) <= len file
  /\ len file < 2 ^ 53.

(** ** A small container, used to run the code

    Two images of two 8-bit channels, [side] x [side] pixels each, under
    one folder.  The header text is a placeholder: the model hands it to
    the XML parser it is given. *)

Definition example_element (name : string) (side : Z) : Element :=
  mkElement name [] []
    [[mkDimension "1" side 1 0.25%float; mkDimension "2" side side 0.25%float]]
    [mkChannel 0 8; mkChannel (side * side) 8]
    [].

Definition example_root : Element :=
  mkElement "root"
    [mkElement "folder" [] [example_element "first" 2; example_element "second" 8] [] [] []]
    [] [] [] [].

Definition example_header : list byte :=
  [x70; x00; x00; x00;  x00; x00; x00; x00;  x2a;  x02; x00; x00; x00;
   x3c; x00; x3e; x00].

(** A block: magic, four reserved bytes, marker, 4-byte length, marker,
    description length 1, a one-character description, the payload. *)
Definition example_block (length : byte) (payload : list byte) : list byte :=
  [x70; x00; x00; x00;  x00; x00; x00; x00;  x2a;
   length; x00; x00; x00;  x2a;  x01; x00; x00; x00;  x58; x00] ++ payload.

Definition example_payload : list byte := [x01; x02; x03; x04; x05; x06; x07; x08].

(** The first image's block is complete (at 37, 8 bytes); the file ends in
    100 zero bytes where the second block should start (at 45). *)
Definition example_truncated_file : list byte :=
  example_header ++ example_block x08 example_payload ++ repeat x00 100.

Definition example_info (name : string) (side : Z) : data_dict :=
  {| dd_dims := [2; 1; 1; 1; side; side];
     dd_path := "folder/";
     dd_name := name;
     dd_channels := 2;
     dd_ch_offsets := [0; side * side];
     dd_ch_resolutions := [8; 8];
     dd_scale := [1; 1 / 1000000; 1; 1;
                  SF2Prim (binary_normalize prec emax (side - 1) 0 false) / 250000;
                  SF2Prim (binary_normalize prec emax (side - 1) 0 false) / 250000]%float;
     dd_stride := [NpUint64 (side * side); PyInt 0; PyInt 0; PyInt 0;
                   NpUint64 side; NpUint64 1];
     dd_tile_positions := ([], []) |}.

(** The image object of a descriptor with six dimensions, at pixel width
    [width]. *)
Definition image_of (info : data_dict) (offsets : Z * Z) (width : Z) : LifImage.t :=
  {| LifImage.dims := dd_dims info;
     LifImage.path := dd_path info;
     LifImage.offsets := offsets;
     LifImage.info := info;
     LifImage.filename := "example.lif";
     LifImage.name := dd_name info;
     LifImage.channels := dd_channels info;
     LifImage.ch_offsets := dd_ch_offsets info;
     LifImage.nz := nth 1 (dd_dims info) 0;
     LifImage.nt := nth 2 (dd_dims info) 0;
     LifImage.scale := dd_scale info;
     LifImage.stride := dd_stride info;
     LifImage.tile_positions := dd_tile_positions info;
     LifImage.dtype := width |}.

Definition example_image (name : string) (side : Z) (offsets : Z * Z) : LifImage.t :=
  image_of (example_info name side) offsets 1.

(** The plane of [height * width] elements at absolute file position
    [pos], read as [get_frame_np] reads. *)
Definition plane_at (self : LifImage.t) (file : list byte) (pos : Z) : result ndarray :=
  let dims_yx := slice_last2 (LifImage.dims self) in
  (im <- with_open file (np_fromfile (LifImage.dtype self) (np_prod dims_yx) pos) ;;
   np_reshape im dims_yx)%res.

(** A descriptor with other channel resolutions. *)
Definition set_resolutions (d : data_dict) (rs : list Z) : data_dict :=
  {| dd_dims := dd_dims d;
     dd_path := dd_path d;
     dd_name := dd_name d;
     dd_channels := dd_channels d;
     dd_ch_offsets := dd_ch_offsets d;
     dd_ch_resolutions := rs;
     dd_scale := dd_scale d;
     dd_stride := dd_stride d;
     dd_tile_positions := dd_tile_positions d |}.

(** The widths [np.dtype('u<k>')] knows. *)
Definition valid_width (k : Z) : Prop := k = 1 \/ k = 2 \/ k = 4 \/ k = 8.

(** [float(n)] where it exists. *)
Definition Z2F (n : Z) : float := SF2Prim (binary_normalize prec emax n 0 false).

(** A 2 x 2 image whose two channels declare 12 bits. *)
Definition example_element_12bit : Element :=
  mkElement "twelve" [] []
    [[mkDimension "1" 2 1 0.25%float; mkDimension "2" 2 2 0.25%float]]
    [mkChannel 0 12; mkChannel 4 12]
    [].

(** A 2 x 2 image with a single channel. *)
Definition example_element_1channel : Element :=
  mkElement "single" [] []
    [[mkDimension "1" 2 1 0.25%float; mkDimension "2" 2 2 0.25%float]]
    [mkChannel 0 8]
    [].

(** A stack of 10 planes over a depth of 9e-6 (the float nearest to it,
    written exactly). *)
Definition example_element_stack : Element :=
  mkElement "stack" [] []
    [[mkDimension "1" 2 1 0.25%float; mkDimension "2" 2 2 0.25%float;
      mkDimension "3" 10 4 0x1.2dfd694ccab3fp-17%float]]
    [mkChannel 0 8; mkChannel 40 8]
    [].

(** Everything [image_data_dict] needs to compute the scales of [item]:
    a second channel to index, counts that have a float, and no zero
    divisor. *)
Definition scales_computable (item : Element) : Prop :=
  2 <= len (el_channel_list item)
  /\ PrimFloat.is_infinity (Z2F (len (el_channel_list item) - 1)) = false
  /\ PrimFloat.is_infinity (Z2F (axis_count item 3)) = false
  /\ PrimFloat.is_infinity (Z2F (axis_count item 4)) = false
  /\ PrimFloat.is_infinity (Z2F (axis_count item 2 - 1)) = false
  /\ PrimFloat.is_infinity (Z2F (axis_count item 1 - 1)) = false
  /\ PrimFloat.eqb (axis_length item 3 * 1000000) 0 = false
  /\ PrimFloat.eqb (axis_length item 4) 0 = false
  /\ PrimFloat.eqb (axis_length item 2 * 1000000) 0 = false
  /\ PrimFloat.eqb (axis_length item 1 * 1000000) 0 = false.

(** The messages of the two assertions of the block scan, raised at file
    position [p]. *)
Definition magic_error (p : Z) : exn :=
  ValueError ("This is probably not a LIF file. "
              ++ "Expected LIF magic byte at " ++ str p)%string.

Definition mem_error (p : Z) : exn :=
  ValueError ("Expected LIF memory byte at " ++ str p)%string.

(** What [seek] raises for an offset that does not fit 64 bits. *)
Definition seek_error : exn :=
  ValueError "cannot fit 'int' into an offset-sized integer".

(** The [n] bytes of an open file that start [back] bytes before its
    position. *)
Definition window (h : handle) (back : Z) (n : nat) : list byte :=
  firstn n (skipn (Z.to_nat (h_pos h - back)) (h_bytes h)).

(** A file positioned at its end. *)
Definition at_end (h : handle) : handle := mkHandle (h_bytes h) (len (h_bytes h)).

(** What [reconcile] raises when the counts differ in a file that is not
    truncated. *)
Definition consistency_error : exn :=
  ValueError ("Number of images is not equal to number of "
              ++ "offsets, and this file does not appear to "
              ++ "be truncated. Something has gone wrong.")%string.



(** Two complete blocks, then 100 zero bytes. *)
Definition example_two_block_file : list byte :=
  example_header ++ example_block x08 example_payload
  ++ example_block x08 example_payload ++ repeat x00 100.

(** A header that describes a single image. *)
Definition example_root_one : Element :=
  mkElement "root"
    [mkElement "folder" [] [example_element "first" 2] [] [] []]
    [] [] [] [].

(** ** Vocabulary of the further properties *)

(** The plane index [get_frame_tmp] computes from a coordinate: the
    channel runs fastest. *)
Definition item_requested_tmp (nC nZ nT z t c m : Z) : Z :=
  nC * nZ * nT * m + nC * nZ * t + nC * z + c.

(** [i, i + 1, ..., i + n - 1]. *)
Definition Zrange (i : Z) (n : nat) : list Z :=
  map (fun k => i + Z.of_nat k) (seq 0 n).

(** The container signature. *)
Definition magic_bytes : list byte := [x70; x00; x00; x00].

(** The [n] bytes of an open file that start [k] bytes after its
    position. *)
Definition ahead (h : handle) (k : Z) (n : nat) : list byte :=
  firstn n (skipn (Z.to_nat (h_pos h + k)) (h_bytes h)).


(** What the block scan of [file] keeps true of its state: every
    recorded block has a positive length; no warning has been emitted
    while the truncation flag is not set; and once it is set, the warning
    has been emitted exactly once and the recorded position is one where
    100 zero bytes start. *)
Definition scan_invariant (file : list byte) (st : LifFile.scan_state) : Prop :=
  Forall (fun b : Z * Z => 0 < snd b) (LifFile.sc_offsets st)
  /\ match LifFile.sc_truncated st with
     | None => LifFile.sc_warnings st = []
     | Some truncation_begin =>
         LifFile.sc_warnings st = [LifFile.truncation_warning]
         /\ 0 <= truncation_begin
         /\ firstn 100 (skipn (Z.to_nat truncation_begin) file) = repeat x00 100
     end.

(** The example file, opened. *)
Definition example_lif : LifFile.t :=
  LifFile.mk "example.lif" [x3c; x00; x3e; x00] example_root
    [(37, 8); (45, 0)]
    [example_info "first" 2; example_info "second" 8] 2.

(** The value of a byte as an 8-bit pixel. *)
Definition byte_value (b : byte) : Z := Z.of_N (Byte.to_N b).


(** The loop of [_recursive_image_find] over the items of one level. *)
Definition find_in_items (path : string)
    : list Element -> list data_dict -> result (list data_dict) :=
  fix loop (items : list Element) (return_list : list data_dict)
      {struct items} : result (list data_dict) :=
    match items with
    | [] => Ok return_list
    | item :: rest =>
        let folder_name := el_Name item in
        let appended_path :=
          if String.eqb path "" then folder_name
          else (path ++ "/" ++ folder_name)%string in
        let has_sub_children := len (el_children item) >? 0 in
        let is_image := len (el_dimensions item) >? 0 in
        if has_sub_children
        then (r <- _recursive_image_find item return_list appended_path ;;
              loop rest r)%res
        else if is_image
             then (d <- image_data_dict item path ;;
                   loop rest (return_list ++ [d]))%res
             else loop rest return_list
    end.

(** The items [_recursive_image_find] walks at [tree]. *)
Definition items_of (tree : Element) : list Element :=
  if len (el_children tree) <? 1 then el_elements tree else el_children tree.

(** Induction on an element with the hypothesis for all its sub-elements. *)
Fixpoint Element_nested_ind (P : Element -> Prop)
    (step : forall n es cs d c t,
        Forall P es -> Forall P cs -> P (mkElement n es cs d c t))
    (e : Element) {struct e} : P e :=
  match e with
  | mkElement n es cs d c t =>
      step n es cs d c t
        ((fix all (l : list Element) : Forall P l :=
            match l with
            | [] => Forall_nil P
            | x :: l' => Forall_cons x (Element_nested_ind P step x) (all l')
            end) es)
        ((fix all (l : list Element) : Forall P l :=
            match l with
            | [] => Forall_nil P
            | x :: l' => Forall_cons x (Element_nested_ind P step x) (all l')
            end) cs)
  end.

(** A descriptor with another path. *)
Definition with_path (path : string) (d : data_dict) : data_dict :=
  {| dd_dims := dd_dims d;
     dd_path := path;
     dd_name := dd_name d;
     dd_channels := dd_channels d;
     dd_ch_offsets := dd_ch_offsets d;
     dd_ch_resolutions := dd_ch_resolutions d;
     dd_scale := dd_scale d;
     dd_stride := dd_stride d;
     dd_tile_positions := dd_tile_positions d |}.

(** A descriptor of two tiles of two 2 x 2 channels, 8 bytes apart. *)
Definition example_tiled_info : data_dict :=
  {| dd_dims := [2; 1; 1; 2; 2; 2];
     dd_path := "folder/";
     dd_name := "tiles";
     dd_channels := 2;
     dd_ch_offsets := [0; 4];
     dd_ch_resolutions := [8; 8];
     dd_scale := [1; 1 / 1000000; 1; 1; 1 / 250000; 1 / 250000]%float;
     dd_stride := [NpUint64 4; PyInt 0; PyInt 0; NpUint64 8; NpUint64 2; NpUint64 1];
     dd_tile_positions := ([], []) |}.

(** A descriptor of two 8-bit channels of planes that are not square:
    [dims[4]] is 2 and [dims[5]] is 3. *)
Definition example_wide_info : data_dict :=
  {| dd_dims := [2; 1; 1; 1; 2; 3];
     dd_path := "folder/";
     dd_name := "wide";
     dd_channels := 2;
     dd_ch_offsets := [0; 6];
     dd_ch_resolutions := [8; 8];
     dd_scale := [1; 1 / 1000000; 1; 1; 1 / 250000; 2 / 250000]%float;
     dd_stride := [NpUint64 6; PyInt 0; PyInt 0; PyInt 0; NpUint64 3; NpUint64 1];
     dd_tile_positions := ([], []) |}.

(** A file whose only block header gives, in the 8-byte form, the length
    [2^63] and an empty description, followed by 100 zero bytes. *)
Definition example_oversized_block_file : list byte :=
  example_header
  ++ [x70; x00; x00; x00;  x00; x00; x00; x00;  x2a;
      x00; x00; x00; x00; x00; x00; x00; x80;  x2a;
      x00; x00; x00; x00]
  ++ repeat x00 100.
(** * Properties *)

(** ** Auxiliary facts about the runtime model *)

Lemma bytes_eqb_eq (a b : list byte) : bytes_eqb a b = true <-> a = b.
Proof.
  revert b; induction a as [|x a IH]; intros [|y b]; simpl; split;
    try congruence; try reflexivity.
  - intros H. apply andb_prop in H as [Hx Hab].
    apply Byte.byte_dec_bl in Hx. apply IH in Hab. congruence.
  - intros H. injection H as -> ->.
    rewrite (Byte.byte_dec_lb eq_refl). simpl. apply IH. reflexivity.
Qed.

Lemma bytes_eqb_neq (a b : list byte) : bytes_eqb a b = false <-> a <> b.
Proof.
  split.
  - intros H E. apply bytes_eqb_eq in E. congruence.
  - intros H. destruct (bytes_eqb a b) eqn:E; [|reflexivity].
    apply bytes_eqb_eq in E. contradiction.
Qed.

Lemma np_int64_small (x : Z) : - 2^63 <= x < 2^63 -> np_int64 x = x.
Proof.
  intros H. unfold np_int64. rewrite Z.mod_small; lia.
Qed.

Lemma offset_fits (offset : Z) :
  - 2 ^ 63 <= offset < 2 ^ 63 ->
  (offset <? - 2 ^ 63) || (2 ^ 63 <=? offset) = false.
Proof.
  intros H. apply orb_false_iff. split; [apply Z.ltb_ge | apply Z.leb_gt]; lia.
Qed.

Lemma len_nonneg {A} (l : list A) : 0 <= len l.
Proof. unfold len. lia. Qed.

Lemma len_app {A} (l1 l2 : list A) : len (l1 ++ l2) = len l1 + len l2.
Proof. unfold len. rewrite length_app. lia. Qed.

Lemma len_repeat {A} (x : A) (n : nat) : len (repeat x n) = Z.of_nat n.
Proof. unfold len. rewrite repeat_length. reflexivity. Qed.

Lemma len_firstn {A} (n : nat) (l : list A) :
  len (firstn n l) = Z.min (Z.of_nat n) (len l).
Proof. unfold len. rewrite length_firstn. lia. Qed.

Lemma len_skipn {A} (n : nat) (l : list A) :
  len (skipn n l) = Z.max 0 (len l - Z.of_nat n).
Proof. unfold len. rewrite length_skipn. lia. Qed.

Lemma decode_items_length (k width : nat) (bs : list byte) :
  List.length (decode_items k width bs) = k.
Proof.
  revert bs; induction k as [|k IH]; intros bs; simpl; [reflexivity|].
  rewrite IH. reflexivity.
Qed.

Lemma float_overflow_bound_large : 2 ^ 53 < float_overflow_bound.
Proof. vm_compute. reflexivity. Qed.

Lemma int_truediv_Ok (a b k : Z) :
  int_truediv a b = Ok k -> b <> 0 /\ k = Z.quot a b.
Proof.
  unfold int_truediv. destruct (Z.eqb_spec b 0); [discriminate|].
  destruct (_ <=? _); [discriminate|]. intros H; injection H as <-. auto.
Qed.

Lemma int_truediv_small (a b : Z) :
  0 <= a < 2 ^ 53 -> 0 < b -> int_truediv a b = Ok (a / b).
Proof.
  intros Ha Hb. unfold int_truediv.
  destruct (Z.eqb_spec b 0); [lia|].
  pose proof float_overflow_bound_large.
  destruct (Z.leb_spec (float_overflow_bound * Z.abs b) (Z.abs a)); [nia|].
  rewrite Z.quot_div_nonneg by lia. reflexivity.
Qed.

Lemma np_dtype_u_Ok (k dt : Z) :
  np_dtype_u k = Ok dt -> dt = k /\ (k = 1 \/ k = 2 \/ k = 4 \/ k = 8).
Proof.
  unfold np_dtype_u.
  destruct (Z.eqb_spec k 1); [intros H; injection H as <-; auto|].
  destruct (Z.eqb_spec k 2); [intros H; injection H as <-; auto|].
  destruct (Z.eqb_spec k 4); [intros H; injection H as <-; auto|].
  destruct (Z.eqb_spec k 8); [intros H; injection H as <-; auto 6|].
  discriminate.
Qed.

(** ** Descriptors and the images built from them *)

(** The [for dim in ...] loop appends, axis by axis, the values
    [axis_values] names. *)
Lemma fold_append_dimension (item : Element) (ids : list Z) :
  forall (dims : list Z) (strides : list number) (lengths : list float),
    fold_left (append_dimension item) ids (dims, strides, lengths)
    = (dims ++ map (axis_count item) ids,
       strides ++ map (axis_stride item) ids,
       lengths ++ map (axis_length item) ids).
Proof.
  induction ids as [|i ids IH]; intros dims strides lengths; simpl.
  - now rewrite !app_nil_r.
  - change (append_dimension item (dims, strides, lengths) i)
      with (match find_dimension item i with
            | Some dd => (dims ++ [dim_NumberOfElements dd],
                          strides ++ [NpUint64 (dim_BytesInc dd)],
                          lengths ++ [dim_Length dd])
            | None => (dims ++ [1], strides ++ [PyInt 0], lengths ++ [1%float])
            end).
    unfold axis_count at 1, axis_stride at 1, axis_length at 1, axis_values.
    destruct (find_dimension item i) as [dd|]; rewrite IH; cbn;
      rewrite <- !app_assoc; reflexivity.
Qed.

(** An image object keeps the descriptor's sizes; its dtype comes from
    the first channel's resolution. *)
Lemma init_inv (info : data_dict) (offs : Z * Z) (fname : string)
    (self : LifImage.t) (nC nZ nT nM nY nX : Z) :
  descriptor_shape info nC nZ nT nM nY nX ->
  LifImage.__init__ info offs fname = Ok self ->
  LifImage.dims self = [nC; nZ; nT; nM; nY; nX]
  /\ LifImage.channels self = nC
  /\ LifImage.nz self = nZ
  /\ LifImage.nt self = nT
  /\ LifImage.offsets self = offs
  /\ LifImage.stride self = dd_stride info
  /\ (exists r0, py_getitem (dd_ch_resolutions info) 0 = Ok r0
                 /\ LifImage.dtype self = Z.quot r0 8)
  /\ (LifImage.dtype self = 1 \/ LifImage.dtype self = 2
      \/ LifImage.dtype self = 4 \/ LifImage.dtype self = 8).
Proof.
  intros [Hd Hc] H. unfold LifImage.__init__ in H. rewrite Hd in H.
  change (py_getitem [nC; nZ; nT; nM; nY; nX] 1) with (Ok nZ) in H.
  change (py_getitem [nC; nZ; nT; nM; nY; nX] 2) with (Ok nT) in H.
  cbv beta iota delta [rbind] in H.
  destruct (py_getitem (dd_ch_resolutions info) 0) as [r0|] eqn:Hr; [|discriminate].
  destruct (int_truediv r0 8) as [k|] eqn:Hq; [|discriminate].
  apply int_truediv_Ok in Hq as [_ ->].
  destruct (np_dtype_u (Z.quot r0 8)) as [k|] eqn:Hk; [|discriminate].
  apply np_dtype_u_Ok in Hk as [-> Hk].
  injection H as <-. cbn.
  repeat split; try assumption; try reflexivity.
  - exists r0. split; reflexivity.
Qed.

(** ** [get_frame]: the bounds checks *)

Lemma item_requested_lt (nC nZ nT nM z t c m : Z) :
  0 <= nC -> 0 <= nZ -> 0 <= nT ->
  z < nZ -> t < nT -> c < nC -> m < nM ->
  item_requested nC nZ nT z t c m < nC * nZ * nT * nM.
Proof.
  intros HC HZ HT Hz Ht Hc Hm. unfold item_requested.
  assert (HCZ : 0 <= nC * nZ) by (apply Z.mul_nonneg_nonneg; assumption).
  assert (HCZT : 0 <= nC * nZ * nT) by (apply Z.mul_nonneg_nonneg; assumption).
  assert (H1 : nC * nZ * nT * m <= nC * nZ * nT * (nM - 1))
    by (apply Z.mul_le_mono_nonneg_l; lia).
  assert (H2 : nC * nZ * t <= nC * nZ * (nT - 1))
    by (apply Z.mul_le_mono_nonneg_l; lia).
  assert (H3 : nZ * c <= nZ * (nC - 1))
    by (apply Z.mul_le_mono_nonneg_l; lia).
  lia.
Qed.

Lemma item_requested_nonneg (nC nZ nT z t c m : Z) :
  0 <= nC -> 0 <= nZ -> 0 <= nT ->
  0 <= z -> 0 <= t -> 0 <= c -> 0 <= m ->
  0 <= item_requested nC nZ nT z t c m.
Proof.
  intros HC HZ HT Hz Ht Hc Hm. unfold item_requested.
  assert (HCZ : 0 <= nC * nZ) by (apply Z.mul_nonneg_nonneg; assumption).
  assert (HCZT : 0 <= nC * nZ * nT) by (apply Z.mul_nonneg_nonneg; assumption).
  assert (0 <= nC * nZ * nT * m) by (apply Z.mul_nonneg_nonneg; assumption).
  assert (0 <= nC * nZ * t) by (apply Z.mul_nonneg_nonneg; assumption).
  assert (0 <= nZ * c) by (apply Z.mul_nonneg_nonneg; assumption).
  lia.
Qed.

Section GetFrame.

Variables (info : data_dict) (offs : Z * Z) (fname : string) (self : LifImage.t).
Variables (nC nZ nT nM nY nX : Z).
Hypothesis Hshape : descriptor_shape info nC nZ nT nM nY nX.
Hypothesis Hinit : LifImage.__init__ info offs fname = Ok self.

(** Past the four checks, [get_frame] hands the computed index to the
    item reader. *)
Lemma get_frame_delegates (file : list byte) (z t c m : Z) (return_as_np : bool) :
  0 <= nC -> 0 <= nZ -> 0 <= nT ->
  z < nZ -> t < nT -> c < nC -> m < nM ->
  LifImage.get_frame self file z t c m return_as_np
  = if return_as_np
    then rmap AsArray (LifImage._get_item_np self file (item_requested nC nZ nT z t c m))
    else rmap AsImage (LifImage._get_item self file (item_requested nC nZ nT z t c m)).
Proof.
  intros HC HZ HT Hz Ht Hc Hm.
  destruct (init_inv _ _ _ _ _ _ _ _ _ _ Hshape Hinit)
    as (Hdims & Hch & Hnz & Hnt & _).
  unfold LifImage.get_frame. rewrite Hdims, Hch, Hnz, Hnt.
  rewrite !Z.geb_leb.
  destruct (Z.leb_spec nZ z); [lia|].
  destruct (Z.leb_spec nT t); [lia|].
  destruct (Z.leb_spec nC c); [lia|].
  change (py_getitem [nC; nZ; nT; nM; nY; nX] 3) with (Ok nM).
  cbv beta iota delta [rbind]. rewrite Z.geb_leb.
  destruct (Z.leb_spec nM m); [lia|].
  cbv zeta. rewrite Z.gtb_ltb.
  fold (item_requested nC nZ nT z t c m).
  assert (Hitem : item_requested nC nZ nT z t c m < nC * nZ * nT * nM)
    by (apply item_requested_lt; assumption).
  destruct (Z.ltb_spec (nC * nZ * nT * nM) (item_requested nC nZ nT z t c m)); [lia|].
  destruct return_as_np; unfold rmap;
    [destruct (LifImage._get_item_np _ _ _) | destruct (LifImage._get_item _ _ _)];
    reflexivity.
Qed.

(** A coordinate at or beyond its dimension size is refused, with the
    error of an axis that is out of range. *)
Lemma get_frame_out_of_range (file : list byte) (z t c m : Z) (return_as_np : bool) :
  nZ <= z \/ nT <= t \/ nC <= c \/ nM <= m ->
  exists a : axis,
    LifImage.get_frame self file z t c m return_as_np = Raise (range_error a)
    /\ match a with
       | AxisZ => nZ <= z
       | AxisT => nT <= t
       | AxisC => nC <= c
       | AxisM => nM <= m
       end.
Proof.
  intros Hout.
  destruct (init_inv _ _ _ _ _ _ _ _ _ _ Hshape Hinit)
    as (Hdims & Hch & Hnz & Hnt & _).
  unfold LifImage.get_frame. rewrite Hdims, Hch, Hnz, Hnt.
  rewrite !Z.geb_leb.
  destruct (Z.leb_spec nZ z); [exists AxisZ; split; [reflexivity|assumption]|].
  destruct (Z.leb_spec nT t); [exists AxisT; split; [reflexivity|assumption]|].
  destruct (Z.leb_spec nC c); [exists AxisC; split; [reflexivity|assumption]|].
  change (py_getitem [nC; nZ; nT; nM; nY; nX] 3) with (Ok nM).
  cbv beta iota delta [rbind]. rewrite Z.geb_leb.
  destruct (Z.leb_spec nM m); [exists AxisM; split; [reflexivity|assumption]|].
  lia.
Qed.

(** Every plane is there to be read when the block holds the planes. *)
Lemma _get_item_reads_plane (file : list byte) (n : Z) :
  block_holds_planes self file nC nZ nT nM nY nX ->
  0 <= n < nC * nZ * nT * nM ->
  exists im, LifImage._get_item self file n = Ok im
             /\ im_size im = (nY, nX)
             /\ len (im_data im) = nY * nX.
Proof.
  intros (HY & HX & HP & HL & Hfile & H53) Hn.
  destruct (init_inv _ _ _ _ _ _ _ _ _ _ Hshape Hinit)
    as (Hdims & Hch & _ & _ & _ & _ & _ & Hdt).
  set (P := fst (LifImage.offsets self)) in *.
  set (L := snd (LifImage.offsets self)) in *.
  set (sd := nC * nZ * nT * nM) in *.
  assert (Hsd : 0 < sd) by lia.
  assert (Hpl : nY * nX <= nY * nX * LifImage.dtype self) by nia.
  assert (HL' : sd * (nY * nX) <= L) by nia.
  assert (Hq : Z.quot L sd = L / sd) by (apply Z.quot_div_nonneg; nia).
  set (q := L / sd) in *.
  assert (Hq1 : nY * nX <= q) by (apply Z.div_le_lower_bound; lia).
  assert (Hq2 : sd * q <= L) by (apply Z.mul_div_le; lia).
  assert (Hq3 : q * n + q <= L) by nia.
  assert (HYX : 0 < nY * nX) by nia.
  unfold LifImage._get_item. rewrite Hdims, Hch.
  change (py_getitem [nC; nZ; nT; nM; nY; nX] 1) with (Ok nZ).
  change (py_getitem [nC; nZ; nT; nM; nY; nX] 2) with (Ok nT).
  change (py_getitem [nC; nZ; nT; nM; nY; nX] 3) with (Ok nM).
  change (py_getitem [nC; nZ; nT; nM; nY; nX] 4) with (Ok nY).
  change (py_getitem [nC; nZ; nT; nM; nY; nX] 5) with (Ok nX).
  cbv beta iota zeta delta [rbind]. fold sd P L.
  rewrite Z.geb_leb. destruct (Z.leb_spec sd n); [lia|].
  assert (E0 : (L =? 0) = false) by (apply Z.eqb_neq; lia).
  unfold with_open, bind, lift. rewrite E0.
  rewrite (int_truediv_small L sd) by nia. fold q.
  unfold seek.
  assert (E2 : ((P + q * n <? - 2 ^ 63) || (2 ^ 63 <=? P + q * n)) = false).
  { apply orb_false_iff. split; [apply Z.ltb_ge | apply Z.leb_gt]; nia. }
  rewrite E2. cbn [h_pos h_bytes Z.eqb].
  assert (E3 : (0 + (P + q * n) <? 0) = false) by (apply Z.ltb_ge; nia).
  rewrite E3. unfold read. cbn [h_pos h_bytes].
  assert (E4 : (q <? -1) = false) by (apply Z.ltb_ge; lia).
  assert (E5 : (q =? -1) = false) by (apply Z.eqb_neq; lia).
  rewrite E4, E5. cbn [fst].
  set (got := firstn (Z.to_nat q) (skipn (Z.to_nat (0 + (P + q * n))) file)).
  assert (Hgot : len got = q).
  { unfold got. rewrite len_firstn, len_skipn. nia. }
  unfold Image_frombytes_L.
  assert (E6 : ((nY <? 0) || (nX <? 0)) = false).
  { apply orb_false_iff. split; apply Z.ltb_ge; lia. }
  assert (E7 : ((nY =? 0) || (nX =? 0)) = false).
  { apply orb_false_iff. split; apply Z.eqb_neq; lia. }
  assert (E8 : (len got <? nY * nX) = false) by (apply Z.ltb_ge; lia).
  rewrite E6, E7, E8.
  eexists. split; [reflexivity|]. cbn [im_size im_data]. split; [reflexivity|].
  rewrite len_firstn. lia.
Qed.

Lemma np_prod_cons (a : Z) (l : list Z) (acc : Z) :
  fold_left (fun acc d => np_int64 (acc * d)) (a :: l) acc
  = fold_left (fun acc d => np_int64 (acc * d)) l (np_int64 (acc * a)).
Proof. reflexivity. Qed.

Lemma _get_item_np_reads_plane (file : list byte) (n : Z) :
  block_holds_planes self file nC nZ nT nM nY nX ->
  0 < nC -> 0 < nZ -> 0 < nT -> 0 < nM ->
  0 <= n < nC * nZ * nT * nM ->
  exists a, LifImage._get_item_np self file n = Ok a
            /\ nd_shape a = [nY; nX]
            /\ nd_itemsize a = LifImage.dtype self
            /\ len (nd_data a) = nY * nX.
Proof.
  intros (HY & HX & HP & HL & Hfile & H53) HnC HnZ HnT HnM Hn.
  destruct (init_inv _ _ _ _ _ _ _ _ _ _ Hshape Hinit)
    as (Hdims & Hch & _ & _ & _ & _ & _ & Hdt).
  set (P := fst (LifImage.offsets self)) in *.
  set (L := snd (LifImage.offsets self)) in *.
  set (w := LifImage.dtype self) in *.
  assert (Hw : 1 <= w <= 8) by lia.
  assert (HYX : 0 < nY * nX) by nia.
  assert (Hsd : 0 < nC * nZ * nT * nM) by lia.
  assert (Hpb : 0 < nY * nX * w) by nia.
  assert (Hsd' : nC * nZ * nT * nM <= L) by nia.
  assert (Hbytes : nY * nX * w * n + nY * nX * w <= L) by nia.
  assert (B53 : 2 ^ 53 < 2 ^ 63) by lia.
  unfold LifImage._get_item_np. rewrite Hdims.
  cbv beta iota zeta delta [slice_to slice_last2 firstn skipn List.length Nat.sub np_prod fold_left].
  rewrite !Z.mul_1_l.
  rewrite (np_int64_small nC) by lia.
  rewrite (np_int64_small (nC * nZ)) by nia.
  rewrite (np_int64_small (nC * nZ * nT)) by nia.
  rewrite (np_int64_small (nC * nZ * nT * nM)) by nia.
  rewrite Z.geb_leb. destruct (Z.leb_spec (nC * nZ * nT * nM) n); [lia|].
  rewrite (np_int64_small nY) by nia.
  rewrite (np_int64_small (nY * nX)) by nia.
  rewrite (np_int64_small (nY * nX)) by nia.
  fold P w.
  rewrite (np_int64_small (nY * nX * w)) by nia.
  rewrite (np_int64_small (nY * nX * w * n)) by nia.
  rewrite (np_int64_small (P + nY * nX * w * n)) by nia.
  unfold with_open, np_fromfile. cbn [h_pos h_bytes].
  rewrite offset_fits by nia.
  assert (E1 : (0 + (P + nY * nX * w * n) <? 0) = false) by (apply Z.ltb_ge; nia).
  assert (E2 : (nY * nX <? 0) = false) by (apply Z.ltb_ge; lia).
  rewrite E1, E2. cbn [fst rbind].
  set (rest := skipn (Z.to_nat (0 + (P + nY * nX * w * n))) file).
  assert (Hrest : nY * nX * w <= len rest).
  { unfold rest. rewrite len_skipn. nia. }
  assert (Havail : nY * nX <= len rest / w).
  { apply Z.div_le_lower_bound; lia. }
  rewrite Z.min_l by exact Havail.
  unfold np_reshape. cbn [nd_data nd_itemsize existsb count_occ].
  assert (E3 : (nY <? -1) = false) by (apply Z.ltb_ge; lia).
  assert (E4 : (nX <? -1) = false) by (apply Z.ltb_ge; lia).
  rewrite E3, E4. cbn [orb].
  destruct (Z.eq_dec nY (-1)); [lia|]. destruct (Z.eq_dec nX (-1)); [lia|].
  assert (Hsize : len (decode_items (Z.to_nat (nY * nX)) (Z.to_nat w) rest) = nY * nX).
  { unfold len. rewrite decode_items_length. lia. }
  rewrite Hsize. cbn [Zprod fold_right]. rewrite Z.mul_1_r, Z.eqb_refl.
  eexists. split; [reflexivity|]. cbn [nd_shape nd_itemsize nd_data].
  repeat split; assumption.
Qed.

End GetFrame.

(** ** The example container *)

Lemma example_descriptors :
  _recursive_image_find example_root [] ""
  = Ok [example_info "first" 2; example_info "second" 8].
Proof. vm_compute. reflexivity. Qed.

Lemma example_open :
  exists lf,
    LifFile.__init__ (fun _ => Ok example_root) "example.lif" example_truncated_file
    = Ok (lf, [LifFile.truncation_warning])
    /\ LifFile.offsets lf = [(37, 8); (45, 0)]
    /\ LifFile.get_image lf 0 = Ok (example_image "first" 2 (37, 8))
    /\ LifFile.get_image lf 1 = Ok (example_image "second" 8 (45, 0)).
Proof.
  eexists. split; [vm_compute; reflexivity|].
  split; [|split]; vm_compute; reflexivity.
Qed.

(** ** Single-plane reads *)

(** Products and sums of strides that stay within [uint64] are the
    integers' products and sums, whatever mix of [int] and [uint64] the
    strides are. *)
Lemma int_mul_number_value (k : Z) (s : number) :
  0 <= k < 2 ^ 64 -> 0 <= int_of_number s -> k * int_of_number s < 2 ^ 64 ->
  exists x, int_mul_number k s = Ok x /\ int_of_number x = k * int_of_number s.
Proof.
  intros Hk Hs Hprod. destruct s as [v|v]; cbn [int_of_number] in *.
  - eexists. split; reflexivity.
  - unfold int_mul_number, as_uint64.
    destruct (Z.ltb_spec k 0); [lia|]. destruct (Z.leb_spec (2 ^ 64) k); [lia|].
    cbn [orb rbind]. eexists. split; [reflexivity|].
    cbn [int_of_number]. unfold np_uint64. apply Z.mod_small.
    split; [apply Z.mul_nonneg_nonneg; lia | exact Hprod].
Qed.

Lemma number_add_value (a b : number) :
  0 <= int_of_number a -> 0 <= int_of_number b ->
  int_of_number a + int_of_number b < 2 ^ 64 ->
  exists x, number_add a b = Ok x /\ int_of_number x = int_of_number a + int_of_number b.
Proof.
  intros Ha Hb Hsum.
  destruct a as [x|x], b as [y|y]; cbn [int_of_number] in *;
    unfold number_add, as_uint64.
  - eexists. split; reflexivity.
  - destruct (Z.ltb_spec x 0); [lia|]. destruct (Z.leb_spec (2 ^ 64) x); [lia|].
    cbn [orb rbind]. eexists. split; [reflexivity|].
    cbn [int_of_number]. unfold np_uint64. apply Z.mod_small. lia.
  - destruct (Z.ltb_spec y 0); [lia|]. destruct (Z.leb_spec (2 ^ 64) y); [lia|].
    cbn [orb rbind]. eexists. split; [reflexivity|].
    cbn [int_of_number]. unfold np_uint64. apply Z.mod_small. lia.
  - eexists. split; [reflexivity|].
    cbn [int_of_number]. unfold np_uint64. apply Z.mod_small. lia.
Qed.

(** A negative [int] does not convert to [uint64]. *)
Lemma int_mul_number_negative (k v : Z) :
  k < 0 -> int_mul_number k (NpUint64 v) = Raise OverflowError.
Proof.
  intros Hk. unfold int_mul_number, as_uint64.
  destruct (Z.ltb_spec k 0); [reflexivity | lia].
Qed.

(** [get_frame_np] computes the byte offset from the strides and reads the
    plane at that position of the file: for coordinates that are not
    negative and an offset below [2^64], where the [uint64] arithmetic
    neither raises nor wraps. *)
Lemma get_frame_np_position (self : LifImage.t) (file : list byte)
    (sC sZ sT sM : number) (rest : list number) (z t c m : Z) :
  LifImage.stride self = sC :: sZ :: sT :: sM :: rest ->
  0 <= int_of_number sC -> 0 <= int_of_number sZ ->
  0 <= int_of_number sT -> 0 <= int_of_number sM ->
  0 <= z -> 0 <= t -> 0 <= c -> 0 <= m ->
  z < 2 ^ 64 -> t < 2 ^ 64 -> c < 2 ^ 64 -> m < 2 ^ 64 ->
  m * int_of_number sM + t * int_of_number sT
    + z * int_of_number sZ + c * int_of_number sC < 2 ^ 64 ->
  LifImage.get_frame_np self file z t c m
  = plane_at self file (m * int_of_number sM + t * int_of_number sT
                        + z * int_of_number sZ + c * int_of_number sC).
Proof.
  intros Hs HsC HsZ HsT HsM Hz Ht Hc Hm Hz' Ht' Hc' Hm' Hsum.
  assert (PM : 0 <= m * int_of_number sM) by (apply Z.mul_nonneg_nonneg; lia).
  assert (PT : 0 <= t * int_of_number sT) by (apply Z.mul_nonneg_nonneg; lia).
  assert (PZ : 0 <= z * int_of_number sZ) by (apply Z.mul_nonneg_nonneg; lia).
  assert (PC : 0 <= c * int_of_number sC) by (apply Z.mul_nonneg_nonneg; lia).
  unfold LifImage.get_frame_np, plane_at. rewrite Hs.
  change (py_getitem (sC :: sZ :: sT :: sM :: rest) 3) with (@Ok number sM).
  change (py_getitem (sC :: sZ :: sT :: sM :: rest) 2) with (@Ok number sT).
  change (py_getitem (sC :: sZ :: sT :: sM :: rest) 1) with (@Ok number sZ).
  change (py_getitem (sC :: sZ :: sT :: sM :: rest) 0) with (@Ok number sC).
  cbn [rbind].
  destruct (int_mul_number_value m sM) as (o3 & -> & E3); try lia. cbn [rbind].
  destruct (int_mul_number_value t sT) as (x2 & -> & E2); try lia. cbn [rbind].
  destruct (number_add_value o3 x2) as (o2 & -> & F2); try lia. cbn [rbind].
  destruct (int_mul_number_value z sZ) as (x1 & -> & E1); try lia. cbn [rbind].
  destruct (number_add_value o2 x1) as (o1 & -> & F1); try lia. cbn [rbind].
  destruct (int_mul_number_value c sC) as (x0 & -> & E0); try lia. cbn [rbind].
  destruct (number_add_value o1 x0) as (o0 & -> & F0); try lia. cbn [rbind].
  rewrite F0, F1, F2, E0, E1, E2, E3. reflexivity.
Qed.

(** C1: the single-plane read [get_frame_np] computes
    [byteOffset = c*strideC + z*strideD + t*strideT + m*strideM] but reads
    the plane at file position [byteOffset], not at
    [block.fileOffset + byteOffset].  On the example image (block at 37,
    channel stride 4) channel 1 is read from position 4, inside the file
    header, while the plane the block holds at 37 + 4 is [5; 6; 7; 8]. *)
Theorem get_frame_np_omits_block_offset :
  let self := example_image "first" 2 (37, 8) in
  let file := example_truncated_file in
  fst (LifImage.offsets self) = 37
  /\ LifImage.get_frame_np self file 0 0 1 0 = plane_at self file (1 * 4)
  /\ plane_at self file (1 * 4) = Ok (mkArray 1 [2; 2] [0; 0; 0; 0])
  /\ plane_at self file (37 + 1 * 4) = Ok (mkArray 1 [2; 2] [5; 6; 7; 8]).
Proof. split; [|split; [|split]]; vm_compute; reflexivity. Qed.

(** X21: [get_frame], in both return modes, refuses a coordinate that is
    at or beyond its dimension size with the error of an axis that is out
    of range; and for a coordinate within bounds and not negative, on a
    block that lies in the file and holds every plane, it returns exactly
    [height * width] elements. *)
Theorem get_frame_bounds_and_size
    (info : data_dict) (offs : Z * Z) (fname : string) (self : LifImage.t)
    (nC nZ nT nM nY nX : Z) (file : list byte) (z t c m : Z)
    (return_as_np : bool) :
  descriptor_shape info nC nZ nT nM nY nX ->
  LifImage.__init__ info offs fname = Ok self ->
  (nZ <= z \/ nT <= t \/ nC <= c \/ nM <= m ->
   exists a : axis,
     LifImage.get_frame self file z t c m return_as_np = Raise (range_error a)
     /\ match a with
        | AxisZ => nZ <= z
        | AxisT => nT <= t
        | AxisC => nC <= c
        | AxisM => nM <= m
        end)
  /\ (0 <= z < nZ -> 0 <= t < nT -> 0 <= c < nC -> 0 <= m < nM ->
      block_holds_planes self file nC nZ nT nM nY nX ->
      exists fr,
        LifImage.get_frame self file z t c m return_as_np = Ok fr
        /\ frame_elements fr = nY * nX).
Proof.
  intros Hshape Hinit. split.
  - apply (get_frame_out_of_range info offs fname self nC nZ nT nM nY nX Hshape Hinit).
  - intros Hz Ht Hc Hm Hblock.
    rewrite (get_frame_delegates info offs fname self nC nZ nT nM nY nX Hshape Hinit)
      by lia.
    assert (Hn : 0 <= item_requested nC nZ nT z t c m < nC * nZ * nT * nM).
    { split; [apply item_requested_nonneg | apply item_requested_lt]; lia. }
    destruct return_as_np.
    + destruct (_get_item_np_reads_plane info offs fname self nC nZ nT nM nY nX
                  Hshape Hinit file (item_requested nC nZ nT z t c m) Hblock)
        as (a & -> & _ & _ & Hlen); try lia.
      exists (AsArray a). split; [reflexivity | exact Hlen].
    + destruct (_get_item_reads_plane info offs fname self nC nZ nT nM nY nX
                  Hshape Hinit file (item_requested nC nZ nT z t c m) Hblock Hn)
        as (im & -> & _ & Hlen).
      exists (AsImage im). split; [reflexivity | exact Hlen].
Qed.

Lemma get_frame_bounds_and_size_witness :
  (exists a : axis,
     LifImage.get_frame (example_image "first" 2 (37, 8)) example_truncated_file
       0 0 2 0 false = Raise (range_error a)
     /\ match a with
        | AxisZ => 1 <= 0
        | AxisT => 1 <= 0
        | AxisC => 2 <= 2
        | AxisM => 1 <= 0
        end)
  /\ (exists fr,
        LifImage.get_frame (example_image "first" 2 (37, 8)) example_truncated_file
          0 0 1 0 false = Ok fr
        /\ frame_elements fr = 2 * 2).
Proof.
  destruct (get_frame_bounds_and_size (example_info "first" 2) (37, 8) "example.lif"
              (example_image "first" 2 (37, 8)) 2 1 1 1 2 2
              example_truncated_file 0 0 2 0 false) as [Hout _];
    [split; reflexivity | reflexivity |].
  destruct (get_frame_bounds_and_size (example_info "first" 2) (37, 8) "example.lif"
              (example_image "first" 2 (37, 8)) 2 1 1 1 2 2
              example_truncated_file 0 0 1 0 false) as [_ Hin];
    [split; reflexivity | reflexivity |].
  split.
  - apply Hout. right. right. left. lia.
  - apply Hin; try lia.
    unfold block_holds_planes. vm_compute.
    split; [|split; [|split; [|split; [|split]]]]; congruence.
Defined.

Lemma py_getitem_Raise {A} (l : list A) (i : Z) (e : exn) :
  py_getitem l i = Raise e -> e = IndexError.
Proof.
  unfold py_getitem. destruct (_ <? 0); [intros H; injection H as <-; reflexivity|].
  destruct (nth_error _ _); [discriminate|].
  intros H; injection H as <-; reflexivity.
Qed.

Ltac not_range :=
  match goal with
  | |- _ <> Raise (range_error ?ax) =>
      unfold range_error; destruct ax; discriminate
  end.

Lemma np_reshape_not_range_error (a : ndarray) (shape : list Z) (ax : axis) :
  np_reshape a shape <> Raise (range_error ax).
Proof.
  unfold np_reshape, reshape_error, range_error.
  destruct (existsb _ shape); [destruct ax; discriminate|].
  destruct (count_occ Z.eq_dec shape (-1)) as [|[|k]].
  - destruct (_ =? _); [discriminate | destruct ax; discriminate].
  - destruct (_ || _); [destruct ax; discriminate | discriminate].
  - destruct ax; discriminate.
Qed.

(** C2: the single-plane read [get_frame_np] makes no bounds check: on no
    image, file and coordinate does it raise the error of an axis out of
    range.  On the example image, of 2 channels, channel 2 is refused by
    [get_frame] and read by [get_frame_np], from byte 8 of the file.  And
    within bounds, the array read of a block of length 0 raises instead of
    returning [height * width] elements. *)
Theorem get_frame_np_makes_no_bounds_check :
  (forall (self : LifImage.t) (file : list byte) (z t c m : Z) (ax : axis),
      LifImage.get_frame_np self file z t c m <> Raise (range_error ax))
  /\ LifImage.channels (example_image "first" 2 (37, 8)) = 2
  /\ LifImage.get_frame (example_image "first" 2 (37, 8)) example_truncated_file
       0 0 2 0 true
     = Raise (range_error AxisC)
  /\ LifImage.get_frame_np (example_image "first" 2 (37, 8)) example_truncated_file
       0 0 2 0
     = Ok (mkArray 1 [2; 2] [42; 2; 0; 0])
  /\ LifImage.get_frame (example_image "second" 8 (45, 0)) example_truncated_file
       0 0 1 0 true
     = Raise (ValueError "cannot reshape array of size 36 into shape (8,8)").
Proof.
  split; [|split; [|split; [|split]]];
    [|vm_compute; reflexivity | vm_compute; reflexivity
     |vm_compute; reflexivity | vm_compute; reflexivity].
  intros self file z t c m ax. unfold LifImage.get_frame_np.
  destruct (py_getitem (LifImage.stride self) 3) as [s3|e] eqn:G3; cbn [rbind];
    [|rewrite (py_getitem_Raise _ _ _ G3); not_range].
  assert (Hmul : forall k s e, int_mul_number k s = Raise e -> e = OverflowError).
  { intros k [v|v] e; cbn; [discriminate|].
    unfold as_uint64. destruct (_ || _); cbn; [|discriminate].
    intros H; injection H as <-. reflexivity. }
  assert (Hadd : forall x y e, number_add x y = Raise e -> e = OverflowError).
  { intros [x|x] [y|y] e; cbn; try discriminate;
      unfold as_uint64; (destruct (_ || _); cbn; [|discriminate]);
      intros H; injection H as <-; reflexivity. }
  destruct (int_mul_number m s3) as [o3|e3] eqn:E3; cbn [rbind];
    [|rewrite (Hmul _ _ _ E3); not_range].
  destruct (py_getitem (LifImage.stride self) 2) as [s2|e] eqn:G2; cbn [rbind];
    [|rewrite (py_getitem_Raise _ _ _ G2); not_range].
  destruct (int_mul_number t s2) as [x2|e2] eqn:E2; cbn [rbind];
    [|rewrite (Hmul _ _ _ E2); not_range].
  destruct (number_add o3 x2) as [o2|e2] eqn:F2; cbn [rbind];
    [|rewrite (Hadd _ _ _ F2); not_range].
  destruct (py_getitem (LifImage.stride self) 1) as [s1|e] eqn:G1; cbn [rbind];
    [|rewrite (py_getitem_Raise _ _ _ G1); not_range].
  destruct (int_mul_number z s1) as [x1|e1] eqn:E1; cbn [rbind];
    [|rewrite (Hmul _ _ _ E1); not_range].
  destruct (number_add o2 x1) as [o1|e1] eqn:F1; cbn [rbind];
    [|rewrite (Hadd _ _ _ F1); not_range].
  destruct (py_getitem (LifImage.stride self) 0) as [s0|e] eqn:G0; cbn [rbind];
    [|rewrite (py_getitem_Raise _ _ _ G0); not_range].
  destruct (int_mul_number c s0) as [x0|e0] eqn:E0; cbn [rbind];
    [|rewrite (Hmul _ _ _ E0); not_range].
  destruct (number_add o1 x0) as [o0|e0] eqn:F0; cbn [rbind];
    [|rewrite (Hadd _ _ _ F0); not_range].
  unfold with_open, np_fromfile. cbn [h_pos h_bytes].
  destruct (_ || _); cbn [fst rbind]; [not_range|].
  destruct (_ <? 0); cbn [fst rbind]; [not_range|].
  apply np_reshape_not_range_error.
Qed.

(** C9: the bounds checks of [get_frame] test only the upper bound of each
    axis.  Whatever the sign of the coordinates, when each is below its
    dimension size no check raises, and the plane index
    [nC*nZ*nT*m + nC*nZ*t + z + nZ*c] computed from them, negative values
    included, is handed to the item reader. *)
Theorem get_frame_checks_upper_bound_only
    (info : data_dict) (offs : Z * Z) (fname : string) (self : LifImage.t)
    (nC nZ nT nM nY nX : Z) (file : list byte) (z t c m : Z)
    (return_as_np : bool) :
  descriptor_shape info nC nZ nT nM nY nX ->
  LifImage.__init__ info offs fname = Ok self ->
  0 <= nC -> 0 <= nZ -> 0 <= nT ->
  z < nZ -> t < nT -> c < nC -> m < nM ->
  LifImage.get_frame self file z t c m return_as_np
  = if return_as_np
    then rmap AsArray (LifImage._get_item_np self file (item_requested nC nZ nT z t c m))
    else rmap AsImage (LifImage._get_item self file (item_requested nC nZ nT z t c m)).
Proof.
  intros Hshape Hinit.
  apply (get_frame_delegates info offs fname self nC nZ nT nM nY nX Hshape Hinit).
Qed.

(** With [z = -1] the index is [-1]: the plane returned is the four bytes
    before the block. *)
Lemma get_frame_checks_upper_bound_only_witness :
  item_requested 2 1 1 (-1) 0 0 0 = -1
  /\ LifImage.get_frame (example_image "first" 2 (37, 8)) example_truncated_file
       (-1) 0 0 0 false
     = Ok (AsImage (mkImage "L" (2, 2) [x00; x00; x58; x00])).
Proof.
  split; [reflexivity|].
  rewrite (get_frame_checks_upper_bound_only (example_info "first" 2) (37, 8)
             "example.lif" (example_image "first" 2 (37, 8)) 2 1 1 1 2 2
             example_truncated_file (-1) 0 0 0 false);
    [vm_compute; reflexivity | split; reflexivity | reflexivity
    | lia | lia | lia | lia | lia | lia | lia].
Defined.

(** ** Truncated blocks *)

Lemma firstn_repeat_le {A} (x : A) (n m : nat) :
  (n <= m)%nat -> firstn n (repeat x m) = repeat x n.
Proof.
  revert m; induction n as [|n IH]; intros [|m] H; simpl; try reflexivity; try lia.
  rewrite IH by lia. reflexivity.
Qed.

(** [_get_item] on a block of length 0: a plane of zeros, made without
    reading the file. *)
Lemma _get_item_truncated (info : data_dict) (offs : Z * Z) (fname : string)
    (self : LifImage.t) (nC nZ nT nM nY nX : Z) (file : list byte) (n : Z) :
  descriptor_shape info nC nZ nT nM nY nX ->
  LifImage.__init__ info offs fname = Ok self ->
  snd offs = 0 -> 0 <= fst offs ->
  0 <= nY -> 0 <= nX ->
  0 <= n < nC * nZ * nT * nM ->
  fst offs + nC * nZ * nT * nM * nY * nX * n < 2 ^ 63 ->
  LifImage._get_item self file n
  = Ok (mkImage "L" (nY, nX) (repeat x00 (Z.to_nat (nY * nX)))).
Proof.
  intros Hshape Hinit HL HP HY HX Hn Hseek.
  destruct (init_inv _ _ _ _ _ _ _ _ _ _ Hshape Hinit)
    as (Hdims & Hch & _ & _ & Hoffs & _).
  unfold LifImage._get_item. rewrite Hdims, Hch, Hoffs, HL.
  change (py_getitem [nC; nZ; nT; nM; nY; nX] 1) with (Ok nZ).
  change (py_getitem [nC; nZ; nT; nM; nY; nX] 2) with (Ok nT).
  change (py_getitem [nC; nZ; nT; nM; nY; nX] 3) with (Ok nM).
  change (py_getitem [nC; nZ; nT; nM; nY; nX] 4) with (Ok nY).
  change (py_getitem [nC; nZ; nT; nM; nY; nX] 5) with (Ok nX).
  cbv beta iota zeta delta [rbind].
  set (sd := nC * nZ * nT * nM) in *.
  rewrite Z.geb_leb. destruct (Z.leb_spec sd n); [lia|].
  change (0 =? 0) with true. cbv iota.
  unfold with_open, bind, lift, seek, ret.
  assert (HYX : 0 <= nY * nX) by (apply Z.mul_nonneg_nonneg; assumption).
  assert (Hlen : 0 <= sd * nY * nX * n).
  { apply Z.mul_nonneg_nonneg; [|lia].
    rewrite <- Z.mul_assoc. apply Z.mul_nonneg_nonneg; lia. }
  assert (E2 : ((fst offs + sd * nY * nX * n <? - 2 ^ 63)
                || (2 ^ 63 <=? fst offs + sd * nY * nX * n)) = false).
  { apply orb_false_iff. split; [apply Z.ltb_ge | apply Z.leb_gt]; lia. }
  rewrite E2. cbn [h_pos h_bytes Z.eqb].
  assert (E3 : (0 + (fst offs + sd * nY * nX * n) <? 0) = false) by (apply Z.ltb_ge; lia).
  rewrite E3. cbn [fst].
  unfold Image_frombytes_L.
  assert (E6 : ((nY <? 0) || (nX <? 0)) = false).
  { apply orb_false_iff. split; apply Z.ltb_ge; lia. }
  rewrite E6.
  destruct ((nY =? 0) || (nX =? 0)) eqn:E7.
  - assert (nY * nX = 0) as ->.
    { apply orb_prop in E7 as [E|E]; apply Z.eqb_eq in E; subst; lia. }
    reflexivity.
  - apply orb_false_iff in E7 as [EY EX].
    apply Z.eqb_neq in EY. apply Z.eqb_neq in EX.
    assert (Hge : nY * nX <= sd * nY * nX).
    { rewrite <- Z.mul_assoc. rewrite <- (Z.mul_1_l (nY * nX)) at 1.
      apply Z.mul_le_mono_nonneg_r; lia. }
    rewrite len_repeat.
    assert (E8 : (Z.of_nat (Z.to_nat (sd * nY * nX)) <? nY * nX) = false)
      by (apply Z.ltb_ge; lia).
    rewrite E8, firstn_repeat_le by lia. reflexivity.
Qed.

(** C3: a block of length 0 must read as zero-filled planes.  [_get_item]
    does so, but the array reader [_get_item_np] has no such case: it
    reads the file at the block position.  In the example file the second
    image (8 x 8, two channels) has the synthesized block (45, 0); its
    channel 1 would lie at 109 where only 36 bytes are left, and
    [get_frame] with [return_as_np] raises instead of returning zeros. *)
Theorem truncated_block_array_read_raises :
  let self := example_image "second" 8 (45, 0) in
  let file := example_truncated_file in
  snd (LifImage.offsets self) = 0
  /\ LifImage.get_frame self file 0 0 1 0 false
     = Ok (AsImage (mkImage "L" (8, 8) (repeat x00 64)))
  /\ LifImage.get_frame self file 0 0 1 0 true
     = Raise (ValueError "cannot reshape array of size 36 into shape (8,8)").
Proof. split; [|split]; vm_compute; reflexivity. Qed.

(** ** Pixel width *)

Lemma np_reshape_itemsize (a b : ndarray) (shape : list Z) :
  np_reshape a shape = Ok b -> nd_itemsize b = nd_itemsize a.
Proof.
  unfold np_reshape. destruct (existsb _ shape); [discriminate|].
  destruct (count_occ Z.eq_dec shape (-1)) as [|[|k]].
  - destruct (_ =? _); [|discriminate]. intros H; injection H as <-. reflexivity.
  - destruct (_ || _); [discriminate|]. intros H; injection H as <-. reflexivity.
  - discriminate.
Qed.

Lemma np_fromfile_itemsize (file : list byte) (itemsize count offset : Z) (a : ndarray) :
  with_open file (np_fromfile itemsize count offset) = Ok a ->
  nd_itemsize a = itemsize.
Proof.
  unfold with_open, np_fromfile. cbn [h_pos h_bytes].
  destruct (_ || _); cbn [fst]; [discriminate|].
  destruct (_ <? 0); cbn [fst]; [discriminate|].
  intros H; injection H as <-. reflexivity.
Qed.

(** An array read, of [count] items at [offset], reshaped to [shape]. *)
Lemma array_read_itemsize (file : list byte) (itemsize count offset : Z)
    (shape : list Z) (a : ndarray) :
  (im <- with_open file (np_fromfile itemsize count offset) ;;
   np_reshape im shape)%res = Ok a ->
  nd_itemsize a = itemsize.
Proof.
  destruct (with_open file (np_fromfile itemsize count offset)) as [im|] eqn:Him;
    cbn [rbind]; [|discriminate].
  intros H. apply np_reshape_itemsize in H. apply np_fromfile_itemsize in Him. congruence.
Qed.

Lemma get_frame_np_itemsize (self : LifImage.t) (file : list byte) (z t c m : Z)
    (a : ndarray) :
  LifImage.get_frame_np self file z t c m = Ok a ->
  nd_itemsize a = LifImage.dtype self.
Proof.
  unfold LifImage.get_frame_np.
  do 11 (match goal with
         | |- rbind ?r _ = Ok _ -> _ => destruct r; cbn [rbind]; [|discriminate]
         end).
  apply array_read_itemsize.
Qed.

Lemma _get_item_np_itemsize (self : LifImage.t) (file : list byte) (n : Z)
    (a : ndarray) :
  LifImage._get_item_np self file n = Ok a ->
  nd_itemsize a = LifImage.dtype self.
Proof.
  unfold LifImage._get_item_np. destruct (_ >=? _); [discriminate|].
  apply array_read_itemsize.
Qed.

Lemma get_stack_np_itemsize (self : LifImage.t) (file : list byte) (m : Z)
    (a : ndarray) :
  LifImage.get_stack_np self file m = Ok a ->
  nd_itemsize a = LifImage.dtype self.
Proof.
  unfold LifImage.get_stack_np.
  do 2 (match goal with
        | |- rbind ?r _ = Ok _ -> _ => destruct r; cbn [rbind]; [|discriminate]
        end).
  apply array_read_itemsize.
Qed.

(** Construction looks at the first resolution only. *)
Lemma init_first_resolution (info : data_dict) (offs : Z * Z) (fname : string)
    (nC nZ nT nM nY nX r0 : Z) (rest : list Z) :
  descriptor_shape info nC nZ nT nM nY nX ->
  dd_ch_resolutions info = r0 :: rest ->
  LifImage.__init__ info offs fname
  = (k <- int_truediv r0 8 ;;
     dt <- np_dtype_u k ;;
     Ok {| LifImage.dims := [nC; nZ; nT; nM; nY; nX];
           LifImage.path := dd_path info;
           LifImage.offsets := offs;
           LifImage.info := info;
           LifImage.filename := fname;
           LifImage.name := dd_name info;
           LifImage.channels := dd_channels info;
           LifImage.ch_offsets := dd_ch_offsets info;
           LifImage.nz := nZ;
           LifImage.nt := nT;
           LifImage.scale := dd_scale info;
           LifImage.stride := dd_stride info;
           LifImage.tile_positions := dd_tile_positions info;
           LifImage.dtype := dt |})%res.
Proof.
  intros [Hd _] Hr. unfold LifImage.__init__. rewrite Hr.
  change (py_getitem (r0 :: rest) 0) with (@Ok Z r0).
  rewrite Hd.
  change (py_getitem [nC; nZ; nT; nM; nY; nX] 1) with (Ok nZ).
  change (py_getitem [nC; nZ; nT; nM; nY; nX] 2) with (Ok nT).
  reflexivity.
Qed.

Lemma int_truediv_8_valid (r0 : Z) :
  valid_width (Z.quot r0 8) -> int_truediv r0 8 = Ok (Z.quot r0 8).
Proof.
  intros Hv. unfold int_truediv. change (8 =? 0) with false. cbv iota.
  pose proof float_overflow_bound_large as Hb.
  pose proof (Z.quot_rem' r0 8) as Hqr.
  pose proof (Z.rem_bound_abs r0 8 ltac:(lia)) as Hrem.
  destruct (Z.leb_spec (float_overflow_bound * Z.abs 8) (Z.abs r0)) as [Hle|]; [|reflexivity].
  exfalso. unfold valid_width in Hv. lia.
Qed.

Lemma np_dtype_u_valid (k : Z) : valid_width k -> np_dtype_u k = Ok k.
Proof.
  unfold valid_width, np_dtype_u. intros [H|[H|[H|H]]]; subst k; reflexivity.
Qed.

Lemma np_dtype_u_invalid (k : Z) : ~ valid_width k -> np_dtype_u k = Raise TypeError.
Proof.
  unfold valid_width, np_dtype_u. intros H.
  destruct (Z.eqb_spec k 1); [tauto|]. destruct (Z.eqb_spec k 2); [tauto|].
  destruct (Z.eqb_spec k 4); [tauto|]. destruct (Z.eqb_spec k 8); [tauto|].
  reflexivity.
Qed.

(** An image made by [Image.frombytes("L", ...)] has one byte for each of
    its pixels. *)
Lemma Image_frombytes_L_inv (size : Z * Z) (data : list byte) (im : PIL_Image) :
  Image_frombytes_L size data = Ok im ->
  im_mode im = "L" /\ im_size im = size
  /\ len (im_data im) = fst size * snd size.
Proof.
  destruct size as [w h]. unfold Image_frombytes_L. cbn [fst snd].
  destruct (Z.ltb_spec w 0) as [Hw|Hw]; cbn [orb]; [discriminate|].
  destruct (Z.ltb_spec h 0) as [Hh|Hh]; cbn [orb]; [discriminate|].
  destruct (Z.eqb_spec w 0) as [Ew|Ew]; cbn [orb].
  { intros H; injection H as <-. cbn. subst w. auto. }
  destruct (Z.eqb_spec h 0) as [Eh|Eh]; cbn [orb].
  { intros H; injection H as <-. cbn. subst h. rewrite Z.mul_0_r. auto. }
  destruct (Z.ltb_spec (len data) (w * h)) as [Hd|Hd]; [discriminate|].
  intros H; injection H as <-. cbn [im_mode im_size im_data].
  split; [reflexivity|]. split; [reflexivity|].
  rewrite len_firstn.
  assert (Hwh : 0 <= w * h) by (apply Z.mul_nonneg_nonneg; lia). lia.
Qed.

Lemma _get_item_Ok_inv (self : LifImage.t) (file : list byte) (n : Z)
    (im : PIL_Image) (nC nZ nT nM nY nX : Z) :
  LifImage.dims self = [nC; nZ; nT; nM; nY; nX] ->
  LifImage._get_item self file n = Ok im ->
  im_mode im = "L" /\ im_size im = (nY, nX) /\ len (im_data im) = nY * nX.
Proof.
  intros Hdims. unfold LifImage._get_item. rewrite Hdims.
  change (py_getitem [nC; nZ; nT; nM; nY; nX] 1) with (Ok nZ).
  change (py_getitem [nC; nZ; nT; nM; nY; nX] 2) with (Ok nT).
  change (py_getitem [nC; nZ; nT; nM; nY; nX] 3) with (Ok nM).
  change (py_getitem [nC; nZ; nT; nM; nY; nX] 4) with (Ok nY).
  change (py_getitem [nC; nZ; nT; nM; nY; nX] 5) with (Ok nX).
  cbv beta iota zeta delta [rbind].
  destruct (_ >=? _); [discriminate|].
  unfold with_open, bind, lift.
  match goal with
  | |- context [if ?b then Ok ?x else int_truediv ?p ?q] =>
      destruct (if b then Ok x else int_truediv p q) as [image_len|]
  end; cbn [fst]; [|discriminate].
  destruct (seek _ 0 _) as [[v|] h1]; cbn [fst]; [|discriminate].
  match goal with
  | |- context [(if ?b then ret ?x else read ?k) h1] =>
      destruct ((if b then ret x else read k) h1) as [[data|] h2]
  end; cbn [fst]; [|discriminate].
  intros H. apply Image_frombytes_L_inv in H. exact H.
Qed.

(** What [get_frame] returns is what the item reader of the mode asked
    for returned. *)
Lemma get_frame_Ok_inv (self : LifImage.t) (file : list byte) (z t c m : Z)
    (return_as_np : bool) (fr : frame) :
  LifImage.get_frame self file z t c m return_as_np = Ok fr ->
  exists n,
    if return_as_np
    then exists a, fr = AsArray a /\ LifImage._get_item_np self file n = Ok a
    else exists im, fr = AsImage im /\ LifImage._get_item self file n = Ok im.
Proof.
  unfold LifImage.get_frame.
  destruct (_ >=? _); [discriminate|].
  destruct (_ >=? _); [discriminate|].
  destruct (_ >=? _); [discriminate|].
  destruct (py_getitem (LifImage.dims self) 3) as [d3|]; cbn [rbind]; [|discriminate].
  destruct (_ >=? _); [discriminate|].
  cbv zeta. destruct (_ >? _); [discriminate|].
  intros H. eexists. destruct return_as_np.
  - destruct (LifImage._get_item_np self file _) as [a|] eqn:E; cbn [rbind] in H;
      [|discriminate H].
    injection H as <-. eauto.
  - destruct (LifImage._get_item self file _) as [im|] eqn:E; cbn [rbind] in H;
      [|discriminate H].
    injection H as <-. eauto.
Qed.

(** C10, as the code has it.  Every array read of an image
    ([get_frame_np], [_get_item_np], [get_stack_np], and [get_frame] when
    an array is asked for) decodes elements of one width,
    [int(ch_resolutions[0] / 8)] bytes, whatever the channel asked for and
    whatever resolutions the other channels declare.  The image read
    ([_get_item], and [get_frame] by default) does not use that width: it
    returns a mode-L image, one byte for each of its pixels, whatever
    [ch_resolutions[0]] is. *)
Theorem pixel_width_from_first_channel
    (info : data_dict) (offs : Z * Z) (fname : string) (self : LifImage.t)
    (nC nZ nT nM nY nX r0 : Z) (rest : list Z) :
  descriptor_shape info nC nZ nT nM nY nX ->
  dd_ch_resolutions info = r0 :: rest ->
  LifImage.__init__ info offs fname = Ok self ->
  LifImage.dtype self = Z.quot r0 8
  /\ (forall file z t c m a,
        LifImage.get_frame_np self file z t c m = Ok a -> nd_itemsize a = Z.quot r0 8)
  /\ (forall file n a,
        LifImage._get_item_np self file n = Ok a -> nd_itemsize a = Z.quot r0 8)
  /\ (forall file m a,
        LifImage.get_stack_np self file m = Ok a -> nd_itemsize a = Z.quot r0 8)
  /\ (forall file z t c m fr,
        LifImage.get_frame self file z t c m true = Ok fr ->
        exists a, fr = AsArray a /\ nd_itemsize a = Z.quot r0 8)
  /\ (forall rest' : list Z,
        exists self',
          LifImage.__init__ (set_resolutions info (r0 :: rest')) offs fname = Ok self'
          /\ LifImage.dtype self' = LifImage.dtype self
          /\ forall file z t c m,
               LifImage.get_frame_np self' file z t c m
               = LifImage.get_frame_np self file z t c m)
  /\ (forall file n im,
        LifImage._get_item self file n = Ok im ->
        im_mode im = "L" /\ im_size im = (nY, nX) /\ len (im_data im) = nY * nX)
  /\ (forall file z t c m fr,
        LifImage.get_frame self file z t c m false = Ok fr ->
        exists im, fr = AsImage im /\ im_mode im = "L"
                   /\ im_size im = (nY, nX) /\ len (im_data im) = nY * nX).
Proof.
  intros Hshape Hres Hinit.
  assert (Hdt : LifImage.dtype self = Z.quot r0 8).
  { destruct (init_inv _ _ _ _ _ _ _ _ _ _ Hshape Hinit)
      as (_ & _ & _ & _ & _ & _ & (r & Hr & Hd) & _).
    rewrite Hres in Hr. change (py_getitem (r0 :: rest) 0) with (@Ok Z r0) in Hr.
    injection Hr as <-. exact Hd. }
  assert (Hdims : LifImage.dims self = [nC; nZ; nT; nM; nY; nX])
    by (destruct (init_inv _ _ _ _ _ _ _ _ _ _ Hshape Hinit) as (Hd & _); exact Hd).
  split; [exact Hdt|].
  split; [intros file z t c m a H; rewrite <- Hdt; exact (get_frame_np_itemsize _ _ _ _ _ _ _ H)|].
  split; [intros file n a H; rewrite <- Hdt; exact (_get_item_np_itemsize _ _ _ _ H)|].
  split; [intros file m a H; rewrite <- Hdt; exact (get_stack_np_itemsize _ _ _ _ H)|].
  split.
  { intros file z t c m fr H.
    apply get_frame_Ok_inv in H as (n & a & -> & Ha).
    exists a. split; [reflexivity|]. rewrite <- Hdt.
    exact (_get_item_np_itemsize _ _ _ _ Ha). }
  split.
  { intros rest'.
    rewrite (init_first_resolution info offs fname nC nZ nT nM nY nX r0 rest Hshape Hres)
      in Hinit.
    assert (Hshape' : descriptor_shape (set_resolutions info (r0 :: rest')) nC nZ nT nM nY nX)
      by exact Hshape.
    rewrite (init_first_resolution _ offs fname nC nZ nT nM nY nX r0 rest' Hshape' eq_refl).
    destruct (int_truediv r0 8) as [k|]; cbn [rbind] in *; [|discriminate].
    destruct (np_dtype_u k) as [dt|]; cbn [rbind] in *; [|discriminate].
    injection Hinit as <-.
    eexists. split; [reflexivity|]. split; reflexivity. }
  split.
  { intros file n im H. exact (_get_item_Ok_inv _ _ _ _ _ _ _ _ _ _ Hdims H). }
  intros file z t c m fr H.
  apply get_frame_Ok_inv in H as (n & im & -> & Him).
  exists im. split; [reflexivity|].
  exact (_get_item_Ok_inv _ _ _ _ _ _ _ _ _ _ Hdims Him).
Qed.

(** A first channel of 16 bits: the array read returns 2-byte elements, the
    image read 4 bytes for the 4 pixels of the plane. *)
Lemma pixel_width_from_first_channel_witness :
  let info := set_resolutions (example_info "first" 2) [16; 8] in
  let self := image_of info (37, 8) 2 in
  LifImage.__init__ info (37, 8) "example.lif" = Ok self
  /\ LifImage.dtype self = Z.quot 16 8
  /\ LifImage.get_frame_np self example_truncated_file 0 0 1 0
     = Ok (mkArray 2 [2; 2] [0; 0; 554; 0])
  /\ nd_itemsize (mkArray 2 [2; 2] [0; 0; 554; 0]) = Z.quot 16 8
  /\ LifImage.get_frame self example_truncated_file 0 0 0 0 false
     = Ok (AsImage (mkImage "L" (2, 2) [x01; x02; x03; x04]))
  /\ len (im_data (mkImage "L" (2, 2) [x01; x02; x03; x04])) = 2 * 2.
Proof.
  intros info self.
  assert (Hinit : LifImage.__init__ info (37, 8) "example.lif" = Ok self)
    by (vm_compute; reflexivity).
  assert (Hread : LifImage.get_frame_np self example_truncated_file 0 0 1 0
                  = Ok (mkArray 2 [2; 2] [0; 0; 554; 0]))
    by (vm_compute; reflexivity).
  assert (Himage : LifImage.get_frame self example_truncated_file 0 0 0 0 false
                   = Ok (AsImage (mkImage "L" (2, 2) [x01; x02; x03; x04])))
    by (vm_compute; reflexivity).
  destruct (pixel_width_from_first_channel info (37, 8) "example.lif" self
              2 1 1 1 2 2 16 [8] (conj eq_refl eq_refl) eq_refl Hinit)
    as (Hd & Hnp & _ & _ & _ & _ & _ & Hpil).
  split; [exact Hinit|]. split; [exact Hd|]. split; [exact Hread|].
  split; [exact (Hnp _ _ _ _ _ _ Hread)|]. split; [exact Himage|].
  destruct (Hpil _ _ _ _ _ _ Himage) as (im & E & _ & _ & Hlen).
  injection E as <-. exact Hlen.
Defined.

(** C10 as stated fails: with a first channel of 16 bits
    [int(ch_resolutions[0] / 8)] is 2, and the plane that [get_frame]
    returns by default has 1-byte elements, 4 bytes for its 4 pixels. *)
Lemma image_read_has_one_byte_pixels :
  let info := set_resolutions (example_info "first" 2) [16; 8] in
  let self := image_of info (37, 8) 2 in
  LifImage.__init__ info (37, 8) "example.lif" = Ok self
  /\ exists fr,
       LifImage.get_frame self example_truncated_file 0 0 0 0 false = Ok fr
       /\ frame_elements fr = 2 * 2
       /\ frame_itemsize fr = 1
       /\ frame_itemsize fr <> Z.quot 16 8.
Proof.
  intros info self. split; [vm_compute; reflexivity|].
  exists (AsImage (mkImage "L" (2, 2) [x01; x02; x03; x04])).
  split; [vm_compute; reflexivity|].
  split; [reflexivity|]. split; [reflexivity|]. vm_compute. discriminate.
Qed.

(** ** Construction and the channel resolutions *)

(** C6, as the code has it: construction derives one byte depth, from the
    first channel only, by truncating [resolution / 8].  It succeeds when
    that is 1, 2, 4 or 8 bytes, and fails, in [np.dtype], otherwise; it
    never tests for a multiple of 8. *)
Theorem byte_depth_truncates_first_resolution
    (info : data_dict) (offs : Z * Z) (fname : string)
    (nC nZ nT nM nY nX r0 : Z) (rest : list Z) :
  descriptor_shape info nC nZ nT nM nY nX ->
  dd_ch_resolutions info = r0 :: rest ->
  (valid_width (Z.quot r0 8) ->
   exists self, LifImage.__init__ info offs fname = Ok self
                /\ LifImage.dtype self = Z.quot r0 8)
  /\ (~ valid_width (Z.quot r0 8) ->
      exists e, LifImage.__init__ info offs fname = Raise e
                /\ (e = TypeError \/ e = OverflowError)).
Proof.
  intros Hshape Hres.
  rewrite (init_first_resolution info offs fname nC nZ nT nM nY nX r0 rest Hshape Hres).
  split; intros Hv.
  - rewrite (int_truediv_8_valid r0 Hv). cbn [rbind].
    rewrite (np_dtype_u_valid _ Hv). cbn [rbind].
    eexists. split; reflexivity.
  - unfold int_truediv. change (8 =? 0) with false. cbv iota.
    destruct (_ <=? _); cbn [rbind].
    + exists OverflowError. split; [reflexivity | right; reflexivity].
    + rewrite (np_dtype_u_invalid _ Hv). cbn [rbind].
      exists TypeError. split; [reflexivity | left; reflexivity].
Qed.

Lemma byte_depth_truncates_first_resolution_witness :
  (exists self,
     LifImage.__init__ (set_resolutions (example_info "twelve" 2) [12; 12]) (37, 8)
       "example.lif" = Ok self
     /\ LifImage.dtype self = Z.quot 12 8)
  /\ (exists e,
        LifImage.__init__ (set_resolutions (example_info "twelve" 2) [24; 24]) (37, 8)
          "example.lif" = Raise e
        /\ (e = TypeError \/ e = OverflowError)).
Proof.
  split.
  - apply (byte_depth_truncates_first_resolution
             (set_resolutions (example_info "twelve" 2) [12; 12]) (37, 8) "example.lif"
             2 1 1 1 2 2 12 [12] (conj eq_refl eq_refl) eq_refl).
    unfold valid_width. vm_compute. left. reflexivity.
  - apply (byte_depth_truncates_first_resolution
             (set_resolutions (example_info "twelve" 2) [24; 24]) (37, 8) "example.lif"
             2 1 1 1 2 2 24 [24] (conj eq_refl eq_refl) eq_refl).
    unfold valid_width. vm_compute. intros [H|[H|[H|H]]]; discriminate H.
Defined.

(** C6 as stated fails: a leaf image whose channels declare 12 bits, not
    a multiple of 8, is described and constructed, with 1-byte pixels. *)
Lemma resolution_12_is_accepted :
  image_data_dict example_element_12bit "folder"
  = Ok (set_resolutions (example_info "twelve" 2) [12; 12])
  /\ In 12 (dd_ch_resolutions (set_resolutions (example_info "twelve" 2) [12; 12]))
  /\ 12 mod 8 <> 0
  /\ exists self,
       LifImage.__init__ (set_resolutions (example_info "twelve" 2) [12; 12]) (37, 8)
         "example.lif" = Ok self
       /\ LifImage.dtype self = 1.
Proof.
  split; [vm_compute; reflexivity|].
  split; [left; reflexivity|].
  split; [vm_compute; discriminate|].
  eexists. split; vm_compute; reflexivity.
Qed.

(** C7: a leaf image with exactly one channel is not special-cased:
    [strides = [ch_offsets[1]]] indexes the one-element list out of range
    and the descriptor is not built. *)
Theorem single_channel_image_raises_IndexError
    (item : Element) (path : string) (ch : ChannelDescription) :
  el_channel_list item = [ch] ->
  image_data_dict item path = Raise IndexError.
Proof.
  intros H. unfold image_data_dict. rewrite H. reflexivity.
Qed.

Lemma single_channel_image_raises_IndexError_witness :
  image_data_dict example_element_1channel "folder" = Raise IndexError.
Proof.
  apply (single_channel_image_raises_IndexError example_element_1channel "folder"
           (mkChannel 0 8)).
  reflexivity.
Defined.

(** The error reaches the caller of [_recursive_image_find]. *)
Lemma single_channel_header_is_refused :
  _recursive_image_find
    (mkElement "root" [mkElement "folder" [] [example_element_1channel] [] [] []] [] [] [] [])
    [] ""
  = Raise IndexError.
Proof. vm_compute. reflexivity. Qed.

(** ** Scales *)

Lemma float_of_int_Z2F (n : Z) :
  PrimFloat.is_infinity (Z2F n) = false -> float_of_int n = Ok (Z2F n).
Proof.
  intros H. unfold float_of_int. fold (Z2F n). rewrite H. reflexivity.
Qed.

Lemma float_of_int_million : float_of_int (10 ^ 6) = Ok 1000000%float.
Proof. vm_compute. reflexivity. Qed.

(** C8: for a leaf image the scales are, in order, the constant 1 of the
    channel axis, depth count / (depth length x 10^6), time count / time
    length, the constant 1 of the tile axis, and (count - 1) / (length x
    10^6) for height and for width; counts and lengths are those of the
    dimension descriptions, or the defaults 1 and 1.0. *)
Theorem derived_scales (item : Element) (path : string) :
  scales_computable item ->
  exists d,
    image_data_dict item path = Ok d
    /\ dd_scale d
       = [1;
          Z2F (axis_count item 3) / (axis_length item 3 * 1000000);
          Z2F (axis_count item 4) / axis_length item 4;
          1;
          Z2F (axis_count item 2 - 1) / (axis_length item 2 * 1000000);
          Z2F (axis_count item 1 - 1) / (axis_length item 1 * 1000000)]%float.
Proof.
  intros (Hch & H0 & HZ & HT & HY & HX & DZ & DT & DY & DX).
  unfold image_data_dict.
  destruct (el_channel_list item) as [|c0 [|c1 chs]] eqn:Hlist.
  - cbv in Hch. congruence.
  - cbv in Hch. congruence.
  - change (py_getitem (map ch_BytesInc (c0 :: c1 :: chs)) 1) with (Ok (ch_BytesInc c1)).
    cbv beta iota delta [rbind].
    rewrite (float_of_int_Z2F _ H0).
    rewrite fold_append_dimension.
    cbv beta iota zeta delta [rbind map app].
    match goal with
    | |- context [py_getitem (?a :: ?b :: ?l) 1] =>
        change (py_getitem (a :: b :: l) 1) with (Ok b)
    end.
    match goal with
    | |- context [py_getitem (?a :: ?b :: ?l) 1] =>
        change (py_getitem (a :: b :: l) 1) with (Ok b)
    end.
    cbv beta iota delta [rbind].
    unfold float_mul_int, int_div_float, float_truediv.
    rewrite float_of_int_million. cbv beta iota delta [rbind].
    rewrite (float_of_int_Z2F _ HZ). cbv beta iota delta [rbind]. rewrite DZ.
    match goal with
    | |- context [py_getitem (?a :: ?b :: ?c :: ?l) 2] =>
        change (py_getitem (a :: b :: c :: l) 2) with (Ok c)
    end.
    match goal with
    | |- context [py_getitem (?a :: ?b :: ?c :: ?l) 2] =>
        change (py_getitem (a :: b :: c :: l) 2) with (Ok c)
    end.
    cbv beta iota delta [rbind].
    rewrite (float_of_int_Z2F _ HT). cbv beta iota delta [rbind]. rewrite DT.
    match goal with
    | |- context [py_getitem (?a :: ?b :: ?c :: ?d :: ?e :: ?l) 4] =>
        change (py_getitem (a :: b :: c :: d :: e :: l) 4) with (Ok e)
    end.
    match goal with
    | |- context [py_getitem (?a :: ?b :: ?c :: ?d :: ?e :: ?l) 4] =>
        change (py_getitem (a :: b :: c :: d :: e :: l) 4) with (Ok e)
    end.
    cbv beta iota delta [rbind].
    rewrite (float_of_int_Z2F _ HY). cbv beta iota delta [rbind]. rewrite DY.
    match goal with
    | |- context [py_getitem (?a :: ?b :: ?c :: ?d :: ?e :: ?f :: ?l) 5] =>
        change (py_getitem (a :: b :: c :: d :: e :: f :: l) 5) with (Ok f)
    end.
    match goal with
    | |- context [py_getitem (?a :: ?b :: ?c :: ?d :: ?e :: ?f :: ?l) 5] =>
        change (py_getitem (a :: b :: c :: d :: e :: f :: l) 5) with (Ok f)
    end.
    cbv beta iota delta [rbind].
    rewrite (float_of_int_Z2F _ HX). cbv beta iota delta [rbind]. rewrite DX.
    eexists. split; reflexivity.
Qed.

(** Depth count 10 over a length of 9e-6 gives the scale 10/9. *)
Lemma derived_scales_witness :
  exists d,
    image_data_dict example_element_stack "folder" = Ok d
    /\ nth 1 (dd_scale d) 0%float = (10 / 9)%float
    /\ dd_scale d = [1; 10 / 9; 1; 1; 1 / 250000; 1 / 250000]%float.
Proof.
  destruct (derived_scales example_element_stack "folder") as (d & Hd & Hs).
  - unfold scales_computable.
    split; [vm_compute; discriminate|].
    repeat (split; [vm_compute; reflexivity|]). vm_compute; reflexivity.
  - exists d. split; [exact Hd|]. rewrite Hs.
    split; vm_compute; reflexivity.
Defined.

(** ** The block scan: what each primitive does to the file position *)

Lemma le_to_Z_nonneg (bs : list byte) : 0 <= le_to_Z bs.
Proof.
  induction bs as [|b bs IH]; cbn [le_to_Z]; [lia|].
  pose proof (N2Z.is_nonneg (Byte.to_N b)). lia.
Qed.

Lemma read_spec (n : Z) (h : handle) :
  -1 <= n ->
  exists got, read n h = (Ok got, mkHandle (h_bytes h) (h_pos h + len got)).
Proof.
  intros Hn. unfold read. destruct (Z.ltb_spec n (-1)); [lia|].
  eexists. reflexivity.
Qed.

Lemma read_fixed (n : nat) (h : handle) :
  read (Z.of_nat n) h
  = (Ok (firstn n (skipn (Z.to_nat (h_pos h)) (h_bytes h))),
     mkHandle (h_bytes h)
              (h_pos h + len (firstn n (skipn (Z.to_nat (h_pos h)) (h_bytes h))))).
Proof.
  unfold read. destruct (Z.ltb_spec (Z.of_nat n) (-1)); [lia|].
  destruct (Z.eqb_spec (Z.of_nat n) (-1)); [lia|].
  rewrite Nat2Z.id. reflexivity.
Qed.

Lemma seek_cur_spec (off : Z) (h : handle) (r : result Z) (h' : handle) :
  seek off 1 h = (r, h') ->
  h_bytes h' = h_bytes h
  /\ match r with
     | Ok _ => h_pos h' = h_pos h + off
     | Raise e =>
         h_pos h' = h_pos h
         /\ (e = OSError \/ (e = seek_error /\ ~ - 2 ^ 63 <= off < 2 ^ 63))
     end.
Proof.
  unfold seek.
  destruct (Z.ltb_spec off (- 2 ^ 63)) as [Hlo|Hlo]; cbn [orb].
  - intros H; injection H as <- <-. split; [reflexivity|].
    split; [reflexivity|]. right. split; [reflexivity | lia].
  - destruct (Z.leb_spec (2 ^ 63) off) as [Hhi|Hhi].
    + intros H; injection H as <- <-. split; [reflexivity|].
      split; [reflexivity|]. right. split; [reflexivity | lia].
    + change (1 =? 0) with false. change (1 =? 1) with true. cbv iota.
      destruct (_ <? 0); intros H; injection H as <- <-; cbn; auto.
Qed.

Lemma _check_magic_spec (h : handle) (r : result bool) (h' : handle) :
  _check_magic false h = (r, h') ->
  h_bytes h' = h_bytes h
  /\ match r with
     | Ok _ => h_pos h' = h_pos h + 4
     | Raise e => h_pos h <= h_pos h' /\ e = magic_error (h_pos h')
     end.
Proof.
  unfold _check_magic, bind.
  change (read 4) with (read (Z.of_nat 4)). rewrite (read_fixed 4 h).
  remember (firstn 4 (skipn (Z.to_nat (h_pos h)) (h_bytes h))) as got eqn:Hgot.
  pose proof (len_nonneg got) as H0.
  destruct (bytes_eqb got _) eqn:E.
  - apply bytes_eqb_eq in E. unfold ret. intros H; injection H as <- <-.
    cbn [h_bytes h_pos]. rewrite E. auto.
  - cbn [negb]. unfold tell, raise. cbn [h_pos h_bytes].
    intros H; injection H as <- <-. cbn [h_bytes h_pos].
    split; [reflexivity|]. split; [lia | reflexivity].
Qed.

Lemma _check_mem_spec (h : handle) (r : result bool) (h' : handle) :
  _check_mem false h = (r, h') ->
  h_bytes h' = h_bytes h
  /\ match r with
     | Ok _ => h_pos h' = h_pos h + 1
     | Raise e => h_pos h <= h_pos h' /\ e = mem_error (h_pos h')
     end.
Proof.
  unfold _check_mem, bind.
  change (read 1) with (read (Z.of_nat 1)). rewrite (read_fixed 1 h).
  remember (firstn 1 (skipn (Z.to_nat (h_pos h)) (h_bytes h))) as got eqn:Hgot.
  pose proof (len_nonneg got) as H0.
  destruct (bytes_eqb got _) eqn:E.
  - apply bytes_eqb_eq in E. unfold ret. intros H; injection H as <- <-.
    cbn [h_bytes h_pos]. rewrite E. auto.
  - cbn [negb]. unfold tell, raise. cbn [h_pos h_bytes].
    intros H; injection H as <- <-. cbn [h_bytes h_pos].
    split; [reflexivity|]. split; [lia | reflexivity].
Qed.

(** With [bool_return] the marker check never raises. *)
Lemma _check_mem_bool_spec (h : handle) (r : result bool) (h' : handle) :
  _check_mem true h = (r, h') ->
  h_bytes h' = h_bytes h
  /\ h_pos h <= h_pos h' <= h_pos h + 1
  /\ match r with
     | Ok b => b = true -> h_pos h' = h_pos h + 1
     | Raise _ => False
     end.
Proof.
  unfold _check_mem, bind.
  change (read 1) with (read (Z.of_nat 1)). rewrite (read_fixed 1 h).
  remember (firstn 1 (skipn (Z.to_nat (h_pos h)) (h_bytes h))) as got eqn:Hgot.
  pose proof (len_nonneg got) as H0.
  assert (H1 : len got <= 1) by (subst got; rewrite len_firstn; lia).
  destruct (bytes_eqb got _) eqn:E.
  - apply bytes_eqb_eq in E. unfold ret. intros H; injection H as <- <-.
    cbn [h_bytes h_pos]. rewrite E. cbn. repeat split; lia.
  - cbn [negb]. unfold ret. intros H; injection H as <- <-.
    cbn [h_bytes h_pos]. repeat split; try lia; discriminate.
Qed.

Lemma unpack_read_spec (n : nat) (h : handle) (r : result Z) (h' : handle) :
  (b <- read (Z.of_nat n) ;; lift (struct_unpack n b))%io h = (r, h') ->
  h_bytes h' = h_bytes h
  /\ match r with
     | Ok v => h_pos h' = h_pos h + Z.of_nat n /\ 0 <= v
     | Raise e => h_pos h <= h_pos h' /\ e = StructError
     end.
Proof.
  unfold bind. rewrite (read_fixed n h). unfold lift, struct_unpack.
  remember (firstn n (skipn (Z.to_nat (h_pos h)) (h_bytes h))) as got eqn:Hgot.
  pose proof (len_nonneg got) as H0.
  destruct (Nat.eqb_spec (List.length got) n)
    as [E|E]; intros H; injection H as <- <-; cbn [h_bytes h_pos].
  - split; [reflexivity|]. split; [unfold len; rewrite E; reflexivity|].
    apply le_to_Z_nonneg.
  - split; [reflexivity|]. split; [lia | reflexivity].
Qed.

Lemma _read_int_spec (h : handle) (r : result Z) (h' : handle) :
  _read_int h = (r, h') ->
  h_bytes h' = h_bytes h
  /\ match r with
     | Ok v => h_pos h' = h_pos h + 4 /\ 0 <= v
     | Raise e => h_pos h <= h_pos h' /\ e = StructError
     end.
Proof. apply (unpack_read_spec 4). Qed.

Lemma _read_long_spec (h : handle) (r : result Z) (h' : handle) :
  _read_long h = (r, h') ->
  h_bytes h' = h_bytes h
  /\ match r with
     | Ok v => h_pos h' = h_pos h + 8 /\ 0 <= v
     | Raise e => h_pos h <= h_pos h' /\ e = StructError
     end.
Proof. apply (unpack_read_spec 8). Qed.

Lemma bind_inv {A B} (c : IO A) (k : A -> IO B) (h h' : handle) (r : result B) :
  bind c k h = (r, h') ->
  (exists a h1, c h = (Ok a, h1) /\ k a h1 = (r, h'))
  \/ (exists e, c h = (Raise e, h') /\ r = Raise e).
Proof.
  unfold bind. destruct (c h) as [[a|e] h1].
  - intros H. left. exists a, h1. auto.
  - intros H. injection H as <- <-. right. exists e. auto.
Qed.

(** The length field of a block header, in its 4-byte or its 8-byte
    form, read after the first 4-byte length [v] (position [p0] is where
    that length started). *)
Lemma block_len_spec (v : Z) (is_mem : bool) (h5 : handle) (p0 : Z)
    (r : result Z) (h6 : handle) :
  (if negb is_mem
   then (seek (-5) 1 ;;
         long_len <- _read_long ;;
         _check_mem false ;;
         ret long_len)
   else ret v)%io h5 = (r, h6) ->
  0 <= v ->
  p0 + 4 <= h_pos h5 <= p0 + 5 ->
  (is_mem = true -> h_pos h5 = p0 + 5) ->
  h_bytes h6 = h_bytes h5
  /\ match r with
     | Ok block_len => p0 + 5 <= h_pos h6 /\ 0 <= block_len
     | Raise e =>
         p0 - 1 <= h_pos h6
         /\ (e = mem_error (h_pos h6) \/ e = StructError \/ e = OSError)
     end.
Proof.
  intros H Hv Hp Hq. destruct is_mem; cbn [negb] in H.
  - unfold ret in H. injection H as <- <-. specialize (Hq eq_refl).
    split; [reflexivity|]. split; lia.
  - apply bind_inv in H as [(a1 & h1 & E1 & H) | (e & E1 & ->)];
      apply seek_cur_spec in E1 as [B1 P1].
    2: { split; [exact B1|]. destruct P1 as [P1 [->| [_ Hbad]]]; [|lia].
         split; auto; lia. }
    apply bind_inv in H as [(a2 & h2 & E2 & H) | (e & E2 & ->)];
      apply _read_long_spec in E2 as [B2 P2].
    2: { split; [congruence|]. destruct P2 as [P2 ->]. split; auto; lia. }
    destruct P2 as [P2 V2].
    apply bind_inv in H as [(a3 & h3 & E3 & H) | (e & E3 & ->)];
      apply _check_mem_spec in E3 as [B3 P3].
    2: { split; [congruence|]. destruct P3 as [P3 ->]. split; auto; lia. }
    unfold ret in H. injection H as <- <-.
    split; [congruence|]. split; lia.
Qed.

(** The body of the [try:] up to its last statement never moves the file
    backwards.  When it completes it has consumed a block header and
    appended at most one block, of positive length; when it raises, the
    exception is a failed assertion, a short read or a failed seek, so a
    [ValueError] raised there is a failed assertion. *)
Lemma scan_header_spec (offs : list (Z * Z)) (h : handle)
    (r : result (list (Z * Z) * Z)) (h' : handle) :
  LifFile.scan_header offs h = (r, h') ->
  h_bytes h' = h_bytes h
  /\ match r with
     | Ok (offs', skip) =>
         h_pos h + 18 <= h_pos h' /\ 0 <= skip
         /\ (offs' = offs \/ exists pos l, 0 < l /\ offs' = offs ++ [(pos, l)])
     | Raise e =>
         h_pos h <= h_pos h'
         /\ (e = magic_error (h_pos h') \/ e = mem_error (h_pos h')
             \/ e = StructError \/ e = OSError)
     end.
Proof.
  intros H. unfold LifFile.scan_header in H.
  apply bind_inv in H as [(a1 & h1 & E1 & H) | (e & E1 & ->)];
    apply _check_magic_spec in E1 as [B1 P1].
  2: { split; [exact B1|]. destruct P1 as [P1 ->]. auto. }
  apply bind_inv in H as [(a2 & h2 & E2 & H) | (e & E2 & ->)];
    apply seek_cur_spec in E2 as [B2 P2].
  2: { split; [congruence|]. destruct P2 as [P2 [->| [_ Hbad]]]; [|lia].
       split; auto 6; lia. }
  apply bind_inv in H as [(a3 & h3 & E3 & H) | (e & E3 & ->)];
    apply _check_mem_spec in E3 as [B3 P3].
  2: { split; [congruence|]. destruct P3 as [P3 ->]. split; auto; lia. }
  apply bind_inv in H as [(v4 & h4 & E4 & H) | (e & E4 & ->)];
    apply _read_int_spec in E4 as [B4 P4].
  2: { split; [congruence|]. destruct P4 as [P4 ->]. split; auto 6; lia. }
  destruct P4 as [P4 V4].
  apply bind_inv in H as [(b5 & h5 & E5 & H) | (e & E5 & ->)];
    apply _check_mem_bool_spec in E5 as (B5 & P5 & Q5).
  2: { contradiction. }
  apply bind_inv in H as [(block_len & h6 & E6 & H) | (e & E6 & ->)];
    apply (block_len_spec v4 b5 h5 (h_pos h3)) in E6 as [B6 P6];
    try lia; try (intros Hb; specialize (Q5 Hb); lia).
  2: { split; [congruence|]. destruct P6 as [P6 [->|[->| ->]]]; split; auto 6; lia. }
  destruct P6 as [P6 V6].
  apply bind_inv in H as [(v7 & h7 & E7 & H) | (e & E7 & ->)];
    apply _read_int_spec in E7 as [B7 P7].
  2: { split; [congruence|]. destruct P7 as [P7 ->]. split; auto 6; lia. }
  destruct P7 as [P7 V7].
  apply bind_inv in H as [(here & h8 & E8 & H) | (e & E8 & ->)];
    unfold tell in E8; [injection E8 as <- <- | discriminate E8].
  unfold ret in H. injection H as <- <-.
  split; [congruence|]. split; [lia|]. split; [lia|].
  destruct (Z.gtb_spec block_len 0) as [Hl|Hl]; [right | left; reflexivity].
  eexists _, block_len. split; [lia | reflexivity].
Qed.

(** The whole body: its last statement adds the seek's own failures. *)
Lemma scan_body_spec (offs : list (Z * Z)) (h : handle)
    (r : result (list (Z * Z))) (h' : handle) :
  LifFile.scan_body offs h = (r, h') ->
  h_bytes h' = h_bytes h
  /\ match r with
     | Ok _ => h_pos h + 18 <= h_pos h'
     | Raise e =>
         h_pos h <= h_pos h'
         /\ (e = magic_error (h_pos h') \/ e = mem_error (h_pos h')
             \/ e = StructError \/ e = OSError \/ e = seek_error)
     end.
Proof.
  intros H. unfold LifFile.scan_body in H.
  apply bind_inv in H as [([offs' skip] & h1 & E1 & H) | (e & E1 & ->)];
    apply scan_header_spec in E1 as [B1 P1].
  2: { split; [exact B1|]. destruct P1 as [P1 [->|[->|[->| ->]]]]; auto 8. }
  destruct P1 as (P1 & Hskip & _). cbn [fst snd] in H.
  apply bind_inv in H as [(v9 & h9 & E9 & H) | (e & E9 & ->)];
    apply seek_cur_spec in E9 as [B9 P9].
  2: { split; [congruence|]. destruct P9 as [P9 [->| [-> _]]]; split; auto 8; lia. }
  unfold ret in H. injection H as <- <-.
  split; [congruence | lia].
Qed.



(** ** Truncation recovery *)

(** [_check_truncated], run [4] or more bytes into the file: it looks at
    the 100 bytes that start 4 bytes back and leaves the file there. *)
Lemma _check_truncated_spec (h : handle) :
  4 <= h_pos h ->
  List.length (window h 4 100) = 100%nat ->
  _check_truncated h
  = (Ok (bytes_eqb (window h 4 100) (repeat x00 100)),
     mkHandle (h_bytes h) (h_pos h - 4)).
Proof.
  intros Hp Hw. unfold _check_truncated, bind, seek.
  change ((-4 <? - 2 ^ 63) || (2 ^ 63 <=? -4)) with false.
  change ((-100 <? - 2 ^ 63) || (2 ^ 63 <=? -100)) with false.
  change (1 =? 0) with false. change (1 =? 1) with true. cbv iota.
  destruct (Z.ltb_spec (h_pos h + -4) 0); [lia|].
  change (read 100) with (read (Z.of_nat 100)). rewrite read_fixed.
  cbn [h_pos h_bytes].
  replace (h_pos h + -4) with (h_pos h - 4) by lia.
  fold (window h 4 100).
  remember (window h 4 100) as w eqn:Ew.
  assert (Hlen : len w = 100) by (unfold len; rewrite Hw; reflexivity).
  rewrite Hlen.
  destruct (bytes_eqb w (repeat x00 100)); cbn [h_pos h_bytes];
    (destruct (Z.ltb_spec (h_pos h - 4 + 100 + -100) 0); [lia|]);
    replace (h_pos h - 4 + 100 + -100) with (h_pos h - 4) by lia;
    reflexivity.
Qed.

(** Fewer than 100 bytes left to inspect: never a truncation. *)
Lemma _check_truncated_short (h : handle) (r : result bool) (h' : handle) :
  4 <= h_pos h ->
  (List.length (window h 4 100) < 100)%nat ->
  _check_truncated h = (r, h') ->
  r = Ok false \/ r = Raise OSError.
Proof.
  intros Hp Hw. unfold _check_truncated, bind, seek.
  change ((-4 <? - 2 ^ 63) || (2 ^ 63 <=? -4)) with false.
  change ((-100 <? - 2 ^ 63) || (2 ^ 63 <=? -100)) with false.
  change (1 =? 0) with false. change (1 =? 1) with true. cbv iota.
  destruct (Z.ltb_spec (h_pos h + -4) 0); [lia|].
  change (read 100) with (read (Z.of_nat 100)). rewrite read_fixed.
  cbn [h_pos h_bytes].
  replace (h_pos h + -4) with (h_pos h - 4) by lia.
  fold (window h 4 100).
  remember (window h 4 100) as w eqn:Ew.
  destruct (bytes_eqb w (repeat x00 100)) eqn:E.
  - apply bytes_eqb_eq in E. rewrite E, repeat_length in Hw. lia.
  - cbn [h_pos h_bytes].
    destruct (_ <? 0); unfold ret; intros Hr; injection Hr as <- <-; auto.
Qed.

(** [_check_truncated] in every case, [4] or more bytes into the file:
    the rewinding seek goes back 100 bytes however many were read, and
    fails when that is before the start of the file. *)
Lemma _check_truncated_eval (h : handle) :
  4 <= h_pos h ->
  _check_truncated h
  = if h_pos h - 4 + len (window h 4 100) - 100 <? 0
    then (Raise OSError, mkHandle (h_bytes h) (h_pos h - 4 + len (window h 4 100)))
    else (Ok (bytes_eqb (window h 4 100) (repeat x00 100)),
          mkHandle (h_bytes h) (h_pos h - 4 + len (window h 4 100) - 100)).
Proof.
  intros Hp. unfold _check_truncated, bind, seek.
  change ((-4 <? - 2 ^ 63) || (2 ^ 63 <=? -4)) with false.
  change ((-100 <? - 2 ^ 63) || (2 ^ 63 <=? -100)) with false.
  change (1 =? 0) with false. change (1 =? 1) with true. cbv iota.
  destruct (Z.ltb_spec (h_pos h + -4) 0); [lia|].
  change (read 100) with (read (Z.of_nat 100)). rewrite read_fixed.
  cbn [h_pos h_bytes].
  replace (h_pos h + -4) with (h_pos h - 4) by lia.
  fold (window h 4 100).
  remember (window h 4 100) as w eqn:Ew.
  destruct (bytes_eqb w (repeat x00 100)) eqn:E; cbn [h_pos h_bytes];
    replace (h_pos h - 4 + len w + -100) with (h_pos h - 4 + len w - 100) by lia.
  - apply bytes_eqb_eq in E.
    assert (Hlen : len w = 100) by (rewrite E; unfold len; rewrite repeat_length; reflexivity).
    rewrite Hlen.
    destruct (Z.ltb_spec (h_pos h - 4 + 100 - 100) 0); [lia|]. reflexivity.
  - destruct (_ <? 0); reflexivity.
Qed.

(** The [except ValueError:] clause, run where the body left the file. *)
Lemma scan_handler_eval (st : LifFile.scan_state) (e : exn) (h : handle) :
  4 <= h_pos h ->
  LifFile.scan_handler st e h
  = if h_pos h - 4 + len (window h 4 100) - 100 <? 0
    then (Raise OSError, mkHandle (h_bytes h) (h_pos h - 4 + len (window h 4 100)))
    else if bytes_eqb (window h 4 100) (repeat x00 100)
         then (Ok (LifFile.mkScan (LifFile.sc_offsets st) (Some (h_pos h - 4))
                     (LifFile.sc_warnings st ++ [LifFile.truncation_warning])),
               at_end h)
         else (Raise e,
               mkHandle (h_bytes h) (h_pos h - 4 + len (window h 4 100) - 100)).
Proof.
  intros Hp. unfold LifFile.scan_handler, bind.
  rewrite (_check_truncated_eval h Hp).
  destruct (_ <? 0); [reflexivity|].
  destruct (bytes_eqb (window h 4 100) (repeat x00 100)) eqn:E; [|reflexivity].
  apply bytes_eqb_eq in E.
  assert (Hlen : len (window h 4 100) = 100)
    by (rewrite E; unfold len; rewrite repeat_length; reflexivity).
  rewrite Hlen.
  unfold tell, seek, ret. cbn [h_pos h_bytes].
  change ((0 <? - 2 ^ 63) || (2 ^ 63 <=? 0)) with false.
  change (2 =? 0) with false. change (2 =? 1) with false. cbv iota.
  rewrite Z.add_0_r.
  destruct (Z.ltb_spec (len (h_bytes h)) 0) as [Hneg|_];
    [pose proof (len_nonneg (h_bytes h)); lia|].
  replace (h_pos h - 4 + 100 - 100) with (h_pos h - 4) by lia.
  reflexivity.
Qed.




(** ** The scan loop ends *)

Lemma window_length_le (h : handle) (back : Z) (n : nat) :
  (List.length (window h back n) <= n)%nat.
Proof. unfold window. rewrite length_firstn. lia. Qed.

(** What the handler leaves: the truncation recorded, where 100 zero
    bytes start, and the file at its end; or an exception of Python. *)
Lemma scan_handler_spec (st : LifFile.scan_state) (e : exn) (h : handle)
    (r : result LifFile.scan_state) (h' : handle) :
  4 <= h_pos h ->
  LifFile.scan_handler st e h = (r, h') ->
  h_bytes h' = h_bytes h
  /\ match r with
     | Ok st' =>
         h_pos h' = len (h_bytes h)
         /\ st' = LifFile.mkScan (LifFile.sc_offsets st) (Some (h_pos h - 4))
                    (LifFile.sc_warnings st ++ [LifFile.truncation_warning])
         /\ window h 4 100 = repeat x00 100
     | Raise e' => e' = e \/ e' = OSError
     end.
Proof.
  intros Hp. rewrite (scan_handler_eval st e h Hp).
  destruct (_ <? 0); [intros H; injection H as <- <-; auto|].
  destruct (bytes_eqb _ _) eqn:E; intros H; injection H as <- <-; auto.
  apply bytes_eqb_eq in E. cbn [at_end h_bytes h_pos]. auto.
Qed.

(** How a round of the loop can end: the body completed; or the handler
    recorded a truncation, on the list of before the round or on that
    list with the block the body had appended before its seek failed; or
    an exception of Python was raised.  The file's bytes stay as they
    are. *)
Lemma scan_iteration_cases (st : LifFile.scan_state) (h : handle)
    (r : result LifFile.scan_state) (h' : handle) :
  4 <= h_pos h ->
  LifFile.scan_iteration st h = (r, h') ->
  h_bytes h' = h_bytes h
  /\ match r with
     | Ok st1 =>
         (exists offs',
            LifFile.scan_body (LifFile.sc_offsets st) h = (Ok offs', h')
            /\ st1 = LifFile.mkScan offs' (LifFile.sc_truncated st)
                       (LifFile.sc_warnings st))
         \/ (exists offs' tb,
               (offs' = LifFile.sc_offsets st
                \/ exists pos l, 0 < l /\ offs' = LifFile.sc_offsets st ++ [(pos, l)])
               /\ st1 = LifFile.mkScan offs' (Some tb)
                          (LifFile.sc_warnings st ++ [LifFile.truncation_warning])
               /\ h_pos h' = len (h_bytes h)
               /\ 0 <= tb
               /\ firstn 100 (skipn (Z.to_nat tb) (h_bytes h)) = repeat x00 100)
     | Raise e => e <> FuelExhausted
     end.
Proof.
  intros Hp. unfold LifFile.scan_iteration.
  destruct (LifFile.scan_header (LifFile.sc_offsets st) h) as [[[offs' skip]|e] h1] eqn:Hhead;
    destruct (scan_header_spec _ _ _ _ Hhead) as (Hbytes & Hspec).
  - destruct Hspec as (Hadv & Hskip & Hoffs).
    unfold try_except_ValueError, bind.
    destruct (seek skip 1 h1) as [[v|e] h2] eqn:Hseek;
      pose proof (seek_cur_spec _ _ _ _ Hseek) as (B2 & P2).
    + unfold ret. intros H; injection H as <- <-.
      split; [congruence|]. left. exists offs'. split; [|reflexivity].
      unfold LifFile.scan_body, bind. rewrite Hhead. cbn [fst snd].
      rewrite Hseek. reflexivity.
    + destruct P2 as [P2 [-> | [-> _]]].
      * intros H; injection H as <- <-. split; [congruence | discriminate].
      * unfold seek_error.
        intros H. apply scan_handler_spec in H as [B3 H]; [|lia].
        split; [congruence|].
        destruct r as [st1|e1].
        -- destruct H as (Hend & -> & Hzero).
           cbn [LifFile.sc_offsets LifFile.sc_warnings LifFile.sc_truncated].
           right. exists offs', (h_pos h2 - 4).
           split; [exact Hoffs|]. split; [reflexivity|].
           split; [congruence|]. split; [lia|].
           unfold window in Hzero. rewrite B2, Hbytes in Hzero. exact Hzero.
        -- destruct H as [-> | ->]; discriminate.
  - destruct Hspec as (Hpos & Hexn).
    assert (Hne : e <> FuelExhausted).
    { destruct Hexn as [E|[E|[E|E]]]; rewrite E; discriminate. }
    destruct e as [msg| | | | | | |];
      try (intros H; injection H as <- <-; split; [exact Hbytes | exact Hne]).
    intros H. apply scan_handler_spec in H as [B3 H]; [|lia].
    split; [congruence|].
    destruct r as [st1|e1].
    + destruct H as (Hend & -> & Hzero).
      right. exists (LifFile.sc_offsets st), (h_pos h1 - 4).
      split; [left; reflexivity|]. split; [reflexivity|].
      split; [congruence|]. split; [lia|].
      unfold window in Hzero. rewrite Hbytes in Hzero. exact Hzero.
    + destruct H as [-> | ->]; discriminate.
Qed.

(** A round of the loop either completes and moves the file forward (or
    to its end, on truncation), or raises a Python exception. *)
Lemma scan_iteration_spec (st : LifFile.scan_state) (h : handle)
    (r : result LifFile.scan_state) (h' : handle) :
  4 <= h_pos h ->
  LifFile.scan_iteration st h = (r, h') ->
  match r with
  | Ok _ => h_bytes h' = h_bytes h
            /\ (h_pos h + 18 <= h_pos h' \/ h_pos h' = len (h_bytes h))
  | Raise e => e <> FuelExhausted
  end.
Proof.
  intros Hp H. pose proof (scan_iteration_cases st h r h' Hp H) as (Hbytes & Hc).
  destruct r as [st1|e]; [|exact Hc].
  destruct Hc as [(offs' & Hbody & _) | (offs' & tb & _ & _ & Hend & _)].
  - split; [exact Hbytes|]. left.
    destruct (scan_body_spec _ _ _ _ Hbody) as (_ & Hadv). exact Hadv.
  - split; [exact Hbytes | right; exact Hend].
Qed.

(** With as many rounds as the file has bytes, the bound of [scan_loop]
    is never what stops it. *)
Lemma scan_loop_total (fuel : nat) :
  forall (st : LifFile.scan_state) (h : handle)
         (r : result LifFile.scan_state) (h' : handle),
    4 <= h_pos h ->
    len (h_bytes h) - h_pos h <= Z.of_nat fuel ->
    LifFile.scan_loop (len (h_bytes h)) fuel st h = (r, h') ->
    r <> Raise FuelExhausted.
Proof.
  induction fuel as [|fuel IH]; intros st h r h' Hp Hfuel H.
  - cbn [LifFile.scan_loop] in H.
    destruct (Z.ltb_spec (h_pos h) (len (h_bytes h))); [lia|].
    injection H as <- <-. discriminate.
  - cbn [LifFile.scan_loop] in H.
    destruct (Z.ltb_spec (h_pos h) (len (h_bytes h))) as [Hlt|Hge].
    + apply bind_inv in H as [(st1 & h1 & E1 & H) | (e & E1 & ->)];
        apply scan_iteration_spec in E1; try exact Hp.
      * destruct E1 as (Hbytes & Hprog). rewrite <- Hbytes in H.
        apply IH in H; [exact H | lia | rewrite Hbytes; lia].
      * congruence.
    + injection H as <- <-. discriminate.
Qed.

(** ** Opening a file: blocks against descriptors *)

Lemma reconcile_not_truncated (image_list : list data_dict) (st : LifFile.scan_state) :
  LifFile.sc_truncated st = None ->
  LifFile.reconcile image_list st
  = if len image_list =? len (LifFile.sc_offsets st)
    then Ok (LifFile.sc_offsets st)
    else Raise consistency_error.
Proof.
  intros Hn. unfold LifFile.reconcile. rewrite Hn.
  destruct (_ =? _); reflexivity.
Qed.

Lemma reconcile_truncated (image_list : list data_dict) (st : LifFile.scan_state)
    (truncation_begin : Z) :
  LifFile.sc_truncated st = Some truncation_begin ->
  LifFile.reconcile image_list st
  = Ok (LifFile.sc_offsets st
        ++ repeat (truncation_begin, 0)
             (Z.to_nat (len image_list - len (LifFile.sc_offsets st)))).
Proof.
  intros Hs. unfold LifFile.reconcile. rewrite Hs.
  rewrite andb_false_r. reflexivity.
Qed.

(** A successful open went through a successful scan and a successful
    walk of the header. *)
Lemma open_stages (xml_parse : list byte -> result Element) (filename : string)
    (file : list byte) (lf : LifFile.t) (warnings : list string) :
  LifFile.__init__ xml_parse filename file = Ok (lf, warnings) ->
  exists xml_header st,
    LifFile.scan_file xml_parse file = Ok (xml_header, LifFile.xml_root lf, st)
    /\ _recursive_image_find (LifFile.xml_root lf) [] "" = Ok (LifFile.image_list lf)
    /\ LifFile.reconcile (LifFile.image_list lf) st = Ok (LifFile.offsets lf)
    /\ warnings = LifFile.sc_warnings st.
Proof.
  unfold LifFile.__init__.
  destruct (LifFile.scan_file xml_parse file) as [[[xml_header xml_root] st]|];
    cbn [rbind]; [|discriminate].
  destruct (_recursive_image_find xml_root [] "") as [image_list|] eqn:Hfind;
    cbn [rbind]; [|discriminate].
  destruct (LifFile.reconcile image_list st) as [offsets|] eqn:Hrec;
    cbn [rbind]; [|discriminate].
  intros H; injection H as <- <-. cbn.
  exists xml_header, st. auto.
Qed.

(** C4, as the code has it: once the scan and the walk of the header have
    succeeded, a file that is not truncated opens exactly when the block
    count equals the descriptor count, and fails with the consistency
    [ValueError] otherwise; a truncated file always opens, with
    [(truncation_begin, 0)] appended until the block count reaches the
    descriptor count, and nothing appended when the scan already found as
    many blocks or more, so that the block count is the larger of the
    two. *)
Theorem open_block_count
    (xml_parse : list byte -> result Element) (filename : string)
    (file xml_header : list byte) (xml_root : Element)
    (st : LifFile.scan_state) (image_list : list data_dict) :
  LifFile.scan_file xml_parse file = Ok (xml_header, xml_root, st) ->
  _recursive_image_find xml_root [] "" = Ok image_list ->
  match LifFile.sc_truncated st with
  | None =>
      (len image_list = len (LifFile.sc_offsets st) ->
       exists lf,
         LifFile.__init__ xml_parse filename file = Ok (lf, LifFile.sc_warnings st)
         /\ LifFile.image_list lf = image_list
         /\ LifFile.offsets lf = LifFile.sc_offsets st
         /\ len (LifFile.offsets lf) = len (LifFile.image_list lf))
      /\ (len image_list <> len (LifFile.sc_offsets st) ->
          LifFile.__init__ xml_parse filename file = Raise consistency_error)
  | Some truncation_begin =>
      exists lf,
        LifFile.__init__ xml_parse filename file = Ok (lf, LifFile.sc_warnings st)
        /\ LifFile.image_list lf = image_list
        /\ LifFile.offsets lf
           = LifFile.sc_offsets st
             ++ repeat (truncation_begin, 0)
                  (Z.to_nat (len image_list - len (LifFile.sc_offsets st)))
        /\ len (LifFile.offsets lf)
           = Z.max (len image_list) (len (LifFile.sc_offsets st))
  end.
Proof.
  intros Hscan Hfind. unfold LifFile.__init__. rewrite Hscan. cbn [rbind].
  rewrite Hfind. cbn [rbind].
  destruct (LifFile.sc_truncated st) as [truncation_begin|] eqn:Htr.
  - rewrite (reconcile_truncated image_list st truncation_begin Htr). cbn [rbind].
    eexists. split; [reflexivity|]. cbn [LifFile.image_list LifFile.offsets].
    split; [reflexivity|]. split; [reflexivity|].
    rewrite len_app, len_repeat.
    pose proof (len_nonneg (LifFile.sc_offsets st)). lia.
  - rewrite (reconcile_not_truncated image_list st Htr). split.
    + intros Heq. apply Z.eqb_eq in Heq. rewrite Heq. cbn [rbind].
      eexists. split; [reflexivity|]. cbn [LifFile.image_list LifFile.offsets].
      apply Z.eqb_eq in Heq. auto.
    + intros Hne. apply Z.eqb_neq in Hne. rewrite Hne. reflexivity.
Qed.

Lemma open_block_count_witness :
  exists lf,
    LifFile.__init__ (fun _ => Ok example_root) "example.lif" example_truncated_file
    = Ok (lf, [LifFile.truncation_warning])
    /\ LifFile.offsets lf = [(37, 8)] ++ repeat (45, 0) (Z.to_nat (2 - 1))
    /\ len (LifFile.offsets lf) = Z.max 2 1.
Proof.
  pose proof (open_block_count (fun _ => Ok example_root) "example.lif"
                example_truncated_file [x3c; x00; x3e; x00] example_root
                (LifFile.mkScan [(37, 8)] (Some 45) [LifFile.truncation_warning])
                [example_info "first" 2; example_info "second" 8]) as H.
  cbn [LifFile.sc_truncated LifFile.sc_offsets LifFile.sc_warnings] in H.
  destruct H as (lf & Hopen & _ & Hoffs & Hlen).
  - vm_compute. reflexivity.
  - vm_compute. reflexivity.
  - exists lf. split; [exact Hopen|]. split; [exact Hoffs | exact Hlen].
Defined.

(** C4 as stated fails: a truncated file in which the scan found two
    blocks opens against a header that describes one image, with a
    warning and no error, and keeps two blocks for one descriptor. *)
Lemma truncated_open_keeps_extra_blocks :
  exists lf,
    LifFile.__init__ (fun _ => Ok example_root_one) "example.lif" example_two_block_file
    = Ok (lf, [LifFile.truncation_warning])
    /\ len (LifFile.offsets lf) = 2
    /\ len (LifFile.image_list lf) = 1
    /\ len (LifFile.offsets lf) <> len (LifFile.image_list lf).
Proof.
  eexists. split; [vm_compute; reflexivity|].
  split; [vm_compute; reflexivity|].
  split; [vm_compute; reflexivity|].
  vm_compute. discriminate.
Qed.

(** * Further properties of the code *)

(** ** Addressing of planes *)

Lemma radix_unique (b q r q' r' : Z) :
  0 <= r < b -> 0 <= r' < b -> q * b + r = q' * b + r' -> q = q' /\ r = r'.
Proof.
  intros Hr Hr' H.
  assert (q = q') by nia. subst q'. split; [reflexivity | lia].
Qed.

(** X1: within the bounds of a descriptor, [get_frame] addresses the
    planes one to one: two coordinates that give the same plane index
    are the same coordinate, and every index lies in
    [0, nC*nZ*nT*nM). *)
Theorem item_requested_injective (nC nZ nT nM z t c m z' t' c' m' : Z) :
  0 <= z < nZ -> 0 <= t < nT -> 0 <= c < nC -> 0 <= m < nM ->
  0 <= z' < nZ -> 0 <= t' < nT -> 0 <= c' < nC -> 0 <= m' < nM ->
  0 <= item_requested nC nZ nT z t c m < nC * nZ * nT * nM
  /\ (item_requested nC nZ nT z t c m = item_requested nC nZ nT z' t' c' m' ->
      z = z' /\ t = t' /\ c = c' /\ m = m').
Proof.
  intros Hz Ht Hc Hm Hz' Ht' Hc' Hm'. split.
  - split; [apply item_requested_nonneg | apply item_requested_lt]; lia.
  - unfold item_requested. intros H.
    assert (H1 : ((m * nT + t) * nC + c) * nZ + z
                 = ((m' * nT + t') * nC + c') * nZ + z') by lia.
    apply radix_unique in H1 as [H2 Hzz]; [|lia|lia].
    apply radix_unique in H2 as [H3 Hcc]; [|lia|lia].
    apply radix_unique in H3 as [Hmm Htt]; [|lia|lia].
    auto.
Qed.

Lemma item_requested_injective_witness :
  0 <= item_requested 2 3 4 2 3 1 4 < 2 * 3 * 4 * 5
  /\ (item_requested 2 3 4 2 3 1 4 = item_requested 2 3 4 2 3 1 4 ->
      2 = 2 /\ 3 = 3 /\ 1 = 1 /\ 4 = 4).
Proof.
  apply (item_requested_injective 2 3 4 5 2 3 1 4 2 3 1 4); lia.
Defined.

(** X2: [get_frame_tmp] makes the checks of [get_frame]; past them it
    prints the index it computed, with the channel running fastest, and
    reads that item.  It therefore returns the plane [get_frame] returns
    when the image has one channel or one depth position. *)
Theorem get_frame_tmp_order
    (info : data_dict) (offs : Z * Z) (fname : string) (self : LifImage.t)
    (nC nZ nT nM nY nX : Z) (file : list byte) (z t c m : Z)
    (return_as_np : bool) :
  descriptor_shape info nC nZ nT nM nY nX ->
  LifImage.__init__ info offs fname = Ok self ->
  0 <= z < nZ -> 0 <= t < nT -> 0 <= c < nC -> 0 <= m < nM ->
  LifImage.get_frame_tmp self file z t c m return_as_np
  = ([str (item_requested_tmp nC nZ nT z t c m)],
     if return_as_np
     then rmap AsArray (LifImage._get_item_np self file (item_requested_tmp nC nZ nT z t c m))
     else rmap AsImage (LifImage._get_item self file (item_requested_tmp nC nZ nT z t c m)))
  /\ (nC = 1 \/ nZ = 1 ->
      snd (LifImage.get_frame_tmp self file z t c m return_as_np)
      = LifImage.get_frame self file z t c m return_as_np).
Proof.
  intros Hshape Hinit Hz Ht Hc Hm.
  assert (Htmp : LifImage.get_frame_tmp self file z t c m return_as_np
    = ([str (item_requested_tmp nC nZ nT z t c m)],
       if return_as_np
       then rmap AsArray (LifImage._get_item_np self file (item_requested_tmp nC nZ nT z t c m))
       else rmap AsImage (LifImage._get_item self file (item_requested_tmp nC nZ nT z t c m)))).
  { destruct (init_inv _ _ _ _ _ _ _ _ _ _ Hshape Hinit)
      as (Hdims & Hch & Hnz & Hnt & _).
    unfold LifImage.get_frame_tmp. rewrite Hdims, Hch, Hnz, Hnt.
    rewrite !Z.geb_leb.
    destruct (Z.leb_spec nZ z); [lia|].
    destruct (Z.leb_spec nT t); [lia|].
    destruct (Z.leb_spec nC c); [lia|].
    change (py_getitem [nC; nZ; nT; nM; nY; nX] 3) with (Ok nM).
    cbv beta iota. rewrite Z.geb_leb.
    destruct (Z.leb_spec nM m); [lia|].
    cbv zeta. rewrite Z.gtb_ltb.
    fold (item_requested_tmp nC nZ nT z t c m).
    assert (Hitem : item_requested_tmp nC nZ nT z t c m < nC * nZ * nT * nM).
    { unfold item_requested_tmp.
      assert (HCZ : 0 <= nC * nZ) by (apply Z.mul_nonneg_nonneg; lia).
      assert (HCZT : 0 <= nC * nZ * nT) by (apply Z.mul_nonneg_nonneg; lia).
      assert (H5 : nC * nZ * nT * m <= nC * nZ * nT * (nM - 1))
        by (apply Z.mul_le_mono_nonneg_l; lia).
      assert (H6 : nC * nZ * t <= nC * nZ * (nT - 1))
        by (apply Z.mul_le_mono_nonneg_l; lia).
      assert (H7 : nC * z <= nC * (nZ - 1))
        by (apply Z.mul_le_mono_nonneg_l; lia).
      lia. }
    destruct (Z.ltb_spec (nC * nZ * nT * nM) (item_requested_tmp nC nZ nT z t c m)); [lia|].
    destruct return_as_np; unfold rmap;
      [destruct (LifImage._get_item_np _ _ _) | destruct (LifImage._get_item _ _ _)];
      reflexivity. }
  split; [exact Htmp|].
  intros Hone. rewrite Htmp. cbn [snd].
  rewrite (get_frame_delegates info offs fname self nC nZ nT nM nY nX Hshape Hinit)
    by lia.
  assert (Heq : item_requested_tmp nC nZ nT z t c m = item_requested nC nZ nT z t c m).
  { unfold item_requested_tmp, item_requested.
    destruct Hone as [-> | ->].
    - assert (c = 0) by lia. subst c. lia.
    - assert (z = 0) by lia. subst z. lia. }
  rewrite Heq. reflexivity.
Qed.

Lemma get_frame_tmp_order_witness :
  LifImage.get_frame_tmp (example_image "first" 2 (37, 8)) example_truncated_file
    0 0 1 0 false
  = (["1"%string], Ok (AsImage (mkImage "L" (2, 2) [x05; x06; x07; x08])))
  /\ snd (LifImage.get_frame_tmp (example_image "first" 2 (37, 8))
            example_truncated_file 0 0 1 0 false)
     = LifImage.get_frame (example_image "first" 2 (37, 8)) example_truncated_file
         0 0 1 0 false.
Proof.
  destruct (get_frame_tmp_order (example_info "first" 2) (37, 8) "example.lif"
              (example_image "first" 2 (37, 8)) 2 1 1 1 2 2
              example_truncated_file 0 0 1 0 false) as [Heq Hsame];
    [split; reflexivity | reflexivity | lia | lia | lia | lia |].
  split.
  - rewrite Heq. vm_compute. reflexivity.
  - apply Hsame. right. reflexivity.
Defined.

(** ** Descriptors *)

(** X3: every descriptor [_recursive_image_find] builds for a leaf image
    has six dimension sizes and six strides, in the order channel, Z, T,
    M, Y, X: the channel count and channel 1's byte increment, then for
    each axis the element count and byte increment of its dimension
    description, or 1 and 0 when the image has none.  Its path is the
    folder path followed by a slash. *)
Theorem image_data_dict_shape (item : Element) (path : string) (d : data_dict) :
  image_data_dict item path = Ok d ->
  descriptor_shape d (len (el_channel_list item))
    (axis_count item 3) (axis_count item 4) (axis_count item 10)
    (axis_count item 2) (axis_count item 1)
  /\ (exists s0,
        py_getitem (map ch_BytesInc (el_channel_list item)) 1 = Ok s0
        /\ dd_stride d = [NpUint64 s0; axis_stride item 3; axis_stride item 4;
                          axis_stride item 10; axis_stride item 2; axis_stride item 1])
  /\ dd_ch_offsets d = map ch_BytesInc (el_channel_list item)
  /\ dd_ch_resolutions d = map ch_Resolution (el_channel_list item)
  /\ dd_path d = (path ++ "/")%string
  /\ dd_name d = el_Name item
  /\ List.length (dd_scale d) = 6%nat.
Proof.
  unfold image_data_dict.
  destruct (py_getitem (map ch_BytesInc (el_channel_list item)) 1) as [s0|] eqn:Hs0;
    cbn [rbind]; [|discriminate].
  destruct (float_of_int (len (el_channel_list item) - 1)) as [l0|];
    cbn [rbind]; [|discriminate].
  rewrite fold_append_dimension.
  cbv beta iota zeta delta [map app].
  repeat match goal with
         | |- context [py_getitem (?a :: ?b :: ?l) 1] =>
             change (py_getitem (a :: b :: l) 1) with (Ok b)
         | |- context [py_getitem (?a :: ?b :: ?c :: ?l) 2] =>
             change (py_getitem (a :: b :: c :: l) 2) with (Ok c)
         | |- context [py_getitem (?a :: ?b :: ?c :: ?d :: ?e :: ?l) 4] =>
             change (py_getitem (a :: b :: c :: d :: e :: l) 4) with (Ok e)
         | |- context [py_getitem (?a :: ?b :: ?c :: ?d :: ?e :: ?f :: ?l) 5] =>
             change (py_getitem (a :: b :: c :: d :: e :: f :: l) 5) with (Ok f)
         end.
  cbv beta iota delta [rbind].
  destruct (float_mul_int (axis_length item 3) (10 ^ 6)) as [x1|]; [|discriminate].
  destruct (int_div_float (axis_count item 3) x1) as [sc1|]; [|discriminate].
  destruct (int_div_float (axis_count item 4) (axis_length item 4)) as [sc2|];
    [|discriminate].
  destruct (float_mul_int (axis_length item 2) (10 ^ 6)) as [x4|]; [|discriminate].
  destruct (int_div_float (axis_count item 2 - 1) x4) as [sc4|]; [|discriminate].
  destruct (float_mul_int (axis_length item 1) (10 ^ 6)) as [x5|]; [|discriminate].
  destruct (int_div_float (axis_count item 1 - 1) x5) as [sc5|]; [|discriminate].
  intros H; injection H as <-. cbn.
  split; [split; reflexivity|].
  split; [exists s0; split; reflexivity|].
  auto 10.
Qed.

Lemma image_data_dict_shape_witness :
  descriptor_shape (example_info "first" 2) 2 1 1 1 2 2
  /\ dd_stride (example_info "first" 2)
     = [NpUint64 4; PyInt 0; PyInt 0; PyInt 0; NpUint64 2; NpUint64 1].
Proof.
  destruct (image_data_dict_shape (example_element "first" 2) "folder"
              (example_info "first" 2)) as (Hshape & (s0 & Hs0 & Hstride) & _).
  - vm_compute. reflexivity.
  - split; [exact Hshape|].
    rewrite Hstride. injection Hs0 as <-. reflexivity.
Defined.

(** ** Iterators *)

(** A coordinate within bounds, read from a block that holds the planes. *)
Lemma get_frame_in_bounds
    (info : data_dict) (offs : Z * Z) (fname : string) (self : LifImage.t)
    (nC nZ nT nM nY nX : Z) (file : list byte) (z t c m : Z)
    (return_as_np : bool) :
  descriptor_shape info nC nZ nT nM nY nX ->
  LifImage.__init__ info offs fname = Ok self ->
  block_holds_planes self file nC nZ nT nM nY nX ->
  0 <= z < nZ -> 0 <= t < nT -> 0 <= c < nC -> 0 <= m < nM ->
  exists fr,
    LifImage.get_frame self file z t c m return_as_np = Ok fr
    /\ frame_elements fr = nY * nX.
Proof.
  intros Hshape Hinit Hblock Hz Ht Hc Hm.
  rewrite (get_frame_delegates info offs fname self nC nZ nT nM nY nX Hshape Hinit)
    by lia.
  assert (Hn : 0 <= item_requested nC nZ nT z t c m < nC * nZ * nT * nM).
  { split; [apply item_requested_nonneg | apply item_requested_lt]; lia. }
  destruct return_as_np.
  - destruct (_get_item_np_reads_plane info offs fname self nC nZ nT nM nY nX
                Hshape Hinit file (item_requested nC nZ nT z t c m) Hblock)
      as (a & -> & _ & _ & Hlen); try lia.
    exists (AsArray a). split; [reflexivity | exact Hlen].
  - destruct (_get_item_reads_plane info offs fname self nC nZ nT nM nY nX
                Hshape Hinit file (item_requested nC nZ nT z t c m) Hblock Hn)
      as (im & -> & _ & Hlen).
    exists (AsImage im). split; [reflexivity | exact Hlen].
Qed.

Lemma Zrange_S (i : Z) (n : nat) : Zrange i (S n) = i :: Zrange (i + 1) n.
Proof.
  unfold Zrange. cbn [seq map]. rewrite Z.add_0_r. f_equal.
  rewrite <- seq_shift, map_map. apply map_ext. intros k. lia.
Qed.

Lemma Zrange_length (i : Z) (n : nat) : List.length (Zrange i n) = n.
Proof. unfold Zrange. rewrite length_map, length_seq. reflexivity. Qed.

Lemma Zrange_In (i : Z) (n : nat) (k : Z) :
  In k (Zrange i n) <-> i <= k < i + Z.of_nat n.
Proof.
  unfold Zrange. rewrite in_map_iff. split.
  - intros (j & <- & Hj). apply in_seq in Hj. lia.
  - intros Hk. exists (Z.to_nat (k - i)). split; [lia|]. apply in_seq. lia.
Qed.

(** A generator whose every step succeeds yields one value for each index
    below the bound, in increasing order. *)
Lemma count_up_all (f : Z -> result frame) (bound : Z) (fuel : nat) :
  forall i : Z,
    0 <= i ->
    bound - i <= Z.of_nat fuel ->
    (forall k, i <= k < bound -> exists fr, f k = Ok fr) ->
    LifImage.count_up fuel i bound f = map f (Zrange i (Z.to_nat (bound - i))).
Proof.
  induction fuel as [|fuel IH]; intros i Hi Hfuel Hok.
  - replace (Z.to_nat (bound - i)) with O by lia. reflexivity.
  - cbn [LifImage.count_up].
    destruct (Z.ltb_spec i bound) as [Hlt|Hge].
    + destruct (Hok i ltac:(lia)) as [fr Hfr]. rewrite Hfr.
      replace (Z.to_nat (bound - i)) with (S (Z.to_nat (bound - (i + 1)))) by lia.
      rewrite Zrange_S. cbn [map]. rewrite Hfr. f_equal.
      apply IH; [lia | lia |]. intros k Hk. apply Hok. lia.
    + replace (Z.to_nat (bound - i)) with O by lia. reflexivity.
Qed.

(** X4: each of the four iterators, with the three fixed coordinates within
    bounds and the block holding the planes, yields exactly as many planes
    as the axis is long, in increasing coordinate order: the planes
    [get_frame] returns for coordinates 0, 1, ... of that axis, each of
    [height * width] pixels. *)
Theorem iterators_yield_every_plane
    (info : data_dict) (offs : Z * Z) (fname : string) (self : LifImage.t)
    (nC nZ nT nM nY nX : Z) (file : list byte) (z t c m : Z) :
  descriptor_shape info nC nZ nT nM nY nX ->
  LifImage.__init__ info offs fname = Ok self ->
  block_holds_planes self file nC nZ nT nM nY nX ->
  0 <= z < nZ -> 0 <= t < nT -> 0 <= c < nC -> 0 <= m < nM ->
  let planes (frames : list (result frame)) (n : Z) :=
    len frames = n
    /\ Forall (fun r => exists fr, r = Ok fr /\ frame_elements fr = nY * nX) frames in
  LifImage.get_iter_z self file t c m
  = map (fun z => LifImage.get_frame self file z t c m false) (Zrange 0 (Z.to_nat nZ))
  /\ planes (LifImage.get_iter_z self file t c m) nZ
  /\ LifImage.get_iter_t self file z c m
     = map (fun t => LifImage.get_frame self file z t c m false) (Zrange 0 (Z.to_nat nT))
  /\ planes (LifImage.get_iter_t self file z c m) nT
  /\ LifImage.get_iter_c self file z t m
     = map (fun c => LifImage.get_frame self file z t c m false) (Zrange 0 (Z.to_nat nC))
  /\ planes (LifImage.get_iter_c self file z t m) nC
  /\ LifImage.get_iter_m self file z c t
     = map (fun m => LifImage.get_frame self file z t c m false) (Zrange 0 (Z.to_nat nM))
  /\ planes (LifImage.get_iter_m self file z c t) nM.
Proof.
  intros Hshape Hinit Hblock Hz Ht Hc Hm planes.
  destruct (init_inv _ _ _ _ _ _ _ _ _ _ Hshape Hinit)
    as (Hdims & Hch & Hnz & Hnt & _).
  assert (Hframe : forall z t c m,
             0 <= z < nZ -> 0 <= t < nT -> 0 <= c < nC -> 0 <= m < nM ->
             exists fr, LifImage.get_frame self file z t c m false = Ok fr
                        /\ frame_elements fr = nY * nX).
  { intros z0 t0 c0 m0 Hz0 Ht0 Hc0 Hm0.
    apply (get_frame_in_bounds info offs fname self nC nZ nT nM nY nX
             file z0 t0 c0 m0 false Hshape Hinit Hblock); assumption. }
  assert (Hplanes : forall (f : Z -> result frame) (n : Z),
             0 <= n ->
             (forall k, 0 <= k < n -> exists fr, f k = Ok fr /\ frame_elements fr = nY * nX) ->
             planes (map f (Zrange 0 (Z.to_nat n))) n).
  { intros f n Hn Hf. split.
    - unfold len. rewrite length_map, Zrange_length. lia.
    - apply Forall_forall. intros r Hr. apply in_map_iff in Hr as (k & <- & Hk).
      apply Zrange_In in Hk. apply Hf. lia. }
  assert (Hz_eq : LifImage.get_iter_z self file t c m
                  = map (fun z => LifImage.get_frame self file z t c m false)
                      (Zrange 0 (Z.to_nat nZ))).
  { unfold LifImage.get_iter_z. rewrite Hnz.
    rewrite count_up_all; [rewrite Z.sub_0_r; reflexivity | lia | lia |].
    intros k Hk. destruct (Hframe k t c m) as (fr & Hfr & _); try lia. eauto. }
  assert (Ht_eq : LifImage.get_iter_t self file z c m
                  = map (fun t => LifImage.get_frame self file z t c m false)
                      (Zrange 0 (Z.to_nat nT))).
  { unfold LifImage.get_iter_t. rewrite Hnt.
    rewrite count_up_all; [rewrite Z.sub_0_r; reflexivity | lia | lia |].
    intros k Hk. destruct (Hframe z k c m) as (fr & Hfr & _); try lia. eauto. }
  assert (Hc_eq : LifImage.get_iter_c self file z t m
                  = map (fun c => LifImage.get_frame self file z t c m false)
                      (Zrange 0 (Z.to_nat nC))).
  { unfold LifImage.get_iter_c. rewrite Hch.
    rewrite count_up_all; [rewrite Z.sub_0_r; reflexivity | lia | lia |].
    intros k Hk. destruct (Hframe z t k m) as (fr & Hfr & _); try lia. eauto. }
  assert (Hm_eq : LifImage.get_iter_m self file z c t
                  = map (fun m => LifImage.get_frame self file z t c m false)
                      (Zrange 0 (Z.to_nat nM))).
  { unfold LifImage.get_iter_m. rewrite Hdims.
    change (py_getitem [nC; nZ; nT; nM; nY; nX] 3) with (Ok nM). cbv iota.
    rewrite count_up_all; [rewrite Z.sub_0_r; reflexivity | lia | lia |].
    intros k Hk. destruct (Hframe z t c k) as (fr & Hfr & _); try lia. eauto. }
  split; [exact Hz_eq|]. split.
  { rewrite Hz_eq. apply Hplanes; [lia|]. intros k Hk. apply Hframe; lia. }
  split; [exact Ht_eq|]. split.
  { rewrite Ht_eq. apply Hplanes; [lia|]. intros k Hk. apply Hframe; lia. }
  split; [exact Hc_eq|]. split.
  { rewrite Hc_eq. apply Hplanes; [lia|]. intros k Hk. apply Hframe; lia. }
  split; [exact Hm_eq|].
  rewrite Hm_eq. apply Hplanes; [lia|]. intros k Hk. apply Hframe; lia.
Qed.

Lemma iterators_yield_every_plane_witness :
  LifImage.get_iter_c (example_image "first" 2 (37, 8)) example_truncated_file 0 0 0
  = [Ok (AsImage (mkImage "L" (2, 2) [x01; x02; x03; x04]));
     Ok (AsImage (mkImage "L" (2, 2) [x05; x06; x07; x08]))]
  /\ len (LifImage.get_iter_c (example_image "first" 2 (37, 8))
            example_truncated_file 0 0 0) = 2.
Proof.
  destruct (iterators_yield_every_plane (example_info "first" 2) (37, 8) "example.lif"
              (example_image "first" 2 (37, 8)) 2 1 1 1 2 2
              example_truncated_file 0 0 0 0)
    as (_ & _ & _ & _ & Hc & (Hlen & _) & _).
  - split; reflexivity.
  - reflexivity.
  - unfold block_holds_planes. vm_compute.
    split; [|split; [|split; [|split; [|split]]]]; congruence.
  - lia.
  - lia.
  - lia.
  - lia.
  - split; [|exact Hlen]. rewrite Hc. vm_compute. reflexivity.
Defined.

(** X5: an iterator makes no check of its own.  With a fixed coordinate
    out of range, the error of [get_frame] comes as the first and only
    item, and an iterator over an axis of size 0 or less yields nothing at
    all, so the bad coordinate goes unreported. *)
Theorem iterator_reports_range_error_on_first_item
    (info : data_dict) (offs : Z * Z) (fname : string) (self : LifImage.t)
    (nC nZ nT nM nY nX : Z) (file : list byte) (z t c m : Z) :
  descriptor_shape info nC nZ nT nM nY nX ->
  LifImage.__init__ info offs fname = Ok self ->
  nZ <= z ->
  (0 < nT -> LifImage.get_iter_t self file z c m = [Raise (range_error AxisZ)])
  /\ (nT <= 0 -> LifImage.get_iter_t self file z c m = [])
  /\ (0 < nC -> LifImage.get_iter_c self file z t m = [Raise (range_error AxisZ)])
  /\ (nC <= 0 -> LifImage.get_iter_c self file z t m = []).
Proof.
  intros Hshape Hinit Hz.
  destruct (init_inv _ _ _ _ _ _ _ _ _ _ Hshape Hinit)
    as (Hdims & Hch & Hnz & Hnt & _).
  assert (Herr : forall t c, LifImage.get_frame self file z t c m false
                             = Raise (range_error AxisZ)).
  { intros t0 c0. unfold LifImage.get_frame. rewrite Hnz, Z.geb_leb.
    destruct (Z.leb_spec nZ z); [reflexivity | lia]. }
  unfold LifImage.get_iter_t, LifImage.get_iter_c. rewrite Hnt, Hch.
  split; [|split; [|split]].
  - intros Hpos. destruct (Z.to_nat nT) as [|k] eqn:Hk; [lia|].
    cbn [LifImage.count_up]. destruct (Z.ltb_spec 0 nT); [|lia].
    rewrite Herr. reflexivity.
  - intros Hneg. replace (Z.to_nat nT) with O by lia. reflexivity.
  - intros Hpos. destruct (Z.to_nat nC) as [|k] eqn:Hk; [lia|].
    cbn [LifImage.count_up]. destruct (Z.ltb_spec 0 nC); [|lia].
    rewrite Herr. reflexivity.
  - intros Hneg. replace (Z.to_nat nC) with O by lia. reflexivity.
Qed.

Lemma iterator_reports_range_error_on_first_item_witness :
  LifImage.get_iter_t (example_image "first" 2 (37, 8)) example_truncated_file 1 0 0
  = [Raise (range_error AxisZ)].
Proof.
  destruct (iterator_reports_range_error_on_first_item
              (example_info "first" 2) (37, 8) "example.lif"
              (example_image "first" 2 (37, 8)) 2 1 1 1 2 2
              example_truncated_file 1 0 0 0) as (H & _).
  - split; reflexivity.
  - reflexivity.
  - lia.
  - apply H. lia.
Defined.

(** ** Bulk reads *)

(** X6: [get_stack_np] reads, for a tile [m] that is not negative, the
    [channels * depth * time * height * width] elements that start at
    [block position + m * tile stride], and returns them in the shape
    (C, Z, T, Y, X), provided the file has them.  For a negative [m] and
    a tile stride read from the XML, a [uint64], the product raises
    [OverflowError] and nothing is read. *)
Theorem get_stack_np_reads_stack
    (info : data_dict) (offs : Z * Z) (fname : string) (self : LifImage.t)
    (nC nZ nT nM nY nX : Z) (sC sZ sT sM : number) (rest : list number)
    (file : list byte) (m : Z) :
  descriptor_shape info nC nZ nT nM nY nX ->
  dd_stride info = sC :: sZ :: sT :: sM :: rest ->
  LifImage.__init__ info offs fname = Ok self ->
  0 < nC -> 0 < nZ -> 0 < nT -> 0 < nY -> 0 < nX ->
  (0 <= m < 2 ^ 64 ->
   0 <= int_of_number sM ->
   0 <= fst offs ->
   fst offs + m * int_of_number sM
     + nC * nZ * nT * nY * nX * LifImage.dtype self <= len file ->
   len file < 2 ^ 62 ->
   LifImage.get_stack_np self file m
   = Ok (mkArray (LifImage.dtype self) [nC; nZ; nT; nY; nX]
           (decode_items (Z.to_nat (nC * nZ * nT * nY * nX))
              (Z.to_nat (LifImage.dtype self))
              (skipn (Z.to_nat (fst offs + m * int_of_number sM)) file))))
  /\ (m < 0 ->
      (exists v, sM = NpUint64 v) ->
      LifImage.get_stack_np self file m = Raise OverflowError).
Proof.
  intros Hshape Hstride Hinit HC HZ HT HY HX.
  destruct (init_inv _ _ _ _ _ _ _ _ _ _ Hshape Hinit)
    as (Hdims & _ & _ & _ & Hoffs & Hstr & _ & Hdt).
  split.
  2: { intros Hm (v & ->).
       unfold LifImage.get_stack_np. rewrite Hstr, Hstride.
       change (py_getitem (sC :: sZ :: sT :: NpUint64 v :: rest) (Z.of_nat 3))
         with (@Ok number (NpUint64 v)).
       cbn [rbind]. rewrite (int_mul_number_negative m v Hm). reflexivity. }
  intros Hm HsM Hpos Hend Hfile.
  set (w := LifImage.dtype self) in *.
  assert (Hw : 1 <= w <= 8) by lia.
  assert (H1 : 0 < nC * nZ) by (apply Z.mul_pos_pos; assumption).
  assert (H2 : 0 < nC * nZ * nT) by (apply Z.mul_pos_pos; assumption).
  assert (H3 : 0 < nC * nZ * nT * nY) by (apply Z.mul_pos_pos; assumption).
  assert (H4 : 0 < nC * nZ * nT * nY * nX) by (apply Z.mul_pos_pos; assumption).
  set (n := nC * nZ * nT * nY * nX) in *.
  assert (Hn : n <= n * w) by (rewrite <- (Z.mul_1_r n) at 1; apply Z.mul_le_mono_nonneg_l; lia).
  assert (B1 : nC <= nC * nZ) by (rewrite <- (Z.mul_1_r nC) at 1; apply Z.mul_le_mono_nonneg_l; lia).
  assert (B2 : nC * nZ <= nC * nZ * nT)
    by (rewrite <- (Z.mul_1_r (nC * nZ)) at 1; apply Z.mul_le_mono_nonneg_l; lia).
  assert (B3 : nC * nZ * nT <= nC * nZ * nT * nY)
    by (rewrite <- (Z.mul_1_r (nC * nZ * nT)) at 1; apply Z.mul_le_mono_nonneg_l; lia).
  assert (B4 : nC * nZ * nT * nY <= n)
    by (unfold n; rewrite <- (Z.mul_1_r (nC * nZ * nT * nY)) at 1;
        apply Z.mul_le_mono_nonneg_l; lia).
  assert (B62 : 2 ^ 62 < 2 ^ 63) by lia.
  assert (B64 : 2 ^ 62 < 2 ^ 64) by lia.
  assert (HmS : 0 <= m * int_of_number sM) by (apply Z.mul_nonneg_nonneg; lia).
  unfold LifImage.get_stack_np. rewrite Hdims, Hstr, Hstride, Hoffs.
  change (py_getitem (sC :: sZ :: sT :: sM :: rest) (Z.of_nat 3)) with (@Ok number sM).
  cbn [rbind].
  destruct (int_mul_number_value m sM) as (x & -> & Ex); try lia.
  cbv beta iota zeta delta [rbind slice_to slice_from firstn skipn Nat.add app
                            np_prod fold_left].
  rewrite Ex.
  rewrite !Z.mul_1_l.
  rewrite (np_int64_small nC) by lia.
  rewrite (np_int64_small (nC * nZ)) by lia.
  rewrite (np_int64_small (nC * nZ * nT)) by lia.
  rewrite (np_int64_small (nC * nZ * nT * nY)) by lia.
  fold n. rewrite (np_int64_small n) by lia.
  unfold with_open, np_fromfile. cbn [h_pos h_bytes]. fold w.
  rewrite offset_fits by lia.
  rewrite Z.add_0_l.
  destruct (Z.ltb_spec (fst offs + m * int_of_number sM) 0); [lia|].
  destruct (Z.ltb_spec n 0); [lia|].
  cbn [fst].
  set (bytes := skipn (Z.to_nat (fst offs + m * int_of_number sM)) file).
  assert (Hbytes : n * w <= len bytes).
  { unfold bytes. rewrite len_skipn. lia. }
  assert (Havail : n <= len bytes / w) by (apply Z.div_le_lower_bound; lia).
  rewrite Z.min_l by exact Havail.
  unfold np_reshape. cbn [nd_data nd_itemsize existsb count_occ].
  destruct (Z.ltb_spec nC (-1)); [lia|]. destruct (Z.ltb_spec nZ (-1)); [lia|].
  destruct (Z.ltb_spec nT (-1)); [lia|]. destruct (Z.ltb_spec nY (-1)); [lia|].
  destruct (Z.ltb_spec nX (-1)); [lia|]. cbn [orb].
  destruct (Z.eq_dec nC (-1)); [lia|]. destruct (Z.eq_dec nZ (-1)); [lia|].
  destruct (Z.eq_dec nT (-1)); [lia|]. destruct (Z.eq_dec nY (-1)); [lia|].
  destruct (Z.eq_dec nX (-1)); [lia|].
  assert (Hsize : len (decode_items (Z.to_nat n) (Z.to_nat w) bytes) = n).
  { unfold len. rewrite decode_items_length. lia. }
  rewrite Hsize. cbn [Zprod fold_right].
  replace (nC * (nZ * (nT * (nY * (nX * 1))))) with n by (unfold n; ring).
  rewrite Z.eqb_refl. reflexivity.
Qed.

(** Tile 1 of the tiled example is read 8 bytes into the block; tile -1
    is refused. *)
Lemma get_stack_np_reads_stack_witness :
  LifImage.get_stack_np (image_of example_tiled_info (37, 16) 1)
    example_truncated_file 1
  = Ok (mkArray 1 [2; 1; 1; 2; 2] [0; 0; 0; 0; 0; 0; 0; 0])
  /\ LifImage.get_stack_np (image_of example_tiled_info (37, 16) 1)
       example_truncated_file (-1)
     = Raise OverflowError.
Proof.
  destruct (get_stack_np_reads_stack example_tiled_info (37, 16) "example.lif"
              (image_of example_tiled_info (37, 16) 1) 2 1 1 2 2 2
              (NpUint64 4) (PyInt 0) (PyInt 0) (NpUint64 8) [NpUint64 2; NpUint64 1]
              example_truncated_file 1) as [Hread _];
    [split; reflexivity | reflexivity | vm_compute; reflexivity
    | lia | lia | lia | lia | lia |].
  destruct (get_stack_np_reads_stack example_tiled_info (37, 16) "example.lif"
              (image_of example_tiled_info (37, 16) 1) 2 1 1 2 2 2
              (NpUint64 4) (PyInt 0) (PyInt 0) (NpUint64 8) [NpUint64 2; NpUint64 1]
              example_truncated_file (-1)) as [_ Hneg];
    [split; reflexivity | reflexivity | vm_compute; reflexivity
    | lia | lia | lia | lia | lia |].
  split.
  - rewrite Hread;
      [vm_compute; reflexivity | lia | cbn; lia | cbn; lia
      | vm_compute; discriminate | vm_compute; reflexivity].
  - apply Hneg; [lia | eexists; reflexivity].
Defined.

(** ** Opening a file: the header *)

Lemma _get_len_eval (bytes : list byte) (pos : Z) :
  0 <= pos < 2 ^ 63 ->
  _get_len (mkHandle bytes pos) = (Ok (len bytes), mkHandle bytes pos).
Proof.
  intros Hp. unfold _get_len, bind, tell, seek, ret. cbn [h_pos h_bytes].
  change ((0 <? - 2 ^ 63) || (2 ^ 63 <=? 0)) with false.
  change (2 =? 0) with false. change (2 =? 1) with false. cbv iota.
  rewrite Z.add_0_r.
  destruct (Z.ltb_spec (len bytes) 0) as [Hneg|_];
    [pose proof (len_nonneg bytes); lia|].
  cbn [h_pos h_bytes].
  destruct (Z.ltb_spec pos (- 2 ^ 63)); [lia|].
  destruct (Z.leb_spec (2 ^ 63) pos); [lia|]. cbn [orb].
  change (0 =? 0) with true. cbv iota. rewrite Z.add_0_l.
  destruct (Z.ltb_spec pos 0); [lia|]. reflexivity.
Qed.

(** X7: [_get_len] returns the length of the file and leaves the file
    position where it was. *)
Theorem _get_len_restores_position (h : handle) :
  0 <= h_pos h < 2 ^ 63 ->
  _get_len h = (Ok (len (h_bytes h)), h).
Proof.
  destruct h as [bytes pos]. cbn [h_pos h_bytes]. apply _get_len_eval.
Qed.

Lemma _get_len_restores_position_witness :
  _get_len (mkHandle example_truncated_file 45)
  = (Ok (len example_truncated_file), mkHandle example_truncated_file 45).
Proof.
  apply (_get_len_restores_position (mkHandle example_truncated_file 45)).
  cbn [h_pos]. lia.
Defined.

(** X8: a file that does not start with the four signature bytes, an
    empty or shorter file included, is refused with the [ValueError] of
    [_check_magic], which names the position reached, before the header
    text is looked at. *)
Theorem open_refuses_missing_signature
    (xml_parse : list byte -> result Element) (filename : string) (file : list byte) :
  firstn 4 file <> magic_bytes ->
  LifFile.__init__ xml_parse filename file
  = Raise (magic_error (Z.min 4 (len file))).
Proof.
  intros Hmagic. unfold LifFile.__init__, LifFile.scan_file, with_open.
  unfold bind at 1. rewrite _get_len_eval by lia.
  unfold bind at 1. unfold _check_magic at 1. unfold bind at 1.
  change (read 4) with (read (Z.of_nat 4)). rewrite read_fixed.
  cbn [h_pos h_bytes Z.to_nat skipn].
  apply bytes_eqb_neq in Hmagic. unfold magic_bytes in Hmagic. rewrite Hmagic.
  cbn [negb]. unfold tell, raise. cbn [h_pos h_bytes fst rbind].
  rewrite len_firstn. reflexivity.
Qed.

Lemma open_refuses_missing_signature_witness :
  LifFile.__init__ (fun _ => Ok example_root) "example.lif" []
  = Raise (magic_error 0).
Proof.
  apply (open_refuses_missing_signature (fun _ => Ok example_root) "example.lif" []).
  discriminate.
Defined.

(** ** The block scan on a block header *)

Lemma le_to_Z_bound (bs : list byte) : le_to_Z bs < 256 ^ len bs.
Proof.
  induction bs as [|b bs IH]; cbn [le_to_Z].
  - reflexivity.
  - replace (len (b :: bs)) with (Z.succ (len bs)) by (unfold len; cbn [List.length]; lia).
    rewrite Z.pow_succ_r by apply len_nonneg.
    pose proof (Byte.to_N_bounded b). lia.
Qed.

Lemma eval_check_magic (B : list byte) (p : Z) :
  firstn 4 (skipn (Z.to_nat p) B) = magic_bytes ->
  _check_magic false (mkHandle B p) = (Ok true, mkHandle B (p + 4)).
Proof.
  intros H. unfold _check_magic, bind.
  change (read 4) with (read (Z.of_nat 4)). rewrite read_fixed.
  cbn [h_pos h_bytes]. rewrite H. reflexivity.
Qed.

Lemma eval_check_mem (bool_return : bool) (B : list byte) (p : Z) :
  firstn 1 (skipn (Z.to_nat p) B) = [x2a] ->
  _check_mem bool_return (mkHandle B p) = (Ok true, mkHandle B (p + 1)).
Proof.
  intros H. unfold _check_mem, bind.
  change (read 1) with (read (Z.of_nat 1)). rewrite read_fixed.
  cbn [h_pos h_bytes]. rewrite H. reflexivity.
Qed.


Lemma eval_read_int (B : list byte) (p : Z) :
  List.length (firstn 4 (skipn (Z.to_nat p) B)) = 4%nat ->
  _read_int (mkHandle B p)
  = (Ok (le_to_Z (firstn 4 (skipn (Z.to_nat p) B))), mkHandle B (p + 4)).
Proof.
  intros H. unfold _read_int, bind.
  change (read 4) with (read (Z.of_nat 4)). rewrite read_fixed.
  cbn [h_pos h_bytes]. unfold lift, struct_unpack, len. rewrite H. reflexivity.
Qed.


Lemma eval_seek_cur (B : list byte) (p off : Z) :
  - 2 ^ 63 <= off < 2 ^ 63 -> 0 <= p + off ->
  seek off 1 (mkHandle B p) = (Ok (p + off), mkHandle B (p + off)).
Proof.
  intros Hoff Hp. unfold seek.
  destruct (Z.ltb_spec off (- 2 ^ 63)); [lia|].
  destruct (Z.leb_spec (2 ^ 63) off); [lia|]. cbn [orb].
  change (1 =? 0) with false. change (1 =? 1) with true. cbv iota.
  cbn [h_pos h_bytes]. destruct (Z.ltb_spec (p + off) 0); [lia|]. reflexivity.
Qed.

(** X9: one round of the scan on a block header with a 4-byte length:
    signature, four bytes that are skipped, marker, length, marker,
    description length (in 2-byte units).  The block is recorded at the
    position that follows the description, with its length, unless the
    length is 0, in which case nothing is recorded; the file is left at the
    end of the payload. *)
Theorem scan_body_records_block (offs : list (Z * Z)) (h : handle) :
  0 <= h_pos h ->
  ahead h 0 4 = magic_bytes ->
  ahead h 8 1 = [x2a] ->
  List.length (ahead h 9 4) = 4%nat ->
  ahead h 13 1 = [x2a] ->
  List.length (ahead h 14 4) = 4%nat ->
  let block_len := le_to_Z (ahead h 9 4) in
  let description_len := le_to_Z (ahead h 14 4) * 2 in
  LifFile.scan_body offs h
  = (Ok (if block_len >? 0
         then offs ++ [(h_pos h + 18 + description_len, block_len)]
         else offs),
     mkHandle (h_bytes h) (h_pos h + 18 + description_len + block_len)).
Proof.
  destruct h as [B p]. unfold ahead. cbn [h_pos h_bytes].
  rewrite Z.add_0_r.
  intros Hp Hmagic Hmem1 Hlen Hmem2 Hdesc.
  set (block_len := le_to_Z (firstn 4 (skipn (Z.to_nat (p + 9)) B))).
  set (description_len := le_to_Z (firstn 4 (skipn (Z.to_nat (p + 14)) B)) * 2).
  pose proof (le_to_Z_nonneg (firstn 4 (skipn (Z.to_nat (p + 9)) B))) as HL0.
  pose proof (le_to_Z_bound (firstn 4 (skipn (Z.to_nat (p + 9)) B))) as HL1.
  pose proof (le_to_Z_nonneg (firstn 4 (skipn (Z.to_nat (p + 14)) B))) as HD0.
  pose proof (le_to_Z_bound (firstn 4 (skipn (Z.to_nat (p + 14)) B))) as HD1.
  unfold len in HL1, HD1. rewrite Hlen in HL1. rewrite Hdesc in HD1.
  change (256 ^ Z.of_nat 4) with (2 ^ 32) in *.
  fold block_len in HL0, HL1.
  assert (HD2 : 0 <= description_len < 2 ^ 33) by (unfold description_len; lia).
  assert (Hhead : LifFile.scan_header offs (mkHandle B p)
                  = (Ok (if block_len >? 0
                         then offs ++ [(p + 18 + description_len, block_len)]
                         else offs,
                         description_len + block_len),
                     mkHandle B (p + 18))).
  { unfold LifFile.scan_header.
    unfold bind at 1. rewrite (eval_check_magic B p Hmagic).
    unfold bind at 1. rewrite (eval_seek_cur B (p + 4) 4) by lia.
    replace (p + 4 + 4) with (p + 8) by lia.
    unfold bind at 1. rewrite (eval_check_mem false B (p + 8) Hmem1).
    replace (p + 8 + 1) with (p + 9) by lia.
    unfold bind at 1. rewrite (eval_read_int B (p + 9) Hlen).
    replace (p + 9 + 4) with (p + 13) by lia.
    unfold bind at 1. rewrite (eval_check_mem true B (p + 13) Hmem2).
    replace (p + 13 + 1) with (p + 14) by lia.
    cbn [negb]. unfold bind at 1. unfold ret at 1.
    unfold bind at 1. rewrite (eval_read_int B (p + 14) Hdesc).
    replace (p + 14 + 4) with (p + 18) by lia.
    unfold bind at 1. unfold tell. cbn [h_pos h_bytes].
    fold block_len. fold description_len.
    unfold ret. reflexivity. }
  unfold LifFile.scan_body. unfold bind at 1. rewrite Hhead. cbn [fst snd].
  unfold bind at 1.
  rewrite (eval_seek_cur B (p + 18) (description_len + block_len)) by lia.
  unfold ret. rewrite Z.add_assoc. reflexivity.
Qed.

Lemma scan_body_records_block_witness :
  LifFile.scan_body [] (mkHandle example_truncated_file 17)
  = (Ok [(37, 8)], mkHandle example_truncated_file 45).
Proof.
  rewrite (scan_body_records_block [] (mkHandle example_truncated_file 17));
    [vm_compute; reflexivity | cbn [h_pos]; lia | vm_compute; reflexivity
    | vm_compute; reflexivity | vm_compute; reflexivity
    | vm_compute; reflexivity | vm_compute; reflexivity].
Defined.



(** ** The block scan as a whole *)

Lemma seek_abs_spec (off : Z) (h : handle) (r : result Z) (h' : handle) :
  seek off 0 h = (r, h') ->
  h_bytes h' = h_bytes h
  /\ match r with
     | Ok _ => h_pos h' = off
     | Raise e => e = OSError \/ e = seek_error
     end.
Proof.
  unfold seek. destruct (_ || _).
  - intros H; injection H as <- <-. auto.
  - change (0 =? 0) with true. cbv iota. rewrite Z.add_0_l.
    destruct (_ <? 0); intros H; injection H as <- <-; cbn; auto.
Qed.

(** What a completed round of the body returns: the list it was given,
    or that list with one block of positive length appended. *)
Lemma scan_body_result (offs : list (Z * Z)) (h : handle)
    (offs' : list (Z * Z)) (h' : handle) :
  LifFile.scan_body offs h = (Ok offs', h') ->
  offs' = offs \/ exists pos l, 0 < l /\ offs' = offs ++ [(pos, l)].
Proof.
  intros H. unfold LifFile.scan_body in H.
  apply bind_inv in H as [([offs1 skip] & h1 & E1 & H) | (e & _ & E)]; [|discriminate E].
  apply scan_header_spec in E1 as (_ & _ & _ & Hoffs). cbn [fst snd] in H.
  apply bind_inv in H as [(a9 & h9 & _ & H) | (e & _ & E)]; [|discriminate E].
  unfold ret in H. injection H as <- <-. exact Hoffs.
Qed.

Lemma scan_loop_invariant (fuel : nat) :
  forall (st st' : LifFile.scan_state) (h h' : handle),
    4 <= h_pos h ->
    Forall (fun b : Z * Z => 0 < snd b) (LifFile.sc_offsets st) ->
    LifFile.sc_truncated st = None ->
    LifFile.sc_warnings st = [] ->
    LifFile.scan_loop (len (h_bytes h)) fuel st h = (Ok st', h') ->
    scan_invariant (h_bytes h) st'.
Proof.
  induction fuel as [|fuel IH]; intros st st' h h' Hp Hpos Htr Hw H.
  - cbn [LifFile.scan_loop] in H.
    destruct (_ <? _); [discriminate|]. injection H as <- <-.
    split; [exact Hpos | rewrite Htr; exact Hw].
  - cbn [LifFile.scan_loop] in H.
    destruct (Z.ltb_spec (h_pos h) (len (h_bytes h))) as [Hlt|Hge].
    + apply bind_inv in H as [(st1 & h1 & E1 & H) | (e & _ & E)]; [|discriminate E].
      pose proof (scan_iteration_spec st h (Ok st1) h1 Hp E1) as (_ & Hprog).
      apply scan_iteration_cases in E1
        as (Hbytes & [(offs' & Hbody & ->)
                     | (offs' & tb & Hoffs & -> & Hend & Htb & Hzero)]);
        try exact Hp.
      * rewrite <- Hbytes in H.
        assert (Hp1 : 4 <= h_pos h1).
        { destruct (scan_body_spec _ _ _ _ Hbody) as (_ & Hadv). lia. }
        apply (IH _ _ _ _ Hp1) in H; [rewrite Hbytes in H; exact H | | exact Htr | exact Hw].
        cbn [LifFile.sc_offsets].
        destruct (scan_body_result _ _ _ _ Hbody) as [-> | (pos & l & Hl & ->)];
          [exact Hpos|].
        apply Forall_app. split; [exact Hpos|]. constructor; [exact Hl | constructor].
      * assert (Hall : Forall (fun b : Z * Z => 0 < snd b) offs').
        { destruct Hoffs as [-> | (pos & l & Hl & ->)]; [exact Hpos|].
          apply Forall_app. split; [exact Hpos|]. constructor; [exact Hl | constructor]. }
        rewrite <- Hbytes in H. rewrite <- Hbytes in Hend.
        destruct fuel; cbn [LifFile.scan_loop] in H;
          (destruct (Z.ltb_spec (h_pos h1) (len (h_bytes h1))); [lia|]);
          injection H as <- <-;
          (split; [exact Hall|]); cbn; rewrite Hw; auto.
    + injection H as <- <-. split; [exact Hpos | rewrite Htr; exact Hw].
Qed.

(** The scan of [scan_file] starts at position 13 or later, on the whole
    file, with nothing recorded. *)
Lemma scan_file_Ok (xml_parse : list byte -> result Element) (file xml_header : list byte)
    (xml_root : Element) (st : LifFile.scan_state) :
  LifFile.scan_file xml_parse file = Ok (xml_header, xml_root, st) ->
  xml_parse xml_header = Ok xml_root
  /\ firstn 4 file = magic_bytes
  /\ exists h h',
       h_bytes h = file /\ 13 <= h_pos h
       /\ LifFile.scan_loop (len file) (List.length file) (LifFile.mkScan [] None []) h
          = (Ok st, h').
Proof.
  unfold LifFile.scan_file, with_open.
  match goal with |- fst (?body ?h0) = _ -> _ => destruct (body h0) as [r hf] eqn:H end.
  cbn [fst]. intros ->.
  apply bind_inv in H as [(f_len & h1 & E1 & H) | (e & _ & E)]; [|discriminate E].
  rewrite _get_len_eval in E1 by lia. injection E1 as <- <-.
  apply bind_inv in H as [(a2 & h2 & E2 & H) | (e & _ & E)]; [|discriminate E].
  assert (Hmagic : firstn 4 file = magic_bytes).
  { unfold _check_magic, bind in E2.
    change (read 4) with (read (Z.of_nat 4)) in E2. rewrite read_fixed in E2.
    cbn [h_pos h_bytes Z.to_nat skipn] in E2.
    destruct (bytes_eqb (firstn 4 file) [x70; x00; x00; x00]) eqn:Eb.
    - apply bytes_eqb_eq in Eb. exact Eb.
    - cbn [negb] in E2. unfold tell, raise in E2. discriminate E2. }
  apply _check_magic_spec in E2 as [B2 P2].
  apply bind_inv in H as [(a3 & h3 & E3 & H) | (e & _ & E)]; [|discriminate E].
  apply seek_abs_spec in E3 as [B3 P3].
  apply bind_inv in H as [(a4 & h4 & E4 & H) | (e & _ & E)]; [|discriminate E].
  apply _check_mem_spec in E4 as [B4 P4].
  apply bind_inv in H as [(header_len & h5 & E5 & H) | (e & _ & E)]; [|discriminate E].
  apply _read_int_spec in E5 as [B5 [P5 V5]].
  apply bind_inv in H as [(hdr & h6 & E6 & H) | (e & _ & E)]; [|discriminate E].
  destruct (read_spec (header_len * 2) h5 ltac:(lia)) as [got Hgot].
  rewrite Hgot in E6. injection E6 as <- <-.
  apply bind_inv in H as [(root & h7 & E7 & H) | (e & _ & E)]; [|discriminate E].
  unfold lift in E7. injection E7 as E7 <-.
  apply bind_inv in H as [(st0 & h8 & E8 & H) | (e & _ & E)]; [|discriminate E].
  unfold ret in H. injection H as <- <- <- <-.
  split; [exact E7|]. split; [exact Hmagic|].
  eexists. eexists. split; [|split; [|exact E8]].
  - cbn [h_bytes]. cbn [h_bytes] in *. congruence.
  - cbn [h_pos]. pose proof (len_nonneg got). cbn [h_pos] in *. lia.
Qed.

(** X11: a successful open went through a scan of the file that ended
    in a state [st], and: every block the scan recorded has a positive
    length; if the scan did not flag a truncation, no warning was emitted,
    the blocks of the file are the recorded ones and there is one per
    descriptor; if it did, the warning was emitted exactly once, the
    recorded truncation position is one where 100 zero bytes start in the
    file, and the blocks are the recorded ones followed by one
    [(truncation position, 0)] for each descriptor that lacks a block.  A
    block of length 0 is therefore always a synthesized one. *)
Theorem open_blocks_invariant
    (xml_parse : list byte -> result Element) (filename : string)
    (file : list byte) (lf : LifFile.t) (warnings : list string) :
  LifFile.__init__ xml_parse filename file = Ok (lf, warnings) ->
  exists xml_header st,
    LifFile.scan_file xml_parse file = Ok (xml_header, LifFile.xml_root lf, st)
    /\ warnings = LifFile.sc_warnings st
    /\ Forall (fun b : Z * Z => 0 < snd b) (LifFile.sc_offsets st)
    /\ match LifFile.sc_truncated st with
       | None =>
           warnings = []
           /\ LifFile.offsets lf = LifFile.sc_offsets st
           /\ len (LifFile.offsets lf) = len (LifFile.image_list lf)
       | Some truncation_begin =>
           warnings = [LifFile.truncation_warning]
           /\ 0 <= truncation_begin
           /\ firstn 100 (skipn (Z.to_nat truncation_begin) file) = repeat x00 100
           /\ LifFile.offsets lf
              = LifFile.sc_offsets st
                ++ repeat (truncation_begin, 0)
                     (Z.to_nat (len (LifFile.image_list lf)
                                - len (LifFile.sc_offsets st)))
           /\ len (LifFile.image_list lf) <= len (LifFile.offsets lf)
       end.
Proof.
  intros Hopen.
  apply open_stages in Hopen as (xml_header & st & Hscan & Hfind & Hrec & ->).
  exists xml_header, st. split; [exact Hscan|]. split; [reflexivity|].
  apply scan_file_Ok in Hscan as (_ & _ & h & h' & Hbytes & Hpos & Hloop).
  rewrite <- Hbytes in Hloop at 1.
  apply scan_loop_invariant in Hloop; [| lia | constructor | reflexivity | reflexivity].
  rewrite Hbytes in Hloop.
  destruct Hloop as (Hall & Hinv). split; [exact Hall|].
  destruct (LifFile.sc_truncated st) as [tb|] eqn:Htr.
  - destruct Hinv as (Hw & Htb & Hzero).
    rewrite (reconcile_truncated _ _ tb Htr) in Hrec.
    injection Hrec as Hrec.
    split; [exact Hw|]. split; [exact Htb|]. split; [exact Hzero|].
    split; [symmetry; exact Hrec|].
    rewrite <- Hrec, len_app, len_repeat. lia.
  - rewrite (reconcile_not_truncated _ _ Htr) in Hrec.
    destruct (Z.eqb_spec (len (LifFile.image_list lf)) (len (LifFile.sc_offsets st)))
      as [Heq|]; [|discriminate].
    injection Hrec as Hrec. rewrite <- Hrec. auto.
Qed.

(** On the example file the scan records the block (37, 8) and the
    truncation at 45; the second descriptor gets the block (45, 0). *)
Lemma open_blocks_invariant_witness :
  LifFile.__init__ (fun _ => Ok example_root) "example.lif" example_truncated_file
  = Ok (example_lif, [LifFile.truncation_warning])
  /\ exists xml_header st,
       LifFile.scan_file (fun _ => Ok example_root) example_truncated_file
       = Ok (xml_header, example_root, st)
       /\ LifFile.sc_offsets st = [(37, 8)]
       /\ LifFile.sc_truncated st = Some 45
       /\ LifFile.offsets example_lif = [(37, 8)] ++ repeat (45, 0) 1.
Proof.
  assert (Hopen : LifFile.__init__ (fun _ => Ok example_root) "example.lif"
                    example_truncated_file
                  = Ok (example_lif, [LifFile.truncation_warning]))
    by (vm_compute; reflexivity).
  split; [exact Hopen|].
  destruct (open_blocks_invariant _ _ _ _ _ Hopen)
    as (xml_header & st & Hscan & _ & _ & _).
  exists xml_header, st.
  assert (Hst : LifFile.scan_file (fun _ => Ok example_root) example_truncated_file
                = Ok ([x3c; x00; x3e; x00], example_root,
                      LifFile.mkScan [(37, 8)] (Some 45) [LifFile.truncation_warning]))
    by (vm_compute; reflexivity).
  cbn [LifFile.xml_root example_lif] in Hscan.
  rewrite Hst in Hscan. injection Hscan as <- <-.
  split; [exact Hst|]. split; [reflexivity|]. split; reflexivity.
Defined.

(** X12: the block scan always terminates.  Each completed round moves
    the file forward by at least 18 bytes or to its end, so as many rounds
    as the file has bytes are never used up: the bound of the model's loop
    is never what stops [scan_file]. *)
Theorem scan_terminates (fuel : nat) (st : LifFile.scan_state) (h : handle)
    (r : result LifFile.scan_state) (h' : handle) :
  4 <= h_pos h ->
  len (h_bytes h) - h_pos h <= Z.of_nat fuel ->
  LifFile.scan_loop (len (h_bytes h)) fuel st h = (r, h') ->
  r <> Raise FuelExhausted
  /\ h_bytes h' = h_bytes h
  /\ match r with
     | Ok _ => len (h_bytes h) <= h_pos h'
     | Raise _ => True
     end.
Proof.
  intros Hp Hfuel H. split; [exact (scan_loop_total fuel st h r h' Hp Hfuel H)|].
  revert st h Hp Hfuel H.
  induction fuel as [|fuel IH]; intros st h Hp Hfuel H.
  - cbn [LifFile.scan_loop] in H.
    destruct (Z.ltb_spec (h_pos h) (len (h_bytes h))); [lia|].
    injection H as <- <-. split; [reflexivity | assumption].
  - cbn [LifFile.scan_loop] in H.
    destruct (Z.ltb_spec (h_pos h) (len (h_bytes h))) as [Hlt|Hge].
    + apply bind_inv in H as [(st1 & h1 & E1 & H) | (e & E1 & ->)].
      * pose proof (scan_iteration_spec st h (Ok st1) h1 Hp E1) as (Hbytes & Hprog).
        rewrite <- Hbytes in H.
        apply IH in H; [| lia | rewrite Hbytes; lia].
        rewrite Hbytes in H. exact H.
      * split; [|exact I].
        apply (scan_iteration_cases st h (Raise e) h' Hp E1).
    + injection H as <- <-. split; [reflexivity | lia].
Qed.

Lemma scan_terminates_witness :
  LifFile.scan_loop (len example_truncated_file) 145
    (LifFile.mkScan [] None []) (mkHandle example_truncated_file 17)
  = (Ok (LifFile.mkScan [(37, 8)] (Some 45) [LifFile.truncation_warning]),
     mkHandle example_truncated_file 145)
  /\ Ok (LifFile.mkScan [(37, 8)] (Some 45) [LifFile.truncation_warning])
     <> Raise FuelExhausted.
Proof.
  assert (H : LifFile.scan_loop (len (h_bytes (mkHandle example_truncated_file 17))) 145
                (LifFile.mkScan [] None []) (mkHandle example_truncated_file 17)
              = (Ok (LifFile.mkScan [(37, 8)] (Some 45) [LifFile.truncation_warning]),
                 mkHandle example_truncated_file 145))
    by (vm_compute; reflexivity).
  split; [exact H|].
  apply (scan_terminates 145 (LifFile.mkScan [] None [])
           (mkHandle example_truncated_file 17) _ _) in H as (Hne & _).
  - exact Hne.
  - cbn [h_pos]. lia.
  - vm_compute. discriminate.
Defined.

(** ** Images of an opened file *)

Lemma open_counts (xml_parse : list byte -> result Element) (filename : string)
    (file : list byte) (lf : LifFile.t) (warnings : list string) :
  LifFile.__init__ xml_parse filename file = Ok (lf, warnings) ->
  len (LifFile.image_list lf) <= len (LifFile.offsets lf)
  /\ LifFile.filename lf = filename
  /\ LifFile.num_images lf = len (LifFile.image_list lf).
Proof.
  intros Hopen.
  assert (Hfields : LifFile.filename lf = filename
                    /\ LifFile.num_images lf = len (LifFile.image_list lf)).
  { unfold LifFile.__init__ in Hopen.
    destruct (LifFile.scan_file xml_parse file) as [[[xml_header xml_root] st]|];
      cbn [rbind] in Hopen; [|discriminate].
    destruct (_recursive_image_find xml_root [] "") as [image_list|];
      cbn [rbind] in Hopen; [|discriminate].
    destruct (LifFile.reconcile image_list st) as [offsets|];
      cbn [rbind] in Hopen; [|discriminate].
    injection Hopen as <- _. cbn. auto. }
  split; [|exact Hfields].
  apply open_stages in Hopen as (xml_header & st & _ & _ & Hrec & _).
  destruct (LifFile.sc_truncated st) as [tb|] eqn:Htr.
  - rewrite (reconcile_truncated _ _ tb Htr) in Hrec. injection Hrec as Hrec.
    rewrite <- Hrec, len_app, len_repeat. lia.
  - rewrite (reconcile_not_truncated _ _ Htr) in Hrec.
    destruct (Z.eqb_spec (len (LifFile.image_list lf)) (len (LifFile.sc_offsets st)));
      [|discriminate].
    injection Hrec as Hrec. rewrite <- Hrec. lia.
Qed.

Lemma py_getitem_nth {A} (l : list A) (n : Z) :
  0 <= n < len l ->
  exists a, nth_error l (Z.to_nat n) = Some a /\ py_getitem l n = Ok a.
Proof.
  intros Hn. unfold py_getitem.
  destruct (Z.ltb_spec n 0); [lia|]. destruct (Z.ltb_spec n 0); [lia|].
  destruct (nth_error l (Z.to_nat n)) as [a|] eqn:E.
  - exists a. auto.
  - apply nth_error_None in E. unfold len in Hn. lia.
Qed.

(** X13: on an opened file, [get_image(n)] refuses an index at or beyond
    the number of images, and for [0 <= n < num_images] builds the image
    from the [n]-th descriptor and the [n]-th block: a successful open
    leaves a block for every descriptor, so the pairing never runs out of
    range. *)
Theorem get_image_pairs_descriptor_with_block
    (xml_parse : list byte -> result Element) (filename : string)
    (file : list byte) (lf : LifFile.t) (warnings : list string) (n : Z) :
  LifFile.__init__ xml_parse filename file = Ok (lf, warnings) ->
  (LifFile.num_images lf <= n ->
   LifFile.get_image lf n = Raise (ValueError "There are not that many images!"))
  /\ (0 <= n < LifFile.num_images lf ->
      exists info block,
        nth_error (LifFile.image_list lf) (Z.to_nat n) = Some info
        /\ nth_error (LifFile.offsets lf) (Z.to_nat n) = Some block
        /\ LifFile.get_image lf n = LifImage.__init__ info block filename).
Proof.
  intros Hopen.
  destruct (open_counts _ _ _ _ _ Hopen) as (Hcount & Hname & Hnum).
  rewrite Hnum. unfold LifFile.get_image. rewrite Z.geb_leb. split.
  - intros Hn. destruct (Z.leb_spec (len (LifFile.image_list lf)) n); [reflexivity | lia].
  - intros Hn. destruct (Z.leb_spec (len (LifFile.image_list lf)) n); [lia|].
    destruct (py_getitem_nth (LifFile.offsets lf) n) as (block & Hb & ->); [lia|].
    destruct (py_getitem_nth (LifFile.image_list lf) n) as (info & Hi & ->); [lia|].
    cbn [rbind]. rewrite Hname. eauto.
Qed.

Lemma get_image_pairs_descriptor_with_block_witness :
  exists lf,
    LifFile.__init__ (fun _ => Ok example_root) "example.lif" example_truncated_file
    = Ok (lf, [LifFile.truncation_warning])
    /\ LifFile.get_image lf 2 = Raise (ValueError "There are not that many images!")
    /\ exists info block,
         nth_error (LifFile.image_list lf) (Z.to_nat 1) = Some info
         /\ nth_error (LifFile.offsets lf) (Z.to_nat 1) = Some block
         /\ LifFile.get_image lf 1 = LifImage.__init__ info block "example.lif".
Proof.
  eexists. split; [vm_compute; reflexivity|].
  match goal with
  | |- LifFile.get_image ?lf _ = _ /\ _ =>
      assert (Hopen : LifFile.__init__ (fun _ => Ok example_root) "example.lif"
                        example_truncated_file
                      = Ok (lf, [LifFile.truncation_warning]))
        by (vm_compute; reflexivity);
      pose proof (get_image_pairs_descriptor_with_block _ _ _ _ _ 2 Hopen) as [Hhigh _];
      pose proof (get_image_pairs_descriptor_with_block _ _ _ _ _ 1 Hopen) as [_ Hin]
  end.
  split.
  - apply Hhigh. vm_compute. discriminate.
  - apply Hin. vm_compute. split; [discriminate | reflexivity].
Defined.

(** X14: [get_iter_image(n)], for [0 <= n], yields what [get_image] gives
    for [n], [n + 1], ... up to the last image, in that order, as long as
    each image can be constructed. *)
Theorem get_iter_image_follows_get_image (lf : LifFile.t) (n : Z) :
  0 <= n ->
  (forall k, n <= k < len (LifFile.image_list lf) ->
             exists image, LifFile.get_image lf k = Ok image) ->
  LifFile.get_iter_image lf n
  = map (LifFile.get_image lf)
      (Zrange n (Z.to_nat (len (LifFile.image_list lf) - n))).
Proof.
  unfold LifFile.get_iter_image.
  assert (Hgen : forall fuel i,
             0 <= i ->
             len (LifFile.image_list lf) - i <= Z.of_nat fuel ->
             (forall k, i <= k < len (LifFile.image_list lf) ->
                        exists image, LifFile.get_image lf k = Ok image) ->
             LifFile.iter_images lf fuel i
             = map (LifFile.get_image lf)
                 (Zrange i (Z.to_nat (len (LifFile.image_list lf) - i)))).
  { induction fuel as [|fuel IH]; intros i Hi Hfuel Hok.
    - replace (Z.to_nat (len (LifFile.image_list lf) - i)) with O by lia. reflexivity.
    - cbn [LifFile.iter_images].
      destruct (Z.ltb_spec i (len (LifFile.image_list lf))) as [Hlt|Hge].
      + destruct (Hok i ltac:(lia)) as [image Himage].
        assert (Hsame : LifFile.get_image lf i
                        = (offsets <- py_getitem (LifFile.offsets lf) i ;;
                           image_info <- py_getitem (LifFile.image_list lf) i ;;
                           LifImage.__init__ image_info offsets (LifFile.filename lf))%res).
        { unfold LifFile.get_image. rewrite Z.geb_leb.
          destruct (Z.leb_spec (len (LifFile.image_list lf)) i); [lia | reflexivity]. }
        rewrite <- Hsame, Himage.
        replace (Z.to_nat (len (LifFile.image_list lf) - i))
          with (S (Z.to_nat (len (LifFile.image_list lf) - (i + 1)))) by lia.
        rewrite Zrange_S. cbn [map]. rewrite Himage. f_equal.
        apply IH; [lia | lia |]. intros k Hk. apply Hok. lia.
      + replace (Z.to_nat (len (LifFile.image_list lf) - i)) with O by lia. reflexivity. }
  intros Hn Hok. apply Hgen; [exact Hn | lia | exact Hok].
Qed.

Lemma get_iter_image_follows_get_image_witness :
  LifFile.__init__ (fun _ => Ok example_root) "example.lif" example_truncated_file
  = Ok (example_lif, [LifFile.truncation_warning])
  /\ LifFile.get_iter_image example_lif 0
     = [Ok (example_image "first" 2 (37, 8)); Ok (example_image "second" 8 (45, 0))].
Proof.
  split; [vm_compute; reflexivity|].
  rewrite (get_iter_image_follows_get_image example_lif 0).
  - vm_compute. reflexivity.
  - lia.
  - intros k Hk. change (len (LifFile.image_list example_lif)) with 2 in Hk.
    assert (Hcases : k = 0 \/ k = 1) by lia.
    destruct Hcases as [-> | ->]; eexists; vm_compute; reflexivity.
Defined.

(** ** Which bytes a plane read returns *)

Section PlaneContent.

Variables (info : data_dict) (offs : Z * Z) (fname : string) (self : LifImage.t).
Variables (nC nZ nT nM nY nX : Z).
Hypothesis Hshape : descriptor_shape info nC nZ nT nM nY nX.
Hypothesis Hinit : LifImage.__init__ info offs fname = Ok self.

Lemma _get_item_plane (file : list byte) (n : Z) :
  block_holds_planes self file nC nZ nT nM nY nX ->
  0 <= n < nC * nZ * nT * nM ->
  LifImage._get_item self file n
  = Ok (mkImage "L" (nY, nX)
          (firstn (Z.to_nat (nY * nX))
             (skipn (Z.to_nat (fst offs + snd offs / (nC * nZ * nT * nM) * n)) file))).
Proof.
  intros (HY & HX & HP & HL & Hfile & H53) Hn.
  destruct (init_inv _ _ _ _ _ _ _ _ _ _ Hshape Hinit)
    as (Hdims & Hch & _ & _ & Hoffs & _ & _ & Hdt).
  rewrite Hoffs in *.
  set (P := fst offs) in *. set (L := snd offs) in *.
  set (sd := nC * nZ * nT * nM) in *.
  assert (Hsd : 0 < sd) by lia.
  assert (HYX : 0 < nY * nX) by (apply Z.mul_pos_pos; assumption).
  assert (Hpl : nY * nX <= nY * nX * LifImage.dtype self).
  { rewrite <- (Z.mul_1_r (nY * nX)) at 1. apply Z.mul_le_mono_nonneg_l; lia. }
  assert (HL' : sd * (nY * nX) <= L).
  { apply Z.le_trans with (sd * (nY * nX * LifImage.dtype self)); [|exact HL].
    apply Z.mul_le_mono_nonneg_l; lia. }
  set (q := L / sd) in *.
  assert (Hq1 : nY * nX <= q) by (apply Z.div_le_lower_bound; lia).
  assert (Hq2 : sd * q <= L) by (apply Z.mul_div_le; lia).
  assert (Hq3 : q * n + q <= L).
  { apply Z.le_trans with (sd * q); [|exact Hq2].
    replace (q * n + q) with ((n + 1) * q) by ring.
    apply Z.mul_le_mono_nonneg_r; lia. }
  assert (Hq4 : 0 <= q * n) by (apply Z.mul_nonneg_nonneg; lia).
  unfold LifImage._get_item. rewrite Hdims, Hch, Hoffs.
  change (py_getitem [nC; nZ; nT; nM; nY; nX] 1) with (Ok nZ).
  change (py_getitem [nC; nZ; nT; nM; nY; nX] 2) with (Ok nT).
  change (py_getitem [nC; nZ; nT; nM; nY; nX] 3) with (Ok nM).
  change (py_getitem [nC; nZ; nT; nM; nY; nX] 4) with (Ok nY).
  change (py_getitem [nC; nZ; nT; nM; nY; nX] 5) with (Ok nX).
  cbv beta iota zeta delta [rbind]. fold sd P L.
  rewrite Z.geb_leb. destruct (Z.leb_spec sd n); [lia|].
  assert (E0 : (L =? 0) = false) by (apply Z.eqb_neq; lia).
  unfold with_open, bind, lift. rewrite E0.
  rewrite (int_truediv_small L sd) by lia. fold q.
  unfold seek.
  assert (E2 : ((P + q * n <? - 2 ^ 63) || (2 ^ 63 <=? P + q * n)) = false).
  { apply orb_false_iff. split; [apply Z.ltb_ge | apply Z.leb_gt]; lia. }
  rewrite E2. cbn [h_pos h_bytes Z.eqb].
  assert (E3 : (0 + (P + q * n) <? 0) = false) by (apply Z.ltb_ge; lia).
  rewrite E3. unfold read. cbn [h_pos h_bytes].
  assert (E4 : (q <? -1) = false) by (apply Z.ltb_ge; lia).
  assert (E5 : (q =? -1) = false) by (apply Z.eqb_neq; lia).
  rewrite E4, E5. cbn [fst]. rewrite Z.add_0_l.
  set (got := firstn (Z.to_nat q) (skipn (Z.to_nat (P + q * n)) file)).
  assert (Hgot : len got = q).
  { unfold got. rewrite len_firstn, len_skipn. lia. }
  unfold Image_frombytes_L.
  assert (E6 : ((nY <? 0) || (nX <? 0)) = false).
  { apply orb_false_iff. split; apply Z.ltb_ge; lia. }
  assert (E7 : ((nY =? 0) || (nX =? 0)) = false).
  { apply orb_false_iff. split; apply Z.eqb_neq; lia. }
  assert (E8 : (len got <? nY * nX) = false) by (apply Z.ltb_ge; lia).
  rewrite E6, E7, E8. unfold got. rewrite firstn_firstn.
  replace (Nat.min (Z.to_nat (nY * nX)) (Z.to_nat q)) with (Z.to_nat (nY * nX)) by lia.
  reflexivity.
Qed.

Lemma _get_item_np_plane (file : list byte) (n : Z) :
  block_holds_planes self file nC nZ nT nM nY nX ->
  0 < nC -> 0 < nZ -> 0 < nT -> 0 < nM ->
  0 <= n < nC * nZ * nT * nM ->
  LifImage._get_item_np self file n
  = Ok (mkArray (LifImage.dtype self) [nY; nX]
          (decode_items (Z.to_nat (nY * nX)) (Z.to_nat (LifImage.dtype self))
             (skipn (Z.to_nat (fst offs + nY * nX * LifImage.dtype self * n)) file))).
Proof.
  intros (HY & HX & HP & HL & Hfile & H53) HnC HnZ HnT HnM Hn.
  destruct (init_inv _ _ _ _ _ _ _ _ _ _ Hshape Hinit)
    as (Hdims & Hch & _ & _ & Hoffs & _ & _ & Hdt).
  rewrite Hoffs in *.
  set (P := fst offs) in *. set (L := snd offs) in *.
  set (w := LifImage.dtype self) in *.
  assert (Hw : 1 <= w <= 8) by lia.
  assert (HYX : 0 < nY * nX) by (apply Z.mul_pos_pos; assumption).
  assert (H1 : 0 < nC * nZ) by (apply Z.mul_pos_pos; assumption).
  assert (H2 : 0 < nC * nZ * nT) by (apply Z.mul_pos_pos; assumption).
  assert (Hsd : 0 < nC * nZ * nT * nM) by (apply Z.mul_pos_pos; assumption).
  set (sd := nC * nZ * nT * nM) in *.
  assert (Hpb : 0 < nY * nX * w) by (apply Z.mul_pos_pos; lia).
  set (pb := nY * nX * w) in *.
  assert (Hsd' : sd <= L).
  { apply Z.le_trans with (sd * pb); [|exact HL].
    rewrite <- (Z.mul_1_r sd) at 1. apply Z.mul_le_mono_nonneg_l; lia. }
  assert (Hbytes : pb * n + pb <= L).
  { apply Z.le_trans with (sd * pb); [|exact HL].
    replace (pb * n + pb) with ((n + 1) * pb) by ring.
    apply Z.mul_le_mono_nonneg_r; lia. }
  assert (Hpn : 0 <= pb * n) by (apply Z.mul_nonneg_nonneg; lia).
  assert (B53 : 2 ^ 53 < 2 ^ 63) by lia.
  assert (C1 : nC <= nC * nZ)
    by (rewrite <- (Z.mul_1_r nC) at 1; apply Z.mul_le_mono_nonneg_l; lia).
  assert (C2 : nC * nZ <= nC * nZ * nT)
    by (rewrite <- (Z.mul_1_r (nC * nZ)) at 1; apply Z.mul_le_mono_nonneg_l; lia).
  assert (C3 : nC * nZ * nT <= sd)
    by (unfold sd; rewrite <- (Z.mul_1_r (nC * nZ * nT)) at 1;
        apply Z.mul_le_mono_nonneg_l; lia).
  assert (C4 : nY <= nY * nX)
    by (rewrite <- (Z.mul_1_r nY) at 1; apply Z.mul_le_mono_nonneg_l; lia).
  assert (C5 : nY * nX <= pb)
    by (unfold pb; rewrite <- (Z.mul_1_r (nY * nX)) at 1;
        apply Z.mul_le_mono_nonneg_l; lia).
  assert (C6 : pb <= L) by lia.
  unfold LifImage._get_item_np. rewrite Hdims, Hoffs.
  cbv beta iota zeta delta [slice_to slice_last2 firstn skipn List.length Nat.sub np_prod fold_left].
  rewrite !Z.mul_1_l.
  rewrite (np_int64_small nC) by lia.
  rewrite (np_int64_small (nC * nZ)) by lia.
  rewrite (np_int64_small (nC * nZ * nT)) by lia.
  fold sd. rewrite (np_int64_small sd) by lia.
  rewrite Z.geb_leb. destruct (Z.leb_spec sd n); [lia|].
  rewrite (np_int64_small nY) by lia.
  rewrite (np_int64_small (nY * nX)) by lia.
  rewrite (np_int64_small (nY * nX)) by lia.
  fold P w. fold pb.
  rewrite (np_int64_small pb) by lia.
  rewrite (np_int64_small (pb * n)) by lia.
  rewrite (np_int64_small (P + pb * n)) by lia.
  unfold with_open, np_fromfile. cbn [h_pos h_bytes].
  rewrite offset_fits by lia.
  assert (E1 : (0 + (P + pb * n) <? 0) = false) by (apply Z.ltb_ge; lia).
  assert (E2 : (nY * nX <? 0) = false) by (apply Z.ltb_ge; lia).
  rewrite E1, E2. cbn [fst rbind]. rewrite Z.add_0_l.
  set (rest := skipn (Z.to_nat (P + pb * n)) file).
  assert (Hrest : pb <= len rest).
  { unfold rest. rewrite len_skipn. lia. }
  assert (Havail : nY * nX <= len rest / w).
  { apply Z.div_le_lower_bound; [lia|]. unfold pb in Hrest. lia. }
  rewrite Z.min_l by exact Havail.
  unfold np_reshape. cbn [nd_data nd_itemsize existsb count_occ].
  assert (E3 : (nY <? -1) = false) by (apply Z.ltb_ge; lia).
  assert (E4 : (nX <? -1) = false) by (apply Z.ltb_ge; lia).
  rewrite E3, E4. cbn [orb].
  destruct (Z.eq_dec nY (-1)); [lia|]. destruct (Z.eq_dec nX (-1)); [lia|].
  assert (Hsize : len (decode_items (Z.to_nat (nY * nX)) (Z.to_nat w) rest) = nY * nX).
  { unfold len. rewrite decode_items_length. lia. }
  rewrite Hsize. cbn [Zprod fold_right]. rewrite Z.mul_1_r, Z.eqb_refl.
  reflexivity.
Qed.

End PlaneContent.

Lemma decode_items_bytes (k : nat) (bs : list byte) :
  (k <= List.length bs)%nat ->
  decode_items k 1 bs = map byte_value (firstn k bs).
Proof.
  revert bs; induction k as [|k IH]; intros bs Hk; [reflexivity|].
  destruct bs as [|b bs]; [simpl in Hk; lia|].
  simpl in Hk. cbn [decode_items firstn skipn map le_to_Z].
  rewrite IH by lia. unfold byte_value. f_equal. lia.
Qed.

(** X15: a frame read that passes the bounds check, on a block that holds
    the planes, returns these bytes.  As an image: the first
    [height * width] bytes found [int(block_length / planes) * index]
    bytes into the block, whatever the pixel width.  As an array: the
    [height * width] little-endian items found
    [height * width * itemsize * index] bytes after the block's position. *)
Theorem get_frame_plane_content
    (info : data_dict) (offs : Z * Z) (fname : string) (self : LifImage.t)
    (nC nZ nT nM nY nX : Z) (file : list byte) (z t c m : Z) :
  descriptor_shape info nC nZ nT nM nY nX ->
  LifImage.__init__ info offs fname = Ok self ->
  block_holds_planes self file nC nZ nT nM nY nX ->
  0 <= z < nZ -> 0 <= t < nT -> 0 <= c < nC -> 0 <= m < nM ->
  let n := item_requested nC nZ nT z t c m in
  let planes := nC * nZ * nT * nM in
  let w := LifImage.dtype self in
  LifImage.get_frame self file z t c m false
  = Ok (AsImage (mkImage "L" (nY, nX)
          (firstn (Z.to_nat (nY * nX))
             (skipn (Z.to_nat (fst offs + snd offs / planes * n)) file))))
  /\ LifImage.get_frame self file z t c m true
     = Ok (AsArray (mkArray w [nY; nX]
             (decode_items (Z.to_nat (nY * nX)) (Z.to_nat w)
                (skipn (Z.to_nat (fst offs + nY * nX * w * n)) file)))).
Proof.
  intros Hshape Hinit Hblock Hz Ht Hc Hm n planes w.
  assert (Hn : 0 <= n < planes).
  { split; [apply item_requested_nonneg | apply item_requested_lt]; lia. }
  split.
  - rewrite (get_frame_delegates info offs fname self nC nZ nT nM nY nX Hshape Hinit)
      by lia.
    fold n.
    rewrite (_get_item_plane info offs fname self nC nZ nT nM nY nX Hshape Hinit
               file n Hblock Hn).
    reflexivity.
  - rewrite (get_frame_delegates info offs fname self nC nZ nT nM nY nX Hshape Hinit)
      by lia.
    fold n.
    rewrite (_get_item_np_plane info offs fname self nC nZ nT nM nY nX Hshape Hinit
               file n Hblock) by lia.
    reflexivity.
Qed.

Lemma get_frame_plane_content_witness :
  LifImage.get_frame (example_image "first" 2 (37, 8)) example_truncated_file
    0 0 1 0 false
  = Ok (AsImage (mkImage "L" (2, 2) [x05; x06; x07; x08]))
  /\ LifImage.get_frame (example_image "first" 2 (37, 8)) example_truncated_file
       0 0 1 0 true
     = Ok (AsArray (mkArray 1 [2; 2] [5; 6; 7; 8])).
Proof.
  assert (Hs : descriptor_shape (example_info "first" 2) 2 1 1 1 2 2)
    by (split; reflexivity).
  assert (Hi : LifImage.__init__ (example_info "first" 2) (37, 8) "example.lif"
               = Ok (example_image "first" 2 (37, 8)))
    by (vm_compute; reflexivity).
  assert (Hb : block_holds_planes (example_image "first" 2 (37, 8))
                 example_truncated_file 2 1 1 1 2 2)
    by (unfold block_holds_planes; vm_compute; intuition congruence).
  destruct (get_frame_plane_content (example_info "first" 2) (37, 8) "example.lif"
              (example_image "first" 2 (37, 8)) 2 1 1 1 2 2
              example_truncated_file 0 0 1 0 Hs Hi Hb
              ltac:(lia) ltac:(lia) ltac:(lia) ltac:(lia)) as [H1 H2].
  rewrite H1, H2. split; vm_compute; reflexivity.
Defined.

(** X16: for an image of 8-bit pixels whose block is exactly
    [planes * dims[4] * dims[5]] bytes long, the two return modes of
    [get_frame] hold the same values in the same order: the elements of
    the array, row after row, are the values of the bytes of the image.
    Their sizes are both made of [dims[4]] and [dims[5]], in that order:
    the array has the shape [(dims[4], dims[5])], rows and columns, and
    the image is created with the size [(dims[4], dims[5])], which PIL
    takes as width and height. *)
Theorem eight_bit_modes_agree
    (info : data_dict) (offs : Z * Z) (fname : string) (self : LifImage.t)
    (nC nZ nT nM nY nX : Z) (file : list byte) (z t c m : Z) :
  descriptor_shape info nC nZ nT nM nY nX ->
  LifImage.__init__ info offs fname = Ok self ->
  block_holds_planes self file nC nZ nT nM nY nX ->
  LifImage.dtype self = 1 ->
  snd offs = nC * nZ * nT * nM * (nY * nX) ->
  0 <= z < nZ -> 0 <= t < nT -> 0 <= c < nC -> 0 <= m < nM ->
  exists im a,
    LifImage.get_frame self file z t c m false = Ok (AsImage im)
    /\ LifImage.get_frame self file z t c m true = Ok (AsArray a)
    /\ nd_shape a = [nY; nX]
    /\ im_size im = (nY, nX)
    /\ nd_data a = map byte_value (im_data im).
Proof.
  intros Hshape Hinit Hblock Hw HL Hz Ht Hc Hm.
  set (n := item_requested nC nZ nT z t c m).
  set (planes := nC * nZ * nT * nM) in *.
  assert (Hn : 0 <= n < planes).
  { split; [apply item_requested_nonneg | apply item_requested_lt]; lia. }
  assert (Hoffs : LifImage.offsets self = offs)
    by (destruct (init_inv _ _ _ _ _ _ _ _ _ _ Hshape Hinit)
          as (_ & _ & _ & _ & Ho & _); exact Ho).
  pose proof Hblock as (HY & HX & HP & HLb & Hfile & H53).
  rewrite Hoffs in HP, HLb, Hfile.
  assert (HYX : 0 < nY * nX) by (apply Z.mul_pos_pos; assumption).
  assert (Hq : snd offs / planes = nY * nX).
  { rewrite HL, Z.mul_comm. apply Z.div_mul. lia. }
  assert (Hpn : 0 <= nY * nX * n) by (apply Z.mul_nonneg_nonneg; lia).
  assert (Hend : nY * nX * n + nY * nX <= snd offs).
  { rewrite HL. replace (nY * nX * n + nY * nX) with ((n + 1) * (nY * nX)) by ring.
    apply Z.mul_le_mono_nonneg_r; lia. }
  do 2 eexists. split; [|split; [|split; [|split]]].
  - rewrite (get_frame_delegates info offs fname self nC nZ nT nM nY nX Hshape Hinit)
      by lia.
    fold n.
    rewrite (_get_item_plane info offs fname self nC nZ nT nM nY nX Hshape Hinit
               file n Hblock Hn).
    reflexivity.
  - rewrite (get_frame_delegates info offs fname self nC nZ nT nM nY nX Hshape Hinit)
      by lia.
    fold n.
    rewrite (_get_item_np_plane info offs fname self nC nZ nT nM nY nX Hshape Hinit
               file n Hblock) by lia.
    reflexivity.
  - reflexivity.
  - reflexivity.
  - cbn [nd_data im_data]. rewrite Hw. fold planes. rewrite Hq, Z.mul_1_r.
    change (Z.to_nat 1) with 1%nat.
    rewrite decode_items_bytes.
    + reflexivity.
    + rewrite length_skipn. unfold len in Hfile. lia.
Qed.

(** A plane with [dims[4] = 2] and [dims[5] = 3]: the array has 2 rows of
    3 elements, the image the size (2, 3), and both hold the six bytes of
    channel 1. *)
Lemma eight_bit_modes_agree_witness :
  exists im a,
    LifImage.get_frame (image_of example_wide_info (37, 12) 1) example_truncated_file
      0 0 1 0 false = Ok (AsImage im)
    /\ LifImage.get_frame (image_of example_wide_info (37, 12) 1) example_truncated_file
         0 0 1 0 true = Ok (AsArray a)
    /\ nd_shape a = [2; 3]
    /\ im_size im = (2, 3)
    /\ nd_data a = map byte_value (im_data im).
Proof.
  apply (eight_bit_modes_agree example_wide_info (37, 12) "example.lif"
           (image_of example_wide_info (37, 12) 1) 2 1 1 1 2 3
           example_truncated_file 0 0 1 0).
  - split; reflexivity.
  - vm_compute. reflexivity.
  - unfold block_holds_planes. vm_compute. intuition congruence.
  - reflexivity.
  - reflexivity.
  - lia.
  - lia.
  - lia.
  - lia.
Defined.

(** ** The descriptor search *)

Lemma _recursive_image_find_eq (tree : Element) (acc : list data_dict) (path : string) :
  _recursive_image_find tree acc path = find_in_items path (items_of tree) acc.
Proof. destruct tree; reflexivity. Qed.

Lemma items_of_Forall (P : Element -> Prop) (n : string) (es cs : list Element)
    (d : list (list DimensionDescription)) (c : list ChannelDescription)
    (t : list Tile) :
  Forall P es -> Forall P cs -> Forall P (items_of (mkElement n es cs d c t)).
Proof.
  intros Hes Hcs. unfold items_of. cbn [el_children el_elements].
  destruct (len cs <? 1); assumption.
Qed.

Lemma rmap_app_nil (r : result (list data_dict)) : rmap (app []) r = r.
Proof. destruct r; reflexivity. Qed.

Lemma find_in_items_appends (path : string) (items : list Element) :
  Forall (fun e => forall acc p,
            _recursive_image_find e acc p
            = rmap (app acc) (_recursive_image_find e [] p)) items ->
  forall acc,
    find_in_items path items acc = rmap (app acc) (find_in_items path items []).
Proof.
  induction 1 as [|item rest Hitem _ IH]; intros acc.
  - cbn. rewrite app_nil_r. reflexivity.
  - cbn [find_in_items]. cbv zeta.
    set (p' := if String.eqb path "" then el_Name item
               else (path ++ "/" ++ el_Name item)%string).
    destruct (len (el_children item) >? 0).
    + rewrite (Hitem acc p').
      destruct (_recursive_image_find item [] p') as [found|e]; cbn [rmap rbind];
        [|reflexivity].
      rewrite (IH (acc ++ found)), (IH found).
      destruct (find_in_items path rest []) as [more|e]; cbn [rmap]; [|reflexivity].
      rewrite app_assoc. reflexivity.
    + destruct (len (el_dimensions item) >? 0).
      * destruct (image_data_dict item path) as [d|e]; cbn [rbind rmap];
          [|reflexivity].
        rewrite (IH (acc ++ [d])), (IH ([] ++ [d])).
        destruct (find_in_items path rest []) as [more|e]; cbn [rmap]; [|reflexivity].
        rewrite app_assoc. reflexivity.
      * apply IH.
Qed.

(** X17: [_recursive_image_find] only appends to the list it is given:
    called with a list [acc], it returns [acc] followed by what it returns
    when called with the empty list, and it raises exactly when that call
    raises, with the same exception. *)
Theorem _recursive_image_find_appends
    (tree : Element) (acc : list data_dict) (path : string) :
  _recursive_image_find tree acc path
  = rmap (app acc) (_recursive_image_find tree [] path).
Proof.
  revert acc path.
  induction tree as [n es cs d c t Hes Hcs] using Element_nested_ind.
  intros acc path. rewrite !_recursive_image_find_eq.
  apply find_in_items_appends. apply items_of_Forall; assumption.
Qed.

Lemma string_append_assoc (a b c : string) :
  ((a ++ b) ++ c = a ++ b ++ c)%string.
Proof. induction a as [|ch a IH]; cbn; [reflexivity | rewrite IH; reflexivity]. Qed.

Lemma image_data_dict_path (item : Element) (path : string) (d : data_dict) :
  image_data_dict item path = Ok d ->
  dd_path d = (path ++ "/")%string /\ dd_name d = el_Name item.
Proof.
  unfold image_data_dict.
  destruct (py_getitem (map ch_BytesInc (el_channel_list item)) 1) as [s0|];
    cbn [rbind]; [|discriminate].
  destruct (float_of_int (len (el_channel_list item) - 1)) as [l0|];
    cbn [rbind]; [|discriminate].
  rewrite fold_append_dimension.
  cbv beta iota zeta delta [map app].
  repeat match goal with
         | |- context [py_getitem (?a :: ?b :: ?l) 1] =>
             change (py_getitem (a :: b :: l) 1) with (Ok b)
         | |- context [py_getitem (?a :: ?b :: ?c :: ?l) 2] =>
             change (py_getitem (a :: b :: c :: l) 2) with (Ok c)
         | |- context [py_getitem (?a :: ?b :: ?c :: ?d :: ?e :: ?l) 4] =>
             change (py_getitem (a :: b :: c :: d :: e :: l) 4) with (Ok e)
         | |- context [py_getitem (?a :: ?b :: ?c :: ?d :: ?e :: ?f :: ?l) 5] =>
             change (py_getitem (a :: b :: c :: d :: e :: f :: l) 5) with (Ok f)
         end.
  cbv beta iota delta [rbind].
  destruct (float_mul_int (axis_length item 3) (10 ^ 6)) as [x1|]; [|discriminate].
  destruct (int_div_float (axis_count item 3) x1) as [sc1|]; [|discriminate].
  destruct (int_div_float (axis_count item 4) (axis_length item 4)) as [sc2|];
    [|discriminate].
  destruct (float_mul_int (axis_length item 2) (10 ^ 6)) as [x4|]; [|discriminate].
  destruct (int_div_float (axis_count item 2 - 1) x4) as [sc4|]; [|discriminate].
  destruct (float_mul_int (axis_length item 1) (10 ^ 6)) as [x5|]; [|discriminate].
  destruct (int_div_float (axis_count item 1 - 1) x5) as [sc5|]; [|discriminate].
  intros H; injection H as <-. split; reflexivity.
Qed.

Lemma find_in_items_paths (path : string) (items : list Element) :
  Forall (fun e => forall acc p r,
            _recursive_image_find e acc p = Ok r ->
            exists found,
              r = acc ++ found
              /\ Forall (fun d => exists s, dd_path d = (p ++ s ++ "/")%string) found)
         items ->
  forall acc r,
    find_in_items path items acc = Ok r ->
    exists found,
      r = acc ++ found
      /\ Forall (fun d => exists s, dd_path d = (path ++ s ++ "/")%string) found.
Proof.
  induction 1 as [|item rest Hitem _ IH]; intros acc r.
  - cbn. intros H; injection H as <-. exists []. rewrite app_nil_r. auto.
  - cbn [find_in_items]. cbv zeta.
    set (p' := if String.eqb path "" then el_Name item
               else (path ++ "/" ++ el_Name item)%string).
    assert (Hp' : exists s, forall s', (p' ++ s' ++ "/" = path ++ (s ++ s') ++ "/")%string).
    { unfold p'. destruct (String.eqb_spec path "") as [-> | _].
      - exists (el_Name item). intros s'. cbn. rewrite string_append_assoc. reflexivity.
      - exists ("/" ++ el_Name item)%string. intros s'.
        rewrite !string_append_assoc. reflexivity. }
    destruct Hp' as (s & Hs).
    destruct (len (el_children item) >? 0).
    + destruct (_recursive_image_find item acc p') as [r1|e] eqn:E1; cbn [rbind];
        [|discriminate].
      intros Hrest.
      destruct (Hitem acc p' r1 E1) as (f1 & -> & Hf1).
      destruct (IH _ _ Hrest) as (f2 & -> & Hf2).
      exists (f1 ++ f2). split; [rewrite app_assoc; reflexivity|].
      apply Forall_app. split; [|exact Hf2].
      eapply Forall_impl; [|exact Hf1].
      intros d (s' & Hd). exists (s ++ s')%string. rewrite Hd. apply Hs.
    + destruct (len (el_dimensions item) >? 0).
      * destruct (image_data_dict item path) as [d|e] eqn:Ed; cbn [rbind];
          [|discriminate].
        intros Hrest.
        destruct (IH _ _ Hrest) as (f2 & -> & Hf2).
        exists (d :: f2). split; [rewrite <- app_assoc; reflexivity|].
        constructor; [|exact Hf2].
        exists ""%string. apply (image_data_dict_path item path d Ed).
      * apply IH.
Qed.

(** X18: what [_recursive_image_find] returns is the list it was given
    followed by the descriptors it found, and every descriptor found
    records a path that starts with the path the search was called with
    and ends in a slash. *)
Theorem _recursive_image_find_paths
    (tree : Element) (acc : list data_dict) (path : string) (r : list data_dict) :
  _recursive_image_find tree acc path = Ok r ->
  exists found,
    r = acc ++ found
    /\ Forall (fun d => exists s, dd_path d = (path ++ s ++ "/")%string) found.
Proof.
  revert acc path r.
  induction tree as [n es cs d c t Hes Hcs] using Element_nested_ind.
  intros acc path r. rewrite _recursive_image_find_eq.
  apply find_in_items_paths. apply items_of_Forall; assumption.
Qed.

Lemma _recursive_image_find_paths_witness :
  exists found,
    map (with_path "lif/folder/") [example_info "first" 2; example_info "second" 8]
    = [] ++ found
    /\ Forall (fun d => exists s, dd_path d = ("lif" ++ s ++ "/")%string) found.
Proof.
  apply (_recursive_image_find_paths example_root [] "lif").
  vm_compute. reflexivity.
Defined.

(** ** Blocks of length 0 *)

Lemma _get_item_blank
    (info : data_dict) (offs : Z * Z) (fname : string) (self : LifImage.t)
    (nC nZ nT nM nY nX : Z) (file : list byte) (n : Z) :
  descriptor_shape info nC nZ nT nM nY nX ->
  LifImage.__init__ info offs fname = Ok self ->
  snd offs = 0 ->
  0 < nY -> 0 < nX ->
  0 <= fst offs ->
  fst offs + nC * nZ * nT * nM * nY * nX * (nC * nZ * nT * nM) < 2 ^ 63 ->
  0 <= n < nC * nZ * nT * nM ->
  LifImage._get_item self file n
  = Ok (mkImage "L" (nY, nX) (repeat x00 (Z.to_nat (nY * nX)))).
Proof.
  intros Hshape Hinit HL HY HX HP Hbound Hn.
  destruct (init_inv _ _ _ _ _ _ _ _ _ _ Hshape Hinit)
    as (Hdims & Hch & _ & _ & Hoffs & _).
  set (sd := nC * nZ * nT * nM) in *.
  assert (Hsd : 0 < sd) by lia.
  assert (HYX : 0 < nY * nX) by (apply Z.mul_pos_pos; assumption).
  assert (Hlen : nY * nX <= sd * nY * nX).
  { rewrite <- Z.mul_assoc. rewrite <- (Z.mul_1_l (nY * nX)) at 1.
    apply Z.mul_le_mono_nonneg_r; lia. }
  assert (Hpos : 0 <= sd * nY * nX * n) by (apply Z.mul_nonneg_nonneg; lia).
  assert (Hle : sd * nY * nX * n <= sd * nY * nX * sd)
    by (apply Z.mul_le_mono_nonneg_l; lia).
  unfold LifImage._get_item. rewrite Hdims, Hch, Hoffs, HL.
  change (py_getitem [nC; nZ; nT; nM; nY; nX] 1) with (Ok nZ).
  change (py_getitem [nC; nZ; nT; nM; nY; nX] 2) with (Ok nT).
  change (py_getitem [nC; nZ; nT; nM; nY; nX] 3) with (Ok nM).
  change (py_getitem [nC; nZ; nT; nM; nY; nX] 4) with (Ok nY).
  change (py_getitem [nC; nZ; nT; nM; nY; nX] 5) with (Ok nX).
  cbv beta iota zeta delta [rbind]. fold sd.
  rewrite Z.geb_leb. destruct (Z.leb_spec sd n); [lia|].
  change (0 =? 0) with true. cbv iota.
  unfold with_open, bind, lift, seek.
  assert (E2 : ((fst offs + sd * nY * nX * n <? - 2 ^ 63)
                || (2 ^ 63 <=? fst offs + sd * nY * nX * n)) = false).
  { apply orb_false_iff. split; [apply Z.ltb_ge | apply Z.leb_gt]; lia. }
  rewrite E2. cbn [h_pos h_bytes Z.eqb].
  assert (E3 : (0 + (fst offs + sd * nY * nX * n) <? 0) = false)
    by (apply Z.ltb_ge; lia).
  rewrite E3. unfold ret. cbn [fst].
  unfold Image_frombytes_L.
  assert (E6 : ((nY <? 0) || (nX <? 0)) = false).
  { apply orb_false_iff. split; apply Z.ltb_ge; lia. }
  assert (E7 : ((nY =? 0) || (nX =? 0)) = false).
  { apply orb_false_iff. split; apply Z.eqb_neq; lia. }
  assert (E8 : (len (repeat x00 (Z.to_nat (sd * nY * nX))) <? nY * nX) = false).
  { apply Z.ltb_ge. unfold len. rewrite repeat_length. lia. }
  rewrite E6, E7, E8.
  replace (Z.to_nat (sd * nY * nX))
    with (Z.to_nat (nY * nX) + (Z.to_nat (sd * nY * nX) - Z.to_nat (nY * nX)))%nat
    by lia.
  rewrite repeat_app, firstn_app, repeat_length, Nat.sub_diag.
  cbn [firstn]. rewrite app_nil_r.
  rewrite firstn_all2 by (rewrite repeat_length; lia).
  reflexivity.
Qed.

(** X19: for an image whose block has length 0, [get_frame] in image mode
    returns, at every in-bounds coordinate and whatever the file holds,
    the [height] x [width] image of zero bytes. *)
Theorem blank_block_reads_zeros
    (info : data_dict) (offs : Z * Z) (fname : string) (self : LifImage.t)
    (nC nZ nT nM nY nX : Z) (file : list byte) (z t c m : Z) :
  descriptor_shape info nC nZ nT nM nY nX ->
  LifImage.__init__ info offs fname = Ok self ->
  snd offs = 0 ->
  0 < nY -> 0 < nX ->
  0 <= fst offs ->
  fst offs + nC * nZ * nT * nM * nY * nX * (nC * nZ * nT * nM) < 2 ^ 63 ->
  0 <= z < nZ -> 0 <= t < nT -> 0 <= c < nC -> 0 <= m < nM ->
  LifImage.get_frame self file z t c m false
  = Ok (AsImage (mkImage "L" (nY, nX) (repeat x00 (Z.to_nat (nY * nX))))).
Proof.
  intros Hshape Hinit HL HY HX HP Hbound Hz Ht Hc Hm.
  rewrite (get_frame_delegates info offs fname self nC nZ nT nM nY nX Hshape Hinit)
    by lia.
  rewrite (_get_item_blank info offs fname self nC nZ nT nM nY nX file _
             Hshape Hinit HL HY HX HP Hbound).
  - reflexivity.
  - split; [apply item_requested_nonneg | apply item_requested_lt]; lia.
Qed.

Lemma blank_block_reads_zeros_witness :
  LifImage.get_frame (example_image "second" 8 (45, 0)) [] 0 0 1 0 false
  = Ok (AsImage (mkImage "L" (8, 8) (repeat x00 64))).
Proof.
  apply (blank_block_reads_zeros (example_info "second" 8) (45, 0) "example.lif"
           (example_image "second" 8 (45, 0)) 2 1 1 1 8 8 [] 0 0 1 0).
  - split; reflexivity.
  - vm_compute. reflexivity.
  - reflexivity.
  - lia.
  - lia.
  - cbn. lia.
  - cbn. lia.
  - lia.
  - lia.
  - lia.
  - lia.
Defined.

(** ** The truncation test *)

(** X20: [_check_truncated] looks at the 100 bytes that start 4 bytes
    before the position and leaves the file 4 bytes before where it was;
    less than 4 bytes into the file it raises [OSError] and leaves the
    file where it was. *)
Theorem _check_truncated_moves_back (h : handle) :
  h_pos h + 96 <= len (h_bytes h) ->
  _check_truncated h
  = if h_pos h <? 4 then (Raise OSError, h)
    else (Ok (bytes_eqb (window h 4 100) (repeat x00 100)),
          mkHandle (h_bytes h) (h_pos h - 4)).
Proof.
  intros Hlen. destruct (Z.ltb_spec (h_pos h) 4) as [Hp | Hp].
  - unfold _check_truncated, bind, seek.
    change ((-4 <? - 2 ^ 63) || (2 ^ 63 <=? -4)) with false.
    change (1 =? 0) with false. change (1 =? 1) with true. cbv iota.
    destruct (Z.ltb_spec (h_pos h + -4) 0); [reflexivity | lia].
  - apply _check_truncated_spec; [exact Hp|].
    unfold window. rewrite length_firstn, length_skipn.
    unfold len in Hlen. lia.
Qed.

Lemma _check_truncated_moves_back_witness :
  _check_truncated (mkHandle example_truncated_file 49)
  = (Ok true, mkHandle example_truncated_file 45)
  /\ _check_truncated (mkHandle example_truncated_file 3)
     = (Raise OSError, mkHandle example_truncated_file 3).
Proof.
  split.
  - rewrite (_check_truncated_moves_back (mkHandle example_truncated_file 49)).
    + vm_compute. reflexivity.
    + vm_compute. discriminate.
  - rewrite (_check_truncated_moves_back (mkHandle example_truncated_file 3)).
    + vm_compute. reflexivity.
    + vm_compute. discriminate.
Defined.

(** ** A block too long to skip *)

(** X22: when the last statement of the body, the seek over description
    and payload, is refused because the distance does not fit 64 bits,
    the [ValueError] it raises is caught by the [except] clause of the
    scan like a failed assertion.  The block has been appended before
    and stays recorded, and the truncation test runs where the block
    header ended. *)
Theorem refused_seek_is_handled
    (st : LifFile.scan_state) (h h1 : handle) (offs' : list (Z * Z)) (skip : Z) :
  LifFile.scan_header (LifFile.sc_offsets st) h = (Ok (offs', skip), h1) ->
  2 ^ 63 <= skip ->
  LifFile.scan_iteration st h
  = LifFile.scan_handler
      (LifFile.mkScan offs' (LifFile.sc_truncated st) (LifFile.sc_warnings st))
      seek_error h1.
Proof.
  intros Hhead Hskip. unfold LifFile.scan_iteration. rewrite Hhead.
  unfold try_except_ValueError, bind, seek.
  destruct (Z.leb_spec (2 ^ 63) skip) as [_|Hlt]; [|lia].
  rewrite orb_true_r. reflexivity.
Qed.

(** A block of length [2^63] is recorded at 39; the zero bytes that
    follow its header make the scan flag a truncation at 35. *)
Lemma refused_seek_is_handled_witness :
  LifFile.scan_iteration (LifFile.mkScan [] None [])
    (mkHandle example_oversized_block_file 17)
  = (Ok (LifFile.mkScan [(39, 2 ^ 63)] (Some 35) [LifFile.truncation_warning]),
     mkHandle example_oversized_block_file 139).
Proof.
  rewrite (refused_seek_is_handled (LifFile.mkScan [] None [])
             (mkHandle example_oversized_block_file 17)
             (mkHandle example_oversized_block_file 39) [(39, 2 ^ 63)] (2 ^ 63)).
  - vm_compute. reflexivity.
  - vm_compute. reflexivity.
  - lia.
Defined.
